(** * FAS: fuel automation supervisor — a shallow embedding

    The development follows the JavaScript sources:
    - [UartService.js]        the nozzle port (pending-request table, frame
                              classification, correlation);
    - [FuelStateMachine]      the refill supervisor (state transitions, the
                              meter stability filter, the UART frame handler,
                              transaction finalisation);
    - [routes/api.js]         the operator HTTP surface
                              ([/api/drf-submit], [/api/operation]);
    - [state-machine/states.js] the table of allowed transitions.

    Conventions.  [Date.now()] is an explicit argument [now : Z]
    (milliseconds).  A text is kept as its UTF-8 bytes.  A number is a
    binary64 value: [parseInt] and the helpers of [utils/helpers.js]
    round to the nearest one.  A meter reading of the supervisor is kept
    as the rational that its decimal text denotes: [===] on readings is
    [Qeq_bool], [>=] is [Qle_bool], and the rounding of a reading by
    [parseFloat] is not followed.  Objects used as property bags are
    finite maps from property names.  Calls that leave the supervisor
    (event emission, store calls, serial writes) are appended to a
    trace. *)

From Stdlib Require Import ZArith QArith Qreduction List String Ascii Bool Lia.
From Stdlib Require Qcanon.
From stdpp Require Import base option gmap strings.
Import ListNotations.

Local Open Scope Z_scope.
Local Open Scope string_scope.

(** ** JavaScript text primitives *)

Module Js.

(** [String.prototype.startsWith] *)
Fixpoint startsWith (s p : string) : bool :=
  match p with
  | EmptyString => true
  | String c p' =>
      match s with
      | EmptyString => false
      | String d s' => Ascii.eqb c d && startsWith s' p'
      end
  end.

(** [String.prototype.includes] *)
Fixpoint includes (s p : string) : bool :=
  startsWith s p ||
  match s with
  | EmptyString => false
  | String _ s' => includes s' p
  end.

(** [s.endsWith("\n")] *)
Fixpoint endsWithNewline (s : string) : bool :=
  match s with
  | EmptyString => false
  | String c EmptyString => (nat_of_ascii c =? 10)%nat
  | String _ s' => endsWithNewline s'
  end.

Definition isDigit (c : ascii) : bool :=
  let n := nat_of_ascii c in (48 <=? n)%nat && (n <=? 57)%nat.

Definition isHex (c : ascii) : bool :=
  let n := nat_of_ascii c in
  isDigit c || ((65 <=? n)%nat && (n <=? 70)%nat)
            || ((97 <=? n)%nat && (n <=? 102)%nat).

(** Greedy [c+] for a character class: the longest prefix in the class
    and the rest.  In every pattern below the class is followed by a
    literal outside the class, so the greedy match is the only one. *)
Fixpoint span (p : ascii -> bool) (s : string) : string * string :=
  match s with
  | EmptyString => (EmptyString, EmptyString)
  | String c s' =>
      if p c then let '(a, b) := span p s' in (String c a, b)
      else (EmptyString, s)
  end.

Definition plus (p : ascii -> bool) (s : string) : option (string * string) :=
  match span p s with
  | (EmptyString, _) => None
  | (a, b) => Some (a, b)
  end.

(** A literal at the head of the subject. *)
Fixpoint lit (l s : string) : option string :=
  match l with
  | EmptyString => Some s
  | String c l' =>
      match s with
      | EmptyString => None
      | String d s' => if Ascii.eqb c d then lit l' s' else None
      end
  end.

(** [String.prototype.match] with a non-global pattern: the leftmost
    position at which the pattern matches. *)
Fixpoint search {A : Type} (at_head : string -> option A) (s : string)
  : option A :=
  match at_head s with
  | Some r => Some r
  | None =>
      match s with
      | EmptyString => None
      | String _ s' => search at_head s'
      end
  end.

Definition digitVal (c : ascii) : Z := Z.of_nat (nat_of_ascii c) - 48.

(** Value of a string of decimal digits. *)
Fixpoint decimal (acc : Z) (s : string) : Z :=
  match s with
  | EmptyString => acc
  | String c s' => decimal (10 * acc + digitVal c) s'
  end.

Fixpoint pow10 (s : string) : positive :=
  match s with
  | EmptyString => 1%positive
  | String _ s' => (10 * pow10 s')%positive
  end.

(** JavaScript numbers as far as the sources distinguish them.  [Fin q]
    is the finite number of value [q]; the sign of a zero is not kept. *)
Inductive number : Type :=
| NaN
| PosInfinity
| NegInfinity
| Fin (q : Q).

(** *** The number for a rational

    A number is an IEEE 754 binary64 value.  The number for a rational
    is the nearest such value, the one with the even significand when
    two are as near, and an infinity from [2^1024 - 2^970] on; the unit
    in the last place is [2^e], with [e] at least [-1074]. *)

(** [n / d / 2^e] as a fraction *)
Definition scaled (n d e : Z) : Z * Z :=
  if (0 <=? e)%Z then (n, d * 2 ^ e) else (n * 2 ^ (- e), d).

(** The integer part of the binary logarithm of [n / d]. *)
Definition floorLog2 (n d : Z) : Z :=
  let k := Z.log2 n - Z.log2 d in
  let '(a, b) := scaled n d k in
  if (a <? b)%Z then k - 1 else k.

(** The nearest value to the positive rational [n / d]; [None] is the
    overflow. *)
Definition nearest (n d : Z) : option Q :=
  let e := Z.max (floorLog2 n d - 52) (-1074) in
  let '(a, b) := scaled n d e in
  let m := a / b in
  let r := a mod b in
  let m :=
    if (b <? 2 * r)%Z || ((b =? 2 * r)%Z && Z.odd m) then m + 1 else m in
  if (0 <=? e)%Z then
    if (2 ^ 1024 <=? m * 2 ^ e)%Z then None else Some (inject_Z (m * 2 ^ e))
  else Some (Qred (m # Z.to_pos (2 ^ (- e)))).

Definition double (q : Q) : number :=
  match Qnum q with
  | Z0 => Fin 0
  | Zpos n =>
      match nearest (Zpos n) (Zpos (Qden q)) with
      | Some r => Fin r
      | None => PosInfinity
      end
  | Zneg n =>
      match nearest (Zpos n) (Zpos (Qden q)) with
      | Some r => Fin (- r)
      | None => NegInfinity
      end
  end.

(** White space and line terminators, which [parseInt] skips: the
    characters U+0009 to U+000D and U+0020, and, as UTF-8 sequences,
    U+00A0, U+1680, U+2000 to U+200A, U+2028, U+2029, U+202F, U+205F,
    U+3000 and U+FEFF. *)
Definition isWhite (c : ascii) : bool :=
  let n := nat_of_ascii c in
  (n =? 32)%nat || ((9 <=? n)%nat && (n <=? 13)%nat).

Definition isWhite2 (c d : ascii) : bool :=
  (nat_of_ascii c =? 194)%nat && (nat_of_ascii d =? 160)%nat.

Definition isWhite3 (c d e : ascii) : bool :=
  let c := nat_of_ascii c in
  let d := nat_of_ascii d in
  let e := nat_of_ascii e in
  ((c =? 225)%nat && (d =? 154)%nat && (e =? 128)%nat)
  || ((c =? 226)%nat && (d =? 128)%nat
      && (((128 <=? e)%nat && (e <=? 138)%nat)
          || (e =? 168)%nat || (e =? 169)%nat || (e =? 175)%nat))
  || ((c =? 226)%nat && (d =? 129)%nat && (e =? 159)%nat)
  || ((c =? 227)%nat && (d =? 128)%nat && (e =? 128)%nat)
  || ((c =? 239)%nat && (d =? 187)%nat && (e =? 191)%nat).

Fixpoint trimStart (s : string) : string :=
  match s with
  | String c s1 =>
      if isWhite c then trimStart s1
      else
        match s1 with
        | String d s2 =>
            if isWhite2 c d then trimStart s2
            else
              match s2 with
              | String e s3 => if isWhite3 c d e then trimStart s3 else s
              | EmptyString => s
              end
        | EmptyString => s
        end
  | EmptyString => s
  end.

Definition hexVal (c : ascii) : Z :=
  let n := Z.of_nat (nat_of_ascii c) in
  if isDigit c then n - 48
  else if (n <=? 70)%Z then n - 55 else n - 87.

Fixpoint hexadecimal (acc : Z) (s : string) : Z :=
  match s with
  | EmptyString => acc
  | String c s' => hexadecimal (16 * acc + hexVal c) s'
  end.

(** [parseInt(s)] without a radix argument: leading white space, an
    optional sign, an optional [0x]/[0X] prefix, then the longest run
    of digits; [NaN] when that run is empty, and otherwise the number
    for the integer that the digits denote. *)
Definition parseIntUnsigned (s : string) : option Z :=
  match s with
  | String "0"%char (String x s') =>
      if (Ascii.eqb x "x"%char || Ascii.eqb x "X"%char)%bool then
        match plus isHex s' with
        | Some (ds, _) => Some (hexadecimal 0 ds)
        | None => None
        end
      else
        match plus isDigit s with
        | Some (ds, _) => Some (decimal 0 ds)
        | None => None
        end
  | _ =>
      match plus isDigit s with
      | Some (ds, _) => Some (decimal 0 ds)
      | None => None
      end
  end.

Definition parseInt (s : string) : number :=
  let t := trimStart s in
  let '(neg, body) :=
    match t with
    | String "-"%char r => (true, r)
    | String "+"%char r => (false, r)
    | _ => (false, t)
    end in
  match parseIntUnsigned body with
  | Some z => double (inject_Z (if neg then - z else z))
  | None => NaN
  end.

(** Values that reach the modelled code. [NumStr q] is the string
    [q.toString()] of a number; it is kept symbolic. *)
Inductive value : Type :=
| Undefined
| Null
| Bool (b : bool)
| Num (n : number)
| Str (s : string)
| NumStr (q : Q).

(** [ToNumber] on the primitives above.  The conversion of an arbitrary
    string is not modelled ([NaN] stands for it): the modelled code
    converts no string, the request handlers replace a string by its
    [parseInt] first. *)
Definition toNumber (v : value) : number :=
  match v with
  | Undefined => NaN
  | Null => Fin 0
  | Bool true => Fin 1
  | Bool false => Fin 0
  | Num n => n
  | Str s => NaN
  | NumStr q => Fin q
  end.

Definition isNaN (v : value) : bool :=
  match toNumber v with NaN => true | _ => false end.

Definition isFinite (v : value) : bool :=
  match toNumber v with Fin _ => true | _ => false end.

(** [a > b] on numbers. *)
Definition gt (a b : number) : bool :=
  match a, b with
  | NaN, _ | _, NaN => false
  | PosInfinity, PosInfinity => false
  | PosInfinity, _ => true
  | _, PosInfinity => false
  | NegInfinity, _ => false
  | _, NegInfinity => true
  | Fin x, Fin y => negb (Qle_bool x y)
  end.

End Js.

(** ** Constants ([config/constants.js]) *)

Module STATES.
Inductive t : Set :=
| REFILL_OP_IDLE
| REFILL_OP_ERROR
| REFILL_OP_START
| REFILL_GET_FIRST_RFID
| REFILL_WAIT_FOR_DRF_SUBMIT
| REFILL_READ_FIRST_METER
| REFILL_WAIT_FIRST_RFID_MATCH
| REFILL_PROGRESS
| REFILL_INTERRUPT
| REFILL_LAST_METER_READ
| REFILL_WAIT_METER_STABILITY
| REFILL_WAIT_APP_INFORM
| REFILL_FORCE_STOP.

Definition eqb (a b : t) : bool :=
  match a, b with
  | REFILL_OP_IDLE, REFILL_OP_IDLE
  | REFILL_OP_ERROR, REFILL_OP_ERROR
  | REFILL_OP_START, REFILL_OP_START
  | REFILL_GET_FIRST_RFID, REFILL_GET_FIRST_RFID
  | REFILL_WAIT_FOR_DRF_SUBMIT, REFILL_WAIT_FOR_DRF_SUBMIT
  | REFILL_READ_FIRST_METER, REFILL_READ_FIRST_METER
  | REFILL_WAIT_FIRST_RFID_MATCH, REFILL_WAIT_FIRST_RFID_MATCH
  | REFILL_PROGRESS, REFILL_PROGRESS
  | REFILL_INTERRUPT, REFILL_INTERRUPT
  | REFILL_LAST_METER_READ, REFILL_LAST_METER_READ
  | REFILL_WAIT_METER_STABILITY, REFILL_WAIT_METER_STABILITY
  | REFILL_WAIT_APP_INFORM, REFILL_WAIT_APP_INFORM
  | REFILL_FORCE_STOP, REFILL_FORCE_STOP => true
  | _, _ => false
  end.
End STATES.

Module TIMEOUTS.
Definition UART_RESPONSE_TIMEOUT : Z := 5000.
End TIMEOUTS.

Module DEVICE_CONFIG.
Definition DEFAULT_NOZZLE_ID : string := "0076".
Definition LITER_SAVE_INTERVAL : Q := 1.
End DEVICE_CONFIG.

(** ** The table of allowed transitions ([state-machine/states.js]) *)

Module StateDefinitions.
Import STATES.

(** The [allowedTransitions] arrays of [STATE_DEFINITIONS].  No array
    lists [REFILL_FORCE_STOP] as a target. *)
Definition allowedTransitions (s : STATES.t) : list STATES.t :=
  match s with
  | REFILL_OP_IDLE => [REFILL_OP_ERROR; REFILL_OP_START]
  | REFILL_OP_ERROR => [REFILL_OP_IDLE]
  | REFILL_OP_START => [REFILL_GET_FIRST_RFID; REFILL_OP_ERROR]
  | REFILL_GET_FIRST_RFID =>
      [REFILL_WAIT_FOR_DRF_SUBMIT; REFILL_OP_IDLE; REFILL_OP_ERROR]
  | REFILL_WAIT_FOR_DRF_SUBMIT =>
      [REFILL_READ_FIRST_METER; REFILL_OP_IDLE; REFILL_OP_ERROR]
  | REFILL_READ_FIRST_METER =>
      [REFILL_WAIT_FIRST_RFID_MATCH; REFILL_OP_IDLE; REFILL_OP_ERROR]
  | REFILL_WAIT_FIRST_RFID_MATCH =>
      [REFILL_PROGRESS; REFILL_WAIT_APP_INFORM; REFILL_OP_IDLE;
       REFILL_OP_ERROR]
  | REFILL_PROGRESS =>
      [REFILL_INTERRUPT; REFILL_LAST_METER_READ; REFILL_OP_ERROR]
  | REFILL_INTERRUPT =>
      [REFILL_PROGRESS; REFILL_LAST_METER_READ; REFILL_OP_ERROR]
  | REFILL_LAST_METER_READ =>
      [REFILL_WAIT_METER_STABILITY; REFILL_WAIT_APP_INFORM; REFILL_OP_ERROR]
  | REFILL_WAIT_METER_STABILITY => [REFILL_LAST_METER_READ; REFILL_OP_ERROR]
  | REFILL_WAIT_APP_INFORM => [REFILL_OP_IDLE; REFILL_OP_ERROR]
  | REFILL_FORCE_STOP =>
      [REFILL_LAST_METER_READ; REFILL_WAIT_APP_INFORM; REFILL_OP_ERROR]
  end.

(** The first test of [validateStateTransition]:
    [stateDefinition.allowedTransitions.includes(targetState)]. *)
Definition transitionListed (currentState targetState : STATES.t) : bool :=
  existsb (STATES.eqb targetState) (allowedTransitions currentState).
End StateDefinitions.

(** ** The nozzle port ([services/UartService.js]) *)

Module UartService.

Record RfidInfo := {
  nozzleId : string;
  rfidTag : string;
  batteryState : Js.number
}.

(** [response.match(/rfid_get\((\d+),([A-Fa-f0-9]+),(\d+)\)/)] *)
Definition rfid_get_at (s : string) : option RfidInfo :=
  r ← Js.lit "rfid_get(" s;
  '(n, r) ← Js.plus Js.isDigit r;
  r ← Js.lit "," r;
  '(tag, r) ← Js.plus Js.isHex r;
  r ← Js.lit "," r;
  '(b, r) ← Js.plus Js.isDigit r;
  _ ← Js.lit ")" r;
  Some {| nozzleId := n; rfidTag := tag; batteryState := Js.parseInt b |}.

Definition parseRfidResponse (response : string) : option RfidInfo :=
  Js.search rfid_get_at response.

(** [/meter_read\((\d+(?:\.\d+)?)\)/]: the integer digits, then either
    a fraction and the closing parenthesis, or the closing parenthesis
    at once.  The reading is kept as the rational
    [digits / 10^|fraction|] that the captured text denotes;
    [parseFloat] gives the number nearest to it. *)
Definition meter_read_at (s : string) : option Q :=
  r ← Js.lit "meter_read(" s;
  '(i, r) ← Js.plus Js.isDigit r;
  match (r ← Js.lit "." r;
         '(f, r) ← Js.plus Js.isDigit r;
         _ ← Js.lit ")" r;
         Some f) with
  | Some f => Some (Js.decimal (Js.decimal 0 i) f # Js.pow10 f)
  | None => _ ← Js.lit ")" r; Some (Js.decimal 0 i # 1)
  end.

Definition parseMeterResponse (response : string) : option Q :=
  Js.search meter_read_at response.

(** *** Request/response correlation *)

Inductive CommandType : Set :=
| heartbeat | hls_read | meter_read | rfid_get | unknown.

Definition CommandType_eqb (a b : CommandType) : bool :=
  match a, b with
  | heartbeat, heartbeat | hls_read, hls_read | meter_read, meter_read
  | rfid_get, rfid_get | unknown, unknown => true
  | _, _ => false
  end.

Definition getCommandType (data : string) : CommandType :=
  if Js.startsWith data "heartbeat" then heartbeat
  else if Js.startsWith data "hls_read" then hls_read
  else if Js.startsWith data "meter_read" then meter_read
  else if Js.startsWith data "rfid_get" then rfid_get
  else unknown.

Definition noResponseCommands : list string :=
  ["pair_nozzle"; "set_solenoid"; "meter_reset"].

Definition shouldExpectResponse (command : string) : bool :=
  negb (existsb (fun cmd => Js.startsWith command cmd) noResponseCommands).

(** One value of the [pendingCommands] map.  The promise that
    [sendCommand] returned is named by [promise]; [resolve] and [reject]
    settle that promise.  [timeout] is the handle of the deadline
    timer. *)
Record Pending := {
  promise : nat;
  timeout : nat;
  originalCommand : string;
  timestamp : Z
}.

(** What the port does to the outside, in program order. *)
Inductive Effect :=
| emit_data (data : string)
| emit_error (error : string)
| clearTimeout (handle : nat)
| setTimeout (handle : nat) (delay : Z)
| resolve (promise : nat) (data : string)
| resolve_true (promise : nat)
| reject (promise : nat) (error : string)
| write (formattedCommand : string).

(** The port.  [pendingCommands] is a JavaScript [Map]: iteration is in
    insertion order, [set] on a present key replaces the value in place,
    [delete] removes the key.  Keys are [Date.now().toString()], kept as
    the millisecond count.  [errorListeners] counts the listeners
    registered on the port for its own ['error'] event: the port is an
    [EventEmitter], and [emit('error', e)] on an emitter without such a
    listener throws [e] instead of returning. *)
Record t := {
  initialized : bool;
  lastResponse : option string;
  pendingCommands : list (Z * Pending);
  messageTimeout : Z;
  errorListeners : nat;
  nextHandle : nat
}.

Definition with_pending (p : t) (l : list (Z * Pending)) : t :=
  {| initialized := initialized p; lastResponse := lastResponse p;
     pendingCommands := l; messageTimeout := messageTimeout p;
     errorListeners := errorListeners p; nextHandle := nextHandle p |}.

Definition with_lastResponse (p : t) (r : option string) : t :=
  {| initialized := initialized p; lastResponse := r;
     pendingCommands := pendingCommands p;
     messageTimeout := messageTimeout p;
     errorListeners := errorListeners p; nextHandle := nextHandle p |}.

Definition with_nextHandle (p : t) (n : nat) : t :=
  {| initialized := initialized p; lastResponse := lastResponse p;
     pendingCommands := pendingCommands p;
     messageTimeout := messageTimeout p;
     errorListeners := errorListeners p; nextHandle := n |}.

(** [Map.prototype.get], [delete] and [set]. *)
Fixpoint map_get (k : Z) (l : list (Z * Pending)) : option Pending :=
  match l with
  | [] => None
  | (k', v) :: l' => if (k =? k')%Z then Some v else map_get k l'
  end.

Fixpoint map_delete (k : Z) (l : list (Z * Pending)) : list (Z * Pending) :=
  match l with
  | [] => []
  | (k', v) :: l' => if (k =? k')%Z then l' else (k', v) :: map_delete k l'
  end.

Fixpoint map_set (k : Z) (v : Pending) (l : list (Z * Pending))
  : list (Z * Pending) :=
  match l with
  | [] => [(k, v)]
  | (k', v') :: l' =>
      if (k =? k')%Z then (k, v) :: l' else (k', v') :: map_set k v l'
  end.

(** The port as the constructor leaves it, once the serial line is
    open. *)
Definition new (listeners : nat) : t :=
  {| initialized := true; lastResponse := None; pendingCommands := [];
     messageTimeout := TIMEOUTS.UART_RESPONSE_TIMEOUT;
     errorListeners := listeners; nextHandle := 0 |}.

(** The [for ... of] loop of [handleData]: the first entry, in
    iteration order, whose command is of the frame's type. *)
Fixpoint findMatching (responseType : CommandType) (l : list (Z * Pending))
  : option (Z * Pending) :=
  match l with
  | [] => None
  | (commandId, command) :: l' =>
      if CommandType_eqb (getCommandType (originalCommand command))
                         responseType
      then Some (commandId, command)
      else findMatching responseType l'
  end.

Definition handleData (data : string) (p : t) : t * list Effect :=
  let p := with_lastResponse p (Some data) in
  let responseType := getCommandType data in
  match findMatching responseType (pendingCommands p) with
  | Some (commandId, command) =>
      (with_pending p (map_delete commandId (pendingCommands p)),
       [emit_data data; clearTimeout (timeout command);
        resolve (promise command) data])
  | None => (p, [emit_data data])
  end.

(** The loop of [handleError]: every entry, in iteration order, has its
    timer cleared and its promise rejected, and is deleted. *)
Fixpoint rejectAll (error : string) (l : list (Z * Pending)) : list Effect :=
  match l with
  | [] => []
  | (_, command) :: l' =>
      clearTimeout (timeout command) :: reject (promise command) error
        :: rejectAll error l'
  end.

Inductive completion : Type :=
| Returns (p : t) (effects : list Effect)
| Throws (p : t) (effects : list Effect) (error : string).

Definition handleError (error : string) (p : t) : completion :=
  match errorListeners p with
  | O => Throws p [emit_error error] error
  | S _ =>
      Returns (with_pending p [])
              (emit_error error :: rejectAll error (pendingCommands p))
  end.

(** [sendCommand] with a serial write that succeeds.  [promise] names
    the promise the call returns. *)
Definition sendCommand (now : Z) (promise : nat) (command : string)
           (expectResponse : option bool) (p : t) : completion :=
  if negb (initialized p) then Throws p [] "UART service not initialized"
  else
    let expectResponse :=
      match expectResponse with
      | Some b => b
      | None => shouldExpectResponse command
      end in
    let formattedCommand :=
      if Js.endsWithNewline command then command
      else command ++ String (ascii_of_nat 10) "" in
    if expectResponse then
      let h := nextHandle p in
      let entry := {| promise := promise; timeout := h;
                      originalCommand := command; timestamp := now |} in
      Returns (with_nextHandle
                 (with_pending p (map_set now entry (pendingCommands p)))
                 (S h))
              [setTimeout h (messageTimeout p); write formattedCommand]
    else
      Returns p [write formattedCommand; resolve_true promise].

(** The deadline callback installed by [sendCommand] for key
    [commandId], whose closure rejects [promise]. *)
Definition onTimeout (commandId : Z) (promise : nat) (p : t)
  : t * list Effect :=
  match map_get commandId (pendingCommands p) with
  | Some _ =>
      (with_pending p (map_delete commandId (pendingCommands p)),
       [reject promise "UART response timeout"])
  | None => (p, [])
  end.

End UartService.

(** ** The refill supervisor ([state-machine/FuelStateMachine.js]) *)

Module FuelStateMachine.
Import STATES.

(** A vehicle of the fleet directory. *)
Record Vehicle := {
  TagNumber : string;
  FleetNumber : string;
  VehicleTankCapacity : Q
}.

(** Object literals passed as transition data. *)
Inductive Field : Type :=
| FVal (v : Js.value)
| FVehicle (v : Vehicle)
| FRfidInfo (r : UartService.RfidInfo).

Definition Obj : Type := list (string * Field).

Record TransitionDetails := {
  from : STATES.t;
  to : STATES.t;
  reason : string;
  data : Obj;
  timestamp : Z
}.

Record MeterReading := {
  current : Q;
  lastStable : Q;
  lastSaved : Q;
  stabilityTimestamp : option Z;
  readings : list Q;
  stabilityThreshold : nat;
  stabilityTimeoutMs : Z
}.

(** Calls that leave the supervisor, in program order. *)
Inductive Effect : Type :=
| emit_stateChange (d : TransitionDetails)
| emit_meterUpdate (value : Q) (isStable : bool) (timestamp : Z)
| emit_rfidMatch (nozzleId : string) (timestamp : Z)
| emit_rfidAlarm (nozzleId : string) (lastReading : Q) (timestamp : Z)
| emit_rfidRead (info : UartService.RfidInfo) (timestamp : Z)
| db_updateTransactionLiters (transactionId liters : Js.value)
| db_addLitersDispensed (liters : Q)
| db_clearIncompleteTransaction
| db_deleteTransaction (transactionId : Js.value)
| uart_sendCommand (command : string) (expectResponse : bool).

(** The supervisor.  [stateHistory] is created by the first transition;
    the empty list stands for the array that is not there yet. *)
Record t := {
  currentState : STATES.t;
  previousState : option STATES.t;
  stateData : Obj;
  stateTimestamp : Z;
  stateHistory : list TransitionDetails;
  meterReading : MeterReading;
  currentTransaction : option (gmap string Js.value);
  vehicle : option Vehicle;
  fleetData : list Vehicle;
  lastHeartbeatTime : Z;
  lastNozzleHeartbeatTime : Z;
  lastAppCommTime : Z;
  requestStartTime : option Z;
  retryCount : Z;
  nozzleId : string;
  appInformed : bool;
  rfidInContact : bool;
  rfidAlarmReceived : bool;
  dbIdToSync : Z;
  lastUartResponse : option string;
  lastRfidMatchTime : option Z;
  trace : list Effect
}.

(** The value the constructor, [resetStateMachine], [initializeRefill]
    and [resetDeviceStates] all assign to [meterReading]. *)
Definition newMeterReading : MeterReading :=
  {| current := 0; lastStable := 0; lastSaved := 0;
     stabilityTimestamp := None; readings := [];
     stabilityThreshold := 2; stabilityTimeoutMs := 5000 |}.

(** The transaction object that [initializeRefill] creates
    ([createDate], an ISO date string, is left out). *)
Definition newTransaction : gmap string Js.value :=
  <["id" := Js.Null]>
  (<["tagNumber" := Js.Null]>
  (<["pumpId" := Js.Null]>
  (<["operatorId" := Js.Null]>
  (<["createUser" := Js.Null]>
  (<["dispensedLiter" := Js.Str "0"]>
  (<["currentMachineHours" := Js.Num (Js.Fin 0)]>
  (<["lastSavedLiters" := Js.Num (Js.Fin 0)]>
  (<["synced" := Js.Bool false]> ∅)))))))).

(** The supervisor as the constructor leaves it at time [now], with the
    fleet directory that [initialize] fetched. *)
Definition new (now : Z) (fleet : list Vehicle) : t :=
  {| currentState := REFILL_OP_IDLE; previousState := None;
     stateData := []; stateTimestamp := now; stateHistory := [];
     meterReading := newMeterReading;
     currentTransaction := None; vehicle := None; fleetData := fleet;
     lastHeartbeatTime := now; lastNozzleHeartbeatTime := now;
     lastAppCommTime := now; requestStartTime := None; retryCount := 0;
     nozzleId := DEVICE_CONFIG.DEFAULT_NOZZLE_ID;
     appInformed := false; rfidInContact := false;
     rfidAlarmReceived := false; dbIdToSync := -1;
     lastUartResponse := None; lastRfidMatchTime := None; trace := [] |}.

(** *** Field assignments *)

Definition set_slot (m : t) (c : STATES.t) (p : option STATES.t) (d : Obj)
           (ts : Z) (h : list TransitionDetails) : t :=
  {| currentState := c; previousState := p; stateData := d;
     stateTimestamp := ts; stateHistory := h;
     meterReading := meterReading m;
     currentTransaction := currentTransaction m; vehicle := vehicle m;
     fleetData := fleetData m; lastHeartbeatTime := lastHeartbeatTime m;
     lastNozzleHeartbeatTime := lastNozzleHeartbeatTime m;
     lastAppCommTime := lastAppCommTime m;
     requestStartTime := requestStartTime m; retryCount := retryCount m;
     nozzleId := nozzleId m; appInformed := appInformed m;
     rfidInContact := rfidInContact m;
     rfidAlarmReceived := rfidAlarmReceived m; dbIdToSync := dbIdToSync m;
     lastUartResponse := lastUartResponse m;
     lastRfidMatchTime := lastRfidMatchTime m; trace := trace m |}.

Definition set_meterReading (m : t) (r : MeterReading) : t :=
  {| currentState := currentState m; previousState := previousState m;
     stateData := stateData m; stateTimestamp := stateTimestamp m;
     stateHistory := stateHistory m;
     meterReading := r;
     currentTransaction := currentTransaction m; vehicle := vehicle m;
     fleetData := fleetData m; lastHeartbeatTime := lastHeartbeatTime m;
     lastNozzleHeartbeatTime := lastNozzleHeartbeatTime m;
     lastAppCommTime := lastAppCommTime m;
     requestStartTime := requestStartTime m; retryCount := retryCount m;
     nozzleId := nozzleId m; appInformed := appInformed m;
     rfidInContact := rfidInContact m;
     rfidAlarmReceived := rfidAlarmReceived m; dbIdToSync := dbIdToSync m;
     lastUartResponse := lastUartResponse m;
     lastRfidMatchTime := lastRfidMatchTime m; trace := trace m |}.

Definition set_operation (m : t) (tx : option (gmap string Js.value))
           (v : option Vehicle) : t :=
  {| currentState := currentState m; previousState := previousState m;
     stateData := stateData m; stateTimestamp := stateTimestamp m;
     stateHistory := stateHistory m;
     meterReading := meterReading m;
     currentTransaction := tx; vehicle := v;
     fleetData := fleetData m; lastHeartbeatTime := lastHeartbeatTime m;
     lastNozzleHeartbeatTime := lastNozzleHeartbeatTime m;
     lastAppCommTime := lastAppCommTime m;
     requestStartTime := requestStartTime m; retryCount := retryCount m;
     nozzleId := nozzleId m; appInformed := appInformed m;
     rfidInContact := rfidInContact m;
     rfidAlarmReceived := rfidAlarmReceived m; dbIdToSync := dbIdToSync m;
     lastUartResponse := lastUartResponse m;
     lastRfidMatchTime := lastRfidMatchTime m; trace := trace m |}.

(** The three watch timestamps and the request timer. *)
Definition set_timing (m : t) (hb nhb : Z) (req : option Z) (retry : Z)
           (matchTime : option Z) : t :=
  {| currentState := currentState m; previousState := previousState m;
     stateData := stateData m; stateTimestamp := stateTimestamp m;
     stateHistory := stateHistory m;
     meterReading := meterReading m;
     currentTransaction := currentTransaction m; vehicle := vehicle m;
     fleetData := fleetData m; lastHeartbeatTime := hb;
     lastNozzleHeartbeatTime := nhb;
     lastAppCommTime := lastAppCommTime m;
     requestStartTime := req; retryCount := retry;
     nozzleId := nozzleId m; appInformed := appInformed m;
     rfidInContact := rfidInContact m;
     rfidAlarmReceived := rfidAlarmReceived m; dbIdToSync := dbIdToSync m;
     lastUartResponse := lastUartResponse m;
     lastRfidMatchTime := matchTime; trace := trace m |}.

Definition set_flags (m : t) (informed contact alarm : bool) (sync : Z)
           (last : option string) : t :=
  {| currentState := currentState m; previousState := previousState m;
     stateData := stateData m; stateTimestamp := stateTimestamp m;
     stateHistory := stateHistory m;
     meterReading := meterReading m;
     currentTransaction := currentTransaction m; vehicle := vehicle m;
     fleetData := fleetData m; lastHeartbeatTime := lastHeartbeatTime m;
     lastNozzleHeartbeatTime := lastNozzleHeartbeatTime m;
     lastAppCommTime := lastAppCommTime m;
     requestStartTime := requestStartTime m; retryCount := retryCount m;
     nozzleId := nozzleId m; appInformed := informed;
     rfidInContact := contact;
     rfidAlarmReceived := alarm; dbIdToSync := sync;
     lastUartResponse := last;
     lastRfidMatchTime := lastRfidMatchTime m; trace := trace m |}.

(** Append one outward call to the trace. *)
Definition perform (e : Effect) (m : t) : t :=
  {| currentState := currentState m; previousState := previousState m;
     stateData := stateData m; stateTimestamp := stateTimestamp m;
     stateHistory := stateHistory m;
     meterReading := meterReading m;
     currentTransaction := currentTransaction m; vehicle := vehicle m;
     fleetData := fleetData m; lastHeartbeatTime := lastHeartbeatTime m;
     lastNozzleHeartbeatTime := lastNozzleHeartbeatTime m;
     lastAppCommTime := lastAppCommTime m;
     requestStartTime := requestStartTime m; retryCount := retryCount m;
     nozzleId := nozzleId m; appInformed := appInformed m;
     rfidInContact := rfidInContact m;
     rfidAlarmReceived := rfidAlarmReceived m; dbIdToSync := dbIdToSync m;
     lastUartResponse := lastUartResponse m;
     lastRfidMatchTime := lastRfidMatchTime m;
     trace := trace m ++ [e] |}.

Definition set_lastHeartbeatTime (m : t) (x : Z) : t :=
  set_timing m x (lastNozzleHeartbeatTime m) (requestStartTime m)
             (retryCount m) (lastRfidMatchTime m).
Definition set_lastNozzleHeartbeatTime (m : t) (x : Z) : t :=
  set_timing m (lastHeartbeatTime m) x (requestStartTime m)
             (retryCount m) (lastRfidMatchTime m).
Definition set_lastRfidMatchTime (m : t) (x : option Z) : t :=
  set_timing m (lastHeartbeatTime m) (lastNozzleHeartbeatTime m)
             (requestStartTime m) (retryCount m) x.
Definition set_requestStartTime (m : t) (x : option Z) : t :=
  set_timing m (lastHeartbeatTime m) (lastNozzleHeartbeatTime m) x
             (retryCount m) (lastRfidMatchTime m).
Definition set_retryCount (m : t) (x : Z) : t :=
  set_timing m (lastHeartbeatTime m) (lastNozzleHeartbeatTime m)
             (requestStartTime m) x (lastRfidMatchTime m).
Definition set_appInformed (m : t) (x : bool) : t :=
  set_flags m x (rfidInContact m) (rfidAlarmReceived m) (dbIdToSync m)
            (lastUartResponse m).
Definition set_rfidInContact (m : t) (x : bool) : t :=
  set_flags m (appInformed m) x (rfidAlarmReceived m) (dbIdToSync m)
            (lastUartResponse m).
Definition set_rfidAlarmReceived (m : t) (x : bool) : t :=
  set_flags m (appInformed m) (rfidInContact m) x (dbIdToSync m)
            (lastUartResponse m).
Definition set_dbIdToSync (m : t) (x : Z) : t :=
  set_flags m (appInformed m) (rfidInContact m) (rfidAlarmReceived m) x
            (lastUartResponse m).
Definition set_lastUartResponse (m : t) (x : option string) : t :=
  set_flags m (appInformed m) (rfidInContact m) (rfidAlarmReceived m)
            (dbIdToSync m) x.
Definition set_currentTransaction (m : t)
           (tx : option (gmap string Js.value)) : t :=
  set_operation m tx (vehicle m).
Definition set_vehicle (m : t) (v : option Vehicle) : t :=
  set_operation m (currentTransaction m) v.

Definition set_current (r : MeterReading) (x : Q) : MeterReading :=
  {| current := x; lastStable := lastStable r; lastSaved := lastSaved r;
     stabilityTimestamp := stabilityTimestamp r; readings := readings r;
     stabilityThreshold := stabilityThreshold r;
     stabilityTimeoutMs := stabilityTimeoutMs r |}.
Definition set_lastStable (r : MeterReading) (x : Q) : MeterReading :=
  {| current := current r; lastStable := x; lastSaved := lastSaved r;
     stabilityTimestamp := stabilityTimestamp r; readings := readings r;
     stabilityThreshold := stabilityThreshold r;
     stabilityTimeoutMs := stabilityTimeoutMs r |}.
Definition set_lastSaved (r : MeterReading) (x : Q) : MeterReading :=
  {| current := current r; lastStable := lastStable r; lastSaved := x;
     stabilityTimestamp := stabilityTimestamp r; readings := readings r;
     stabilityThreshold := stabilityThreshold r;
     stabilityTimeoutMs := stabilityTimeoutMs r |}.
Definition set_stabilityTimestamp (r : MeterReading) (x : option Z)
  : MeterReading :=
  {| current := current r; lastStable := lastStable r;
     lastSaved := lastSaved r;
     stabilityTimestamp := x; readings := readings r;
     stabilityThreshold := stabilityThreshold r;
     stabilityTimeoutMs := stabilityTimeoutMs r |}.
Definition set_readings (r : MeterReading) (x : list Q) : MeterReading :=
  {| current := current r; lastStable := lastStable r;
     lastSaved := lastSaved r;
     stabilityTimestamp := stabilityTimestamp r; readings := x;
     stabilityThreshold := stabilityThreshold r;
     stabilityTimeoutMs := stabilityTimeoutMs r |}.

(** *** The meter stability filter

    [addMeterReading] and [isMeterReadingStable] read and write
    [this.meterReading] only; they are given on that record.  Each call
    of [addMeterReading] reads the clock once where it matters: when
    the window is empty the time stamp is taken and the stability test
    returns before it looks at the clock, otherwise only the stability
    test looks at it. *)

(** [Array.prototype.slice(-n)] *)
Definition slice_last {A : Type} (n : nat) (l : list A) : list A :=
  match n with
  | O => l
  | S _ => skipn (List.length l - n) l
  end.

(** [lastReadings.every(reading => reading === lastReadings[0])] *)
Definition allEqual (lastReadings : list Q) : bool :=
  match lastReadings with
  | [] => true
  | first :: _ => forallb (fun reading => Qeq_bool reading first) lastReadings
  end.

Definition isMeterReadingStable (now : Z) (r : MeterReading) : bool :=
  if (List.length (readings r) <? stabilityThreshold r)%nat then false
  else
    let lastReadings := slice_last (stabilityThreshold r) (readings r) in
    if allEqual lastReadings then
      let timeSinceFirst := now - default 0 (stabilityTimestamp r) in
      (stabilityTimeoutMs r <=? timeSinceFirst)%Z
    else false.

Definition addMeterReading (now : Z) (reading : Q) (r : MeterReading)
  : MeterReading * bool :=
  let r :=
    match readings r with
    | [] => set_stabilityTimestamp r (Some now)
    | _ :: _ => r
    end in
  let r := set_readings r (readings r ++ [reading]) in
  let r := set_current r reading in
  let r :=
    if (stabilityThreshold r * 2 <? List.length (readings r))%nat
    then set_readings r (tl (readings r))
    else r in
  let isStable := isMeterReadingStable now r in
  (if isStable then set_lastStable r reading else r, isStable).

(** *** State transitions *)

Definition transition (now : Z) (newState : STATES.t) (data : option Obj)
           (reason : option string) (m : t) : t :=
  let reason :=
    match reason with
    | Some (String c s) => String c s
    | Some EmptyString | None => "No reason provided"
    end in
  let data := default [] data in
  let transitionDetails :=
    {| from := currentState m; to := newState; reason := reason;
       data := data; timestamp := now |} in
  let m := set_slot m newState (Some (currentState m)) data now
                    (stateHistory m ++ [transitionDetails]) in
  perform (emit_stateChange transitionDetails) m.

(** The fields of [initializeRefill] that the model carries. *)
Definition initializeRefill (now : Z) (m : t) : t :=
  let m := set_meterReading m newMeterReading in
  let m := set_operation m (Some newTransaction) None in
  let m := set_flags m false false false (dbIdToSync m)
                     (lastUartResponse m) in
  {| currentState := currentState m; previousState := previousState m;
     stateData := stateData m; stateTimestamp := stateTimestamp m;
     stateHistory := stateHistory m;
     meterReading := meterReading m;
     currentTransaction := currentTransaction m; vehicle := vehicle m;
     fleetData := fleetData m; lastHeartbeatTime := now;
     lastNozzleHeartbeatTime := now;
     lastAppCommTime := now;
     requestStartTime := None; retryCount := retryCount m;
     nozzleId := nozzleId m; appInformed := appInformed m;
     rfidInContact := rfidInContact m;
     rfidAlarmReceived := rfidAlarmReceived m; dbIdToSync := dbIdToSync m;
     lastUartResponse := lastUartResponse m;
     lastRfidMatchTime := None; trace := trace m |}.

(** *** First RFID reply *)

(** Property read on a transaction object: [undefined] when absent. *)
Definition prop (tx : gmap string Js.value) (name : string) : Js.value :=
  default Js.Undefined (tx !! name).

Definition processRfidResponse (now : Z) (rfidInfo : UartService.RfidInfo)
           (m : t) : t :=
  let tag := UartService.rfidTag rfidInfo in
  if String.eqb tag "-" then m
  else
    match List.find (fun v => String.eqb (TagNumber v) tag) (fleetData m) with
    | Some vehicle =>
        let m := set_vehicle m (Some vehicle) in
        let m := set_currentTransaction m
          (Some (<["tankCapacity" :=
                     Js.Num (Js.Fin (VehicleTankCapacity vehicle))]>
                (<["fleetNumber" := Js.Str (FleetNumber vehicle)]>
                (<["tagNumber" := Js.Str tag]>
                (default ∅ (currentTransaction m)))))) in
        transition now REFILL_WAIT_FOR_DRF_SUBMIT
          (Some [("vehicle", FVehicle vehicle);
                 ("rfidInfo", FRfidInfo rfidInfo)])
          (Some "Valid RFID tag detected and validated against fleet database")
          m
    | None =>
        transition now REFILL_OP_IDLE
          (Some [("rfidInfo", FRfidInfo rfidInfo)])
          (Some "RFID tag validation failed - tag not found in fleet database")
          m
    end.

(** *** Store wrappers

    Each wrapper calls the store inside [try]/[catch] and returns
    [false] on an exception, so a [null] transaction yields no call. *)

Definition updateTransactionLiters (m : t) : t :=
  match currentTransaction m with
  | Some tx =>
      perform (db_updateTransactionLiters (prop tx "id")
                                          (prop tx "DispensedLiter")) m
  | None => m
  end.

Definition addLitersDispensed (liters : Q) (m : t) : t :=
  perform (db_addLitersDispensed liters) m.

Definition clearIncompleteTransaction (m : t) : t :=
  perform db_clearIncompleteTransaction m.

Definition deleteTransaction (m : t) : t :=
  match currentTransaction m with
  | Some tx => perform (db_deleteTransaction (prop tx "id")) m
  | None => m
  end.

(** *** Inbound frames *)

(** [data.match(/nhb\((\d+),(\d+)\)/)], first group *)
Definition nhb_at (s : string) : option string :=
  r ← Js.lit "nhb(" s;
  '(n, r) ← Js.plus Js.isDigit r;
  r ← Js.lit "," r;
  '(_, r) ← Js.plus Js.isDigit r;
  _ ← Js.lit ")" r;
  Some n.

(** [data.match(/rfid_match\((\d+),(\d+)\)/)], first group *)
Definition rfid_match_at (s : string) : option string :=
  r ← Js.lit "rfid_match(" s;
  '(n, r) ← Js.plus Js.isDigit r;
  r ← Js.lit "," r;
  '(_, r) ← Js.plus Js.isDigit r;
  _ ← Js.lit ")" r;
  Some n.

(** [data.match(/rfid_alarm\((\d+)\)/)], first group *)
Definition rfid_alarm_at (s : string) : option string :=
  r ← Js.lit "rfid_alarm(" s;
  '(n, r) ← Js.plus Js.isDigit r;
  _ ← Js.lit ")" r;
  Some n.

(** [match && match[1] === this.nozzleId] *)
Definition idMatches (m : t) (group1 : option string) : bool :=
  match group1 with
  | Some n => String.eqb n (nozzleId m)
  | None => false
  end.

Definition handleUartResponse (now : Z) (data : string) (m : t) : t :=
  let m := set_lastUartResponse m (Some data) in
  if Js.includes data "meter_read" then
    match UartService.parseMeterResponse data with
    | Some meterValue =>
        let '(r, isStable) := addMeterReading now meterValue (meterReading m) in
        let m := set_meterReading m r in
        let m :=
          match currentTransaction m with
          | Some tx =>
              let m := set_currentTransaction m
                (Some (<["dispensedLiter" :=
                           Js.NumStr (current (meterReading m))]> tx)) in
              if Qle_bool DEVICE_CONFIG.LITER_SAVE_INTERVAL
                   (current (meterReading m) - lastSaved (meterReading m))
              then
                let m := updateTransactionLiters m in
                set_meterReading m
                  (set_lastSaved (meterReading m) (current (meterReading m)))
              else m
          | None => m
          end in
        perform (emit_meterUpdate meterValue isStable now) m
    | None => m
    end
  else if Js.includes data "heartbeat" then
    set_lastHeartbeatTime m now
  else if Js.includes data "nhb" then
    if idMatches m (Js.search nhb_at data) then
      let m := set_lastNozzleHeartbeatTime m now in
      perform (uart_sendCommand ("cbhb(" ++ nozzleId m ++ ")") false) m
    else m
  else if Js.includes data "rfid_match" then
    match Js.search rfid_match_at data with
    | Some n =>
        if String.eqb n (nozzleId m) then
          let m := set_lastRfidMatchTime m (Some now) in
          let m := set_lastNozzleHeartbeatTime m now in
          let m := set_rfidInContact m true in
          perform (emit_rfidMatch n now) m
        else m
    | None => m
    end
  else if Js.includes data "rfid_alarm" then
    match Js.search rfid_alarm_at data with
    | Some n =>
        if String.eqb n (nozzleId m) then
          let m := set_rfidInContact m false in
          let m := set_rfidAlarmReceived m true in
          let m := set_lastNozzleHeartbeatTime m now in
          let m :=
            if STATES.eqb (currentState m) REFILL_PROGRESS then
              transition now REFILL_INTERRUPT
                (Some [("reason", FVal (Js.Str "RFID contact lost"));
                       ("lastReading",
                        FVal (Js.Num (Js.Fin (current (meterReading m)))))])
                (Some "RFID alarm received - tag contact lost") m
            else m in
          perform (emit_rfidAlarm n (current (meterReading m)) now) m
        else m
    | None => m
    end
  else if Js.includes data "rfid_get" then
    let rfidInfo := UartService.parseRfidResponse data in
    let m := set_lastNozzleHeartbeatTime m now in
    match rfidInfo with
    | Some rfidInfo =>
        let m :=
          if STATES.eqb (currentState m) REFILL_GET_FIRST_RFID
          then processRfidResponse now rfidInfo m
          else m in
        perform (emit_rfidRead rfidInfo now) m
    | None => m
    end
  else m.

(** *** Finalisation *)

Inductive completion : Type :=
| Normal (m : t)
| TypeError (m : t).

Definition finalizeTransaction (now : Z) (finalReading : Q) (m : t)
  : completion :=
  let positive := negb (Qle_bool finalReading 0) in
  let body : completion :=
    if positive then
      let m := set_meterReading m (set_current (meterReading m) finalReading) in
      match currentTransaction m with
      | None => TypeError m
      | Some tx =>
          let m := set_currentTransaction m
            (Some (<["dispensedLiter" := Js.NumStr finalReading]> tx)) in
          match vehicle m with
          | None => TypeError m
          | Some _ =>
              let m := updateTransactionLiters m in
              let m := addLitersDispensed finalReading m in
              let m := clearIncompleteTransaction m in
              Normal (set_dbIdToSync m (-1))
          end
      end
    else
      match vehicle m with
      | None => TypeError m
      | Some _ =>
          let m := deleteTransaction m in
          Normal (clearIncompleteTransaction m)
      end in
  match body with
  | TypeError m => TypeError m
  | Normal m =>
      let m := set_appInformed m false in
      let m := set_requestStartTime m (Some now) in
      let m := set_retryCount m 1 in
      Normal (transition now REFILL_WAIT_APP_INFORM
                (Some [("finalReading", FVal (Js.Num (Js.Fin finalReading)));
                       ("transactionCompleted", FVal (Js.Bool positive))])
                (Some "Transaction finalized, waiting for app to fetch data")
                m)
  end.

End FuelStateMachine.

(** ** The operator HTTP surface ([routes/api.js]) *)

Module ApiRoutes.
Import STATES.

(** A field of a parsed JSON request body.  Arrays and nested objects
    are not modelled. *)
Inductive BodyField : Type :=
| absent
| jnull
| jbool (b : bool)
| jnumber (n : Js.number)
| jstring (s : string).

Record Response := {
  status : Z;
  body : list (string * Js.value)
}.

Record t := {
  stateMachine : FuelStateMachine.t;
  activeTokens : gmap string string
}.

Definition with_stateMachine (api : t) (m : FuelStateMachine.t) : t :=
  {| stateMachine := m; activeTokens := activeTokens api |}.

(** [if (typeof kilometers === 'string') kilometers = parseInt(kilometers)]:
    after this step the value is never a string. *)
Definition convertKilometers (kilometers : BodyField) : Js.value :=
  match kilometers with
  | absent => Js.Undefined
  | jnull => Js.Null
  | jbool b => Js.Bool b
  | jnumber n => Js.Num n
  | jstring s => Js.Num (Js.parseInt s)
  end.

Definition badRequest (error : string) : Response :=
  {| status := 400;
     body := [("success", Js.Bool false); ("error", Js.Str error)] |}.

(** [POST /api/drf-submit].  The [state] member of the success body
    (the result of [getStateInfo()]) is left out. *)
Definition drf_submit (now : Z) (kilometers : BodyField) (api : t)
  : t * Response :=
  let kilometers := convertKilometers kilometers in
  if Js.isNaN kilometers || negb (Js.isFinite kilometers) then
    (api, badRequest "Invalid kilometers value")
  else if Js.gt (Js.toNumber kilometers) (Js.Fin 1000) then
    (api, badRequest "Kilometer reading too high")
  else if negb (STATES.eqb (FuelStateMachine.currentState (stateMachine api))
                           REFILL_WAIT_FOR_DRF_SUBMIT) then
    (api, badRequest "Invalid state for DRF submit")
  else
    let m := FuelStateMachine.transition now REFILL_READ_FIRST_METER
               (Some [("kilometers", FuelStateMachine.FVal kilometers)])
               None (stateMachine api) in
    (with_stateMachine api m,
     {| status := 200;
        body := [("success", Js.Bool true);
                 ("message", Js.Str "DRF submitted successfully")] |}).

(** The [request] member of a [POST /api/operation] body; the cases
    [refill_params] and [vehicle_info] are not modelled. *)
Inductive Request : Type :=
| refill_req
| refill_drf (refill_op_workinghours : BodyField)
| refill_finish
| other (request : string).

Definition ok (body : list (string * Js.value)) : Response :=
  {| status := 200; body := body |}.

(** [POST /api/operation] *)
Definition operation (now : Z) (token : string) (request : Request)
           (api : t) : t * Response :=
  let m := stateMachine api in
  match activeTokens api !! token with
  | None => (api, ok [("response", Js.Str "invalid_token")])
  | Some _ =>
      match request with
      | refill_req =>
          if negb (STATES.eqb (FuelStateMachine.currentState m)
                              REFILL_OP_IDLE) then
            (api, ok [("response", Js.Str "invalid");
                      ("message", Js.Str "System busy")])
          else
            (with_stateMachine api
               (FuelStateMachine.transition now REFILL_OP_START
                  (Some [("requestTime",
                          FuelStateMachine.FVal
                            (Js.Num (Js.Fin (inject_Z now))))])
                  (Some "Fill operation initiated via API request") m),
             ok [("response", Js.Str "refill_drf")])
      | refill_drf workinghours =>
          let kilometers := convertKilometers workinghours in
          if Js.isNaN kilometers || negb (Js.isFinite kilometers) then
            (api, badRequest "Invalid kilometers value")
          else if Js.gt (Js.toNumber kilometers) (Js.Fin 1000) then
            (api, badRequest "Kilometer reading too high")
          else if negb (STATES.eqb (FuelStateMachine.currentState m)
                                   REFILL_WAIT_FOR_DRF_SUBMIT) then
            (api, badRequest "Invalid state for DRF submit")
          else
            (with_stateMachine api
               (FuelStateMachine.transition now REFILL_READ_FIRST_METER
                  (Some [("kilometers", FuelStateMachine.FVal kilometers)])
                  None m),
             ok [("response", Js.Str "refill_started")])
      | refill_finish =>
          let m := FuelStateMachine.transition now REFILL_FORCE_STOP
                     None None m in
          (with_stateMachine api m,
           ok [("response", Js.Str "refill_finished");
               ("refill_op_liters",
                Js.NumStr (FuelStateMachine.lastStable
                             (FuelStateMachine.meterReading m)))])
      | other _ => (api, ok [("response", Js.Str "invalid")])
      end
  end.

End ApiRoutes.

(** * Vocabulary of the statements *)

Local Open Scope list_scope.

(** ** Runs of the meter filter *)

Module FilterRun.
Import FuelStateMachine.

(** One arrival: the clock at the call and the reading. *)
Definition feed (st : MeterReading * bool) (ev : Z * Q)
  : MeterReading * bool :=
  addMeterReading (fst ev) (snd ev) (fst st).

(** The filter after the arrivals [evs], oldest first, starting from the
    record that every reset installs; the flag is what the last call of
    [addMeterReading] returned. *)
Definition run (evs : list (Z * Q)) : MeterReading * bool :=
  fold_left feed evs (newMeterReading, false).

(** The arrival time of the first reading of [evs ++ [(t, _)]]. *)
Definition firstArrival (evs : list (Z * Q)) (t : Z) : Z :=
  hd t (map fst evs).

(** Stability as the specification words it.  Walking back from the
    newest arrival, [runStart] is the arrival time of the first reading
    of the run of equal readings that ends the sequence. *)
Fixpoint runStart (v : Q) (t : Z) (older : list (Z * Q)) : Z :=
  match older with
  | (t', v') :: older' => if Qeq_bool v' v then runStart v t' older' else t
  | [] => t
  end.

Definition specStable (evs : list (Z * Q)) : bool :=
  match rev evs with
  | (t, v) :: (t', v') :: older =>
      Qeq_bool v' v && (5000 <=? t - runStart v t' older)%Z
  | _ => false
  end.

(** The two orderings of the specification. *)
Definition ordered (r : MeterReading) : Prop :=
  (lastSaved r <= lastStable r)%Q /\ (lastStable r <= current r)%Q.

End FilterRun.

(** ** Transition reasons *)

Module Reasons.

(** The reason that [transition] records. *)
Definition recordedReason (reason : option string) : string :=
  match reason with
  | Some (String c s) => String c s
  | _ => "No reason provided"
  end.

(** The reason as the specification words it: the given one, or the
    default when the argument is absent. *)
Definition specifiedReason (reason : option string) : string :=
  match reason with
  | Some r => r
  | None => "No reason provided"
  end.

End Reasons.

(** ** Operator requests *)

Module Odometer.
Import STATES ApiRoutes.

(** The number that the handler compares with 1000. *)
Definition kilometersValue (kilometers : BodyField) : Js.number :=
  Js.toNumber (convertKilometers kilometers).

(** A finite number not above 1000. *)
Definition admissible (kilometers : BodyField) : bool :=
  match kilometersValue kilometers with
  | Js.Fin q => Qle_bool q 1000
  | _ => false
  end.

(** The supervisor waiting for the odometer. *)
Definition awaitingOdometer : t :=
  {| stateMachine :=
       FuelStateMachine.transition 5 REFILL_WAIT_FOR_DRF_SUBMIT None
         (Some "Valid RFID tag detected and validated against fleet database")
         (FuelStateMachine.new 0 []);
     activeTokens := ∅ |}.

(** The operator application after [POST /api/auth], supervisor idle. *)
Definition idleWithSession : t :=
  {| stateMachine := FuelStateMachine.new 0 [];
     activeTokens := {["token" := "operator"]} |}.

End Odometer.

(** ** Inbound frames by handler branch *)

Module Frames.
Import FuelStateMachine.

(** The branch of [handleUartResponse] that a frame takes: the first of
    the [includes] tests, in program order, that succeeds. *)
Inductive Branch : Set :=
| on_meter_read | on_heartbeat | on_nhb | on_rfid_match | on_rfid_alarm
| on_rfid_get | ignored.

Definition branch (data : string) : Branch :=
  if Js.includes data "meter_read" then on_meter_read
  else if Js.includes data "heartbeat" then on_heartbeat
  else if Js.includes data "nhb" then on_nhb
  else if Js.includes data "rfid_match" then on_rfid_match
  else if Js.includes data "rfid_alarm" then on_rfid_alarm
  else if Js.includes data "rfid_get" then on_rfid_get
  else ignored.

Definition sameId (nozzleId : string) (group1 : option string) : bool :=
  match group1 with
  | Some n => String.eqb n nozzleId
  | None => false
  end.

(** The frames after which [lastNozzleHeartbeatTime] is the time of
    arrival, for a supervisor configured with [nozzleId]. *)
Definition refreshesNozzleWatch (nozzleId data : string) : bool :=
  match branch data with
  | on_nhb => sameId nozzleId (Js.search nhb_at data)
  | on_rfid_match => sameId nozzleId (Js.search rfid_match_at data)
  | on_rfid_alarm => sameId nozzleId (Js.search rfid_alarm_at data)
  | on_rfid_get => true
  | on_meter_read | on_heartbeat | ignored => false
  end.

(** A supervisor that waits for the first RFID reply, with one vehicle
    in the fleet directory. *)
Definition knownVehicle : Vehicle :=
  {| TagNumber := "E200001D8914005717701BFC"; FleetNumber := "FL-17";
     VehicleTankCapacity := 100 |}.

Definition awaitingFirstRfid : t :=
  transition 2 STATES.REFILL_GET_FIRST_RFID
    (Some [("maxRetries", FVal (Js.Num (Js.Fin 100)))])
    (Some "Starting RFID read sequence")
    (initializeRefill 1
       (transition 1 STATES.REFILL_OP_START None
          (Some "Fill operation initiated via API request")
          (new 0 [knownVehicle]))).

End Frames.

(** ** Ports and frames of the nozzle port *)

Module Port.
Import UartService.

(** Frames of the three spontaneous verbs. *)
Definition unsolicitedVerb (data : string) : bool :=
  Js.startsWith data "rfid_match" || Js.startsWith data "rfid_alarm"
  || Js.startsWith data "nhb".

(** The command type of a table entry. *)
Definition typeOf (entry : Z * Pending) : CommandType :=
  getCommandType (originalCommand (snd entry)).

(** The port that a call leaves behind. *)
Definition after (c : completion) : t :=
  match c with
  | Returns p _ => p
  | Throws p _ _ => p
  end.

(** The port of the application: [FuelAutomationSystem.initializeServices]
    registers a listener for ['data'] on it and none for ['error']. *)
Definition applicationPort : t := new 0.

End Port.

(** ** Refills and the store *)

Module Refill.
Import FuelStateMachine Frames.

(** The calls to the transaction store in a trace. *)
Definition isStoreCall (e : Effect) : bool :=
  match e with
  | db_updateTransactionLiters _ _ | db_addLitersDispensed _
  | db_clearIncompleteTransaction | db_deleteTransaction _ => true
  | _ => false
  end.

Definition storeCalls (m : t) : list Effect :=
  List.filter isStoreCall (trace m).

(** No code writes the property [DispensedLiter] of the transaction
    object; the property that is written is [dispensedLiter]. *)
Definition lacksDispensedLiter (m : t) : Prop :=
  match currentTransaction m with
  | Some tx => tx !! "DispensedLiter" = None
  | None => True
  end.

(** A refill of the known vehicle, just before finalisation: the tag was
    read, and the meter answered 12.3 twice. *)
Definition dispensed : t :=
  handleUartResponse 9000 "meter_read(12.3)"
    (handleUartResponse 4000 "meter_read(12.3)"
       (handleUartResponse 10 "rfid_get(0076,E200001D8914005717701BFC,2013)"
          awaitingFirstRfid)).

End Refill.

(** ** More of the nozzle port ([services/UartService.js]) *)

Module PortUpkeep.
Import UartService.

(** The keys of the pending table, in iteration order. *)
Definition keys (p : t) : list Z := map fst (pendingCommands p).

(** [now - command.timestamp > this.messageTimeout] *)
Definition expired (now limit : Z) (entry : Z * Pending) : bool :=
  (limit <? now - timestamp (snd entry))%Z.

(** The loop of [cleanupExpiredMessages] over the entries of the table:
    an expired entry has its timer cleared, its key deleted and its
    promise rejected. *)
Fixpoint cleanupLoop (now limit : Z) (entries table : list (Z * Pending))
  : list (Z * Pending) * list Effect :=
  match entries with
  | [] => (table, [])
  | (commandId, command) :: rest =>
      if expired now limit (commandId, command) then
        let '(table', effects) :=
          cleanupLoop now limit rest (map_delete commandId table) in
        (table',
         clearTimeout (timeout command)
           :: reject (promise command) "Command expired" :: effects)
      else cleanupLoop now limit rest table
  end.

Definition cleanupExpiredMessages (now : Z) (p : t) : t * list Effect :=
  let '(table, effects) :=
    cleanupLoop now (messageTimeout p) (pendingCommands p)
                (pendingCommands p) in
  (with_pending p table, effects).

(** What the loop does for one expired entry. *)
Definition expiry (entry : Z * Pending) : list Effect :=
  [clearTimeout (timeout (snd entry));
   reject (promise (snd entry)) "Command expired"].

(** All characters of a string are in a class. *)
Fixpoint allChars (p : ascii -> bool) (s : string) : bool :=
  match s with
  | EmptyString => true
  | String c s' => p c && allChars p s'
  end.

(** What may follow a run of a class: nothing, or a character outside
    the class. *)
Definition stops (p : ascii -> bool) (s : string) : Prop :=
  match s with
  | EmptyString => True
  | String c _ => p c = false
  end.

(** The frame [rfid_get(nozzle,tag,battery)]. *)
Definition rfidFrame (nozzle tag battery : string) : string :=
  ("rfid_get(" ++ nozzle ++ "," ++ tag ++ "," ++ battery ++ ")")%string.

End PortUpkeep.

(** ** Helpers ([utils/helpers.js]) *)

Module uartUtils.

(** [c{n}] for a character class: exactly [n] characters of the class. *)
Fixpoint exactly (n : nat) (p : ascii -> bool) (s : string)
  : option (string * string) :=
  match n with
  | O => Some (EmptyString, s)
  | S n' =>
      match s with
      | EmptyString => None
      | String c s' =>
          if p c then
            '(a, b) ← exactly n' p s'; Some (String c a, b)
          else None
      end
  end.

(** [/rfid_get\((\d{4}),([A-Fa-f0-9]{24}),(\d{4})\)/] *)
Definition rfid_message_at (s : string) : option UartService.RfidInfo :=
  r ← Js.lit "rfid_get(" s;
  '(n, r) ← exactly 4 Js.isDigit r;
  r ← Js.lit "," r;
  '(tag, r) ← exactly 24 Js.isHex r;
  r ← Js.lit "," r;
  '(b, r) ← exactly 4 Js.isDigit r;
  _ ← Js.lit ")" r;
  Some {| UartService.nozzleId := n; UartService.rfidTag := tag;
          UartService.batteryState := Js.parseInt b |}.

Definition parseRfidMessage (message : string)
  : option UartService.RfidInfo :=
  Js.search rfid_message_at message.

(** [/heartbeat\((\d)\)/], the digit *)
Definition heartbeat_at (s : string) : option ascii :=
  r ← Js.lit "heartbeat(" s;
  match r with
  | String d r' => if Js.isDigit d then _ ← Js.lit ")" r'; Some d else None
  | EmptyString => None
  end.

(** [match ? parseInt(match[1]) === 0 : false] *)
Definition parseHeartbeat (message : string) : bool :=
  match Js.search heartbeat_at message with
  | Some d => (Js.digitVal d =? 0)%Z
  | None => false
  end.

End uartUtils.

Module validationUtils.

(** [/^[A-Fa-f0-9]{24}$/.test(tag)] *)
Definition isValidRfidTag (tag : string) : bool :=
  match uartUtils.exactly 24 Js.isHex tag with
  | Some (_, EmptyString) => true
  | _ => false
  end.

(** [/^\d{4}$/.test(id)] *)
Definition isValidNozzleId (id : string) : bool :=
  match uartUtils.exactly 4 Js.isDigit id with
  | Some (_, EmptyString) => true
  | _ => false
  end.

(** [!isNaN(reading) && reading >= 0], on a number *)
Definition isValidMeterReading (reading : Js.number) : bool :=
  match reading with
  | Js.NaN | Js.NegInfinity => false
  | Js.PosInfinity => true
  | Js.Fin q => Qle_bool 0 q
  end.

End validationUtils.

Module transactionUtils.

(** [a - b] on numbers; the difference of two finite numbers is the
    number for their exact difference. *)
Definition minus (a b : Js.number) : Js.number :=
  match a, b with
  | Js.NaN, _ | _, Js.NaN => Js.NaN
  | Js.PosInfinity, Js.PosInfinity => Js.NaN
  | Js.NegInfinity, Js.NegInfinity => Js.NaN
  | Js.PosInfinity, _ => Js.PosInfinity
  | Js.NegInfinity, _ => Js.NegInfinity
  | Js.Fin _, Js.PosInfinity => Js.NegInfinity
  | Js.Fin _, Js.NegInfinity => Js.PosInfinity
  | Js.Fin x, Js.Fin y => Js.double (x - y)
  end.

(** [Math.max(0, x)] *)
Definition max0 (x : Js.number) : Js.number :=
  match x with
  | Js.NaN => Js.NaN
  | Js.PosInfinity => Js.PosInfinity
  | Js.NegInfinity => Js.Fin 0
  | Js.Fin q => if Qle_bool q 0 then Js.Fin 0 else Js.Fin q
  end.

(** [calculateDispensedAmount]: [None] is the thrown
    ['Invalid meter readings']. *)
Definition calculateDispensedAmount (startReading endReading : Js.number)
  : option Js.number :=
  if negb (validationUtils.isValidMeterReading startReading)
     || negb (validationUtils.isValidMeterReading endReading)
  then None
  else Some (max0 (minus endReading startReading)).

End transactionUtils.

Module RetryHandler.

(** What one call of the operation does. *)
Inductive Attempt (A : Type) : Type :=
| fulfils (value : A)
| rejects (error : string).
Arguments fulfils {A} value.
Arguments rejects {A} error.

(** How [retry] ends: with the value of the operation, or throwing
    [lastError], which is [undefined] when the operation never ran. *)
Inductive Outcome (A : Type) : Type :=
| returns (value : A)
| throws (lastError : option string).
Arguments returns {A} value.
Arguments throws {A} lastError.

Record t := {
  maxRetries : nat;
  baseDelay : Z;
  maxDelay : Z
}.

(** [Math.min(this.baseDelay * Math.pow(2, attempt), this.maxDelay)] *)
Definition delay (h : t) (attempt : nat) : Z :=
  Z.min (baseDelay h * 2 ^ Z.of_nat attempt) (maxDelay h).

(** The [for] loop of [retry] from [attempt] on, with [remaining]
    iterations left; [operation n] is what the [n]-th call of the
    operation does.  The result comes with the delays waited, in
    order. *)
Fixpoint loop {A : Type} (h : t) (operation : nat -> Attempt A)
         (remaining attempt : nat) (lastError : option string)
  : Outcome A * list Z :=
  match remaining with
  | O => (throws lastError, [])
  | S remaining' =>
      match operation attempt with
      | fulfils value => (returns value, [])
      | rejects error =>
          let '(outcome, delays) :=
            loop h operation remaining' (S attempt) (Some error) in
          (outcome, delay h attempt :: delays)
      end
  end.

Definition retry {A : Type} (h : t) (operation : nat -> Attempt A)
  : Outcome A * list Z :=
  loop h operation (maxRetries h) 0 None.

End RetryHandler.

(** ** Commands to the board *)

Module Board.
Import FuelStateMachine.

(** The commands among a list of outward calls, in order. *)
Definition sentCommands (effects : list Effect) : list (string * bool) :=
  flat_map (fun e => match e with
                     | uart_sendCommand command expectResponse =>
                         [(command, expectResponse)]
                     | _ => []
                     end) effects.

(** The answer to a nozzle heartbeat. *)
Definition cbhb (nozzleId : string) : string * bool :=
  (("cbhb(" ++ nozzleId ++ ")")%string, false).

End Board.

(** ** The state handlers of the supervisor
       ([state-machine/FuelStateMachine.js])

    The handlers are [async] methods.  Each [await] of a command to the
    board gives control back to the event loop: frames, requests, timers
    and other handlers run before the handler goes on, and
    [processState] is called every second whether or not the previous
    call has finished.  A handler is therefore given as a tree
    of synchronous segments: a segment runs from the state it finds to
    the next awaited command, and goes on from whatever state the
    supervisor is in when the command has settled. *)

Module Constants.

(** [TIMEOUTS] of [config/constants.js] *)
Definition RFID_RETRY_INTERVAL : Z := 5000.
Definition METER_READ_TIMEOUT : Z := 5000.
Definition METER_STABILITY_TIMEOUT : Z := 5000.
Definition NOZZLE_HEARTBEAT_TIMEOUT : Z := 40000.
Definition DRF_SUBMIT_TIMEOUT : Z := 120000.
Definition APP_COMM_TIMEOUT : Z := 600000.
Definition APP_INFORM_TIMEOUT : Z := 10000.

(** [DEVICE_CONFIG.MAX_RETRIES] *)
Definition MAX_RETRIES : Z := 100.

End Constants.

Module Supervisor.
Import STATES.

(** The supervisor: the fields that the frame handlers use, as above,
    and the fields that only the state handlers use. *)
Record t := {
  machine : FuelStateMachine.t;
  solenoidState : bool;
  rfidLedState : bool;
  stopRefill : bool;
  rfidContSent : bool;
  messageToApp : string;
  refillEndReason : string;
  lastRfidResponse : option string;
  lastMeterResponse : option string;
  lastMeterReadLiters : option Q
}.

(** The supervisor as the constructor leaves it. *)
Definition new (now : Z) (fleet : list FuelStateMachine.Vehicle) : t :=
  {| machine := FuelStateMachine.new now fleet;
     solenoidState := false; rfidLedState := false; stopRefill := false;
     rfidContSent := false; messageToApp := ""; refillEndReason := "";
     lastRfidResponse := None; lastMeterResponse := None;
     lastMeterReadLiters := None |}.

Definition with_machine (s : t) (m : FuelStateMachine.t) : t :=
  {| machine := m;
     solenoidState := solenoidState s; rfidLedState := rfidLedState s;
     stopRefill := stopRefill s; rfidContSent := rfidContSent s;
     messageToApp := messageToApp s; refillEndReason := refillEndReason s;
     lastRfidResponse := lastRfidResponse s;
     lastMeterResponse := lastMeterResponse s;
     lastMeterReadLiters := lastMeterReadLiters s |}.

Definition on_machine (f : FuelStateMachine.t -> FuelStateMachine.t) (s : t)
  : t :=
  with_machine s (f (machine s)).

Definition set_solenoidState (x : bool) (s : t) : t :=
  {| machine := machine s;
     solenoidState := x; rfidLedState := rfidLedState s;
     stopRefill := stopRefill s; rfidContSent := rfidContSent s;
     messageToApp := messageToApp s; refillEndReason := refillEndReason s;
     lastRfidResponse := lastRfidResponse s;
     lastMeterResponse := lastMeterResponse s;
     lastMeterReadLiters := lastMeterReadLiters s |}.

Definition set_rfidLedState (x : bool) (s : t) : t :=
  {| machine := machine s;
     solenoidState := solenoidState s; rfidLedState := x;
     stopRefill := stopRefill s; rfidContSent := rfidContSent s;
     messageToApp := messageToApp s; refillEndReason := refillEndReason s;
     lastRfidResponse := lastRfidResponse s;
     lastMeterResponse := lastMeterResponse s;
     lastMeterReadLiters := lastMeterReadLiters s |}.

Definition set_messageToApp (x : string) (s : t) : t :=
  {| machine := machine s;
     solenoidState := solenoidState s; rfidLedState := rfidLedState s;
     stopRefill := stopRefill s; rfidContSent := rfidContSent s;
     messageToApp := x; refillEndReason := refillEndReason s;
     lastRfidResponse := lastRfidResponse s;
     lastMeterResponse := lastMeterResponse s;
     lastMeterReadLiters := lastMeterReadLiters s |}.

Definition set_refillEndReason (x : string) (s : t) : t :=
  {| machine := machine s;
     solenoidState := solenoidState s; rfidLedState := rfidLedState s;
     stopRefill := stopRefill s; rfidContSent := rfidContSent s;
     messageToApp := messageToApp s; refillEndReason := x;
     lastRfidResponse := lastRfidResponse s;
     lastMeterResponse := lastMeterResponse s;
     lastMeterReadLiters := lastMeterReadLiters s |}.

Definition set_lastRfidResponse (x : option string) (s : t) : t :=
  {| machine := machine s;
     solenoidState := solenoidState s; rfidLedState := rfidLedState s;
     stopRefill := stopRefill s; rfidContSent := rfidContSent s;
     messageToApp := messageToApp s; refillEndReason := refillEndReason s;
     lastRfidResponse := x;
     lastMeterResponse := lastMeterResponse s;
     lastMeterReadLiters := lastMeterReadLiters s |}.

Definition set_lastMeterReadLiters (x : option Q) (s : t) : t :=
  {| machine := machine s;
     solenoidState := solenoidState s; rfidLedState := rfidLedState s;
     stopRefill := stopRefill s; rfidContSent := rfidContSent s;
     messageToApp := messageToApp s; refillEndReason := refillEndReason s;
     lastRfidResponse := lastRfidResponse s;
     lastMeterResponse := lastMeterResponse s;
     lastMeterReadLiters := x |}.

(** *** Asynchronous code *)

(** What a handler throws or what an awaited promise is rejected with:
    an [Error] with its message, or the [TypeError] of a property access
    on [null], whose message is worded by the runtime (here as Node 16
    and later word it). *)
Inductive Thrown : Type :=
| Error (message : string)
| TypeError (message : string).

Definition message (e : Thrown) : string :=
  match e with
  | Error message => message
  | TypeError message => message
  end.

Definition cannotRead (property : string) : Thrown :=
  TypeError
    ("Cannot read properties of null (reading '" ++ property ++ "')")%string.

Definition cannotSet (property : string) : Thrown :=
  TypeError
    ("Cannot set properties of null (setting '" ++ property ++ "')")%string.

(** How the promise of [uart.sendCommand] settles: with the reply frame
    (for a command sent without a response expected the value is [true];
    no handler looks at it), or rejected with an error message. *)
Inductive Settled : Type :=
| fulfilled (response : string)
| rejected (message : string).

(** A handler under way: finished, finished with a rejection that
    nothing handles, waiting for a command to settle, or waiting for a
    timer.  A waiting handler is resumed with the time and the
    supervisor as they are then. *)
Inductive Run : Type :=
| Finished (s : t)
| Unhandled (s : t) (e : Thrown)
| Suspended (s : t) (command : string) (expectResponse : bool)
            (resume : Settled -> Z -> t -> Run)
| Sleeping (s : t) (delay : Z) (resume : Z -> t -> Run).

Inductive Completion (A : Type) : Type :=
| Normal (a : A)
| Throw (e : Thrown).
Arguments Normal {A} a.
Arguments Throw {A} e.

(** Code that may await: given what follows it, the time and the
    supervisor, the handler from there on. *)
Definition Async (A : Type) : Type :=
  (Completion A -> Z -> t -> Run) -> Z -> t -> Run.

Definition ret {A : Type} (a : A) : Async A :=
  fun k now s => k (Normal a) now s.

Definition bind {A B : Type} (m : Async A) (f : A -> Async B) : Async B :=
  fun k => m (fun c => match c with
                       | Normal a => f a k
                       | Throw e => k (Throw e)
                       end).

Declare Scope async_scope.
Delimit Scope async_scope with async.
Notation "x ← m ; k" := (bind m (fun x => k))
  (at level 20, m at level 100, k at level 200, only parsing) : async_scope.
Notation "m ;; k" := (bind m (fun _ => k))
  (at level 100, k at level 200, only parsing, right associativity)
  : async_scope.
Local Open Scope async_scope.

Definition throw {A : Type} (e : Thrown) : Async A :=
  fun k now s => k (Throw e) now s.

(** [try { m } catch (error) { handler }] *)
Definition try_catch {A : Type} (m : Async A) (handler : Thrown -> Async A)
  : Async A :=
  fun k => m (fun c => match c with
                       | Normal a => k (Normal a)
                       | Throw e => handler e k
                       end).

(** [Date.now()] *)
Definition clock : Async Z := fun k now s => k (Normal now) now s.

(** [this] *)
Definition get : Async t := fun k now s => k (Normal s) now s.

Definition modify (f : t -> t) : Async unit :=
  fun k now s => k (Normal tt) now (f s).

(** [await this.uart.sendCommand(command, expectResponse)] *)
Definition sendCommand (command : string) (expectResponse : bool)
  : Async string :=
  fun k _ s =>
    Suspended
      (on_machine
         (FuelStateMachine.perform
            (FuelStateMachine.uart_sendCommand command expectResponse)) s)
      command expectResponse
      (fun settled now s =>
         match settled with
         | fulfilled response => k (Normal response) now s
         | rejected message => k (Throw (Error message)) now s
         end).

(** [await new Promise(resolve => setTimeout(resolve, delay))] *)
Definition sleep (delay : Z) : Async unit :=
  fun k _ s => Sleeping s delay (fun now s => k (Normal tt) now s).

(** A call of an [async] method from [processState], which catches what
    the method throws. *)
Definition processed (handler : Async unit) (now : Z) (s : t) : Run :=
  handler
    (fun c now s =>
       match c with
       | Normal _ => Finished s
       | Throw e =>
           Finished
             (on_machine
                (FuelStateMachine.transition now REFILL_OP_ERROR
                   (Some [("error",
                           FuelStateMachine.FVal (Js.Str (message e)))])
                   None) s)
       end)
    now s.

(** A call of an [async] method that nothing awaits. *)
Definition forked (handler : Async unit) (now : Z) (s : t) : Run :=
  handler
    (fun c _ s =>
       match c with
       | Normal _ => Finished s
       | Throw e => Unhandled s e
       end)
    now s.

(** The supervisor as a handler under way leaves it for the rest of the
    program. *)
Definition standing (r : Run) : t :=
  match r with
  | Finished s | Unhandled s _ | Suspended s _ _ _ | Sleeping s _ _ => s
  end.

(** *** Utility methods *)

Definition transition (newState : STATES.t)
           (data : option FuelStateMachine.Obj) (reason : option string)
  : Async unit :=
  now ← clock;
  modify (on_machine (FuelStateMachine.transition now newState data reason)).

(** [{ error }] as transition data; the error object is given by its
    message. *)
Definition errorData (e : Thrown) : option FuelStateMachine.Obj :=
  Some [("error", FuelStateMachine.FVal (Js.Str (message e)))].

Definition checkAppCommTimeout : Async bool :=
  now ← clock; s ← get;
  ret (Constants.APP_COMM_TIMEOUT
       <? now - FuelStateMachine.lastAppCommTime (machine s))%Z.

Definition retriesFinished : Async bool :=
  s ← get; ret (FuelStateMachine.retryCount (machine s) <=? 0)%Z.

Definition startReqTimer : Async unit :=
  now ← clock;
  modify (on_machine (fun m => FuelStateMachine.set_requestStartTime m (Some now))).

(** [Date.now() - this.requestStartTime > timeout]; a [null] start time
    counts as 0. *)
Definition checkReqTimeout (timeout : Z) : Async bool :=
  now ← clock; s ← get;
  ret (timeout
       <? now - default 0 (FuelStateMachine.requestStartTime (machine s)))%Z.

Definition setRetryCount (n : Z) : Async unit :=
  modify (on_machine (fun m => FuelStateMachine.set_retryCount m n)).

Definition setRfidLed (state : bool) : Async unit :=
  modify (set_rfidLedState state).

Definition setSolenoidState (state : bool) : Async bool :=
  try_catch
    (sendCommand ("set_solenoid(" ++ (if state then "1" else "0") ++ ")")%string
                 false;;
     modify (set_solenoidState state);;
     ret true)
    (fun _ => ret false).

Definition rfid_stop : Async string :=
  s ← get;
  sendCommand
    ("rfid_stop(" ++ FuelStateMachine.nozzleId (machine s) ++ ")")%string
    false.

Definition getMeterValue : Async (option Q) :=
  try_catch
    (response ← sendCommand "meter_read()" true;
     match UartService.parseMeterResponse response with
     | Some value =>
         now ← clock; s ← get;
         let '(r, isStable) :=
           FuelStateMachine.addMeterReading
             now value (FuelStateMachine.meterReading (machine s)) in
         modify (on_machine (fun m => FuelStateMachine.set_meterReading m r));;
         ret (if isStable then Some value else None)
     | None => ret None
     end)
    (fun _ => ret None).

(** [finalizeTransaction], as above; the property that the [TypeError]
    names is the one whose access failed. *)
Definition finalizeTransaction (finalReading : Q) : Async unit :=
  now ← clock; s ← get;
  match FuelStateMachine.finalizeTransaction now finalReading (machine s) with
  | FuelStateMachine.Normal m => modify (fun s => with_machine s m)
  | FuelStateMachine.TypeError m =>
      modify (fun s => with_machine s m);;
      if negb (Qle_bool finalReading 0) then
        match FuelStateMachine.currentTransaction (machine s) with
        | None => throw (cannotSet "dispensedLiter")
        | Some _ => throw (cannotRead "FleetNumber")
        end
      else throw (cannotRead "FleetNumber")
  end.

(** [this.meterReading.current = x] and [this.meterReading.lastStable = x] *)
Definition setCurrent (x : Q) : Async unit :=
  modify (on_machine (fun m =>
    FuelStateMachine.set_meterReading m
      (FuelStateMachine.set_current (FuelStateMachine.meterReading m) x))).

Definition setLastStable (x : Q) : Async unit :=
  modify (on_machine (fun m =>
    FuelStateMachine.set_meterReading m
      (FuelStateMachine.set_lastStable (FuelStateMachine.meterReading m) x))).

(** [this.currentTransaction.dispensedLiter = x.toString()] *)
Definition setDispensedLiter (x : Q) : Async unit :=
  s ← get;
  match FuelStateMachine.currentTransaction (machine s) with
  | Some tx =>
      modify (on_machine (fun m =>
        FuelStateMachine.set_currentTransaction m
          (Some (<["dispensedLiter" := Js.NumStr x]> tx))))
  | None => throw (cannotSet "dispensedLiter")
  end.

Definition num (x : Q) : FuelStateMachine.Field :=
  FuelStateMachine.FVal (Js.Num (Js.Fin x)).

Definition str (x : string) : FuelStateMachine.Field :=
  FuelStateMachine.FVal (Js.Str x).

(** *** State handlers *)

Definition processLastMeterReadState : Async unit :=
  try_catch
    (meterValue ← getMeterValue;
     match meterValue with
     | Some meterValue =>
         s ← get;
         let lastStable :=
           FuelStateMachine.lastStable
             (FuelStateMachine.meterReading (machine s)) in
         if negb (Qeq_bool lastStable meterValue) then
           setCurrent meterValue;;
           modify (set_lastMeterReadLiters (Some meterValue));;
           transition REFILL_WAIT_METER_STABILITY
             (Some [("currentReading", num meterValue);
                    ("previousReading", num lastStable)])
             (Some "Meter read unstable");;
           startReqTimer
         else finalizeTransaction meterValue
     | None =>
         timedOut ← checkReqTimeout Constants.METER_STABILITY_TIMEOUT;
         if timedOut then
           finished ← retriesFinished;
           if finished then
             s ← get;
             finalizeTransaction
               (FuelStateMachine.lastStable
                  (FuelStateMachine.meterReading (machine s)))
           else
             s ← get;
             setRetryCount (FuelStateMachine.retryCount (machine s) - 1)%Z;;
             sendCommand "meter_read()" true;;
             startReqTimer
         else ret tt
     end)
    (fun error =>
       transition REFILL_OP_ERROR (errorData error)
         (Some ("Error during last meter read: " ++ message error)%string)).

Definition processWaitMeterStabilityState : Async unit :=
  try_catch
    (timedOut ← checkReqTimeout 5000;
     if timedOut then
       setRetryCount 2;;
       s ← get;
       transition REFILL_LAST_METER_READ
         (Some [("lastReading",
                 num (FuelStateMachine.current
                        (FuelStateMachine.meterReading (machine s))));
                ("stabilityAttempt", FuelStateMachine.FVal (Js.Bool true))])
         (Some "Try to read last meter value again");;
       sendCommand "meter_read()" true;;
       startReqTimer
     else ret tt)
    (fun error =>
       transition REFILL_OP_ERROR (errorData error)
         (Some ("Error during meter stability wait: " ++ message error)%string)).

Definition processForceStopState : Async unit :=
  try_catch
    (finalReading ← getMeterValue;
     setSolenoidState false;;
     rfid_stop;;
     modify (set_messageToApp "Refill ended by user");;
     let withoutReading : Async unit :=
       s ← get;
       let lastKnownReading :=
         FuelStateMachine.lastStable
           (FuelStateMachine.meterReading (machine s)) in
       if negb (Qle_bool lastKnownReading 0) then
         setCurrent lastKnownReading;;
         setDispensedLiter lastKnownReading;;
         setRetryCount 2;;
         transition REFILL_LAST_METER_READ
           (Some [("finalReading", num lastKnownReading);
                  ("source", str "force_stop");
                  ("reason", str "Using last stable reading")])
           (Some "Force stop with last stable reading")
       else
         transition REFILL_WAIT_APP_INFORM
           (Some [("reason", str "No valid reading available")])
           (Some "Force stop with no valid reading") in
     match finalReading with
     | Some reading =>
         if negb (Qle_bool reading 0) then
           setCurrent reading;;
           setLastStable reading;;
           setDispensedLiter reading;;
           setRetryCount 2;;
           transition REFILL_LAST_METER_READ
             (Some [("finalReading", num reading);
                    ("source", str "force_stop");
                    ("reason", str "User requested stop")])
             (Some "Force stop with final reading obtained")
         else withoutReading
     | None => withoutReading
     end;;
     setRfidLed false)
    (fun error =>
       transition REFILL_OP_ERROR (errorData error)
         (Some ("Error during force stop: " ++ message error)%string)).

(** A value that counts as true in a condition: a string that is there
    and not empty. *)
Definition truthy (x : option string) : bool :=
  match x with
  | Some (String _ _) => true
  | _ => false
  end.

Definition currentReading (s : t) : Q :=
  FuelStateMachine.current (FuelStateMachine.meterReading (machine s)).

Definition processRefillProgressState : Async unit :=
  try_catch
    (now ← clock; s ← get;
     if (Constants.NOZZLE_HEARTBEAT_TIMEOUT
         <? now - FuelStateMachine.lastNozzleHeartbeatTime (machine s))%Z
     then
       setSolenoidState false;;
       setRetryCount Constants.RFID_RETRY_INTERVAL;;
       startReqTimer;;
       setRfidLed false;;
       modify (set_messageToApp "Nozzle communication lost");;
       s ← get;
       transition REFILL_INTERRUPT
         (Some [("lastMeterRead", num (currentReading s));
                ("reason", str "Nozzle communication timeout")])
         (Some "Nozzle communication timeout")
     else
       appTimeout ← checkAppCommTimeout;
       if stopRefill s || appTimeout then
         modify (set_messageToApp
                   (if stopRefill s then "Refill ended by user"
                    else "App comm. timeout"));;
         modify (fun s => set_refillEndReason (messageToApp s) s);;
         setSolenoidState false;;
         rfid_stop;;
         sendCommand "meter_read()" true;;
         startReqTimer;;
         setRetryCount 2;;
         s ← get;
         transition REFILL_LAST_METER_READ
           (Some [("finalReading", num (currentReading s));
                  ("reason", str (if stopRefill s then "User requested stop"
                                  else "App timeout"))])
           (Some "Refill stopped by user or app timeout");;
         setRfidLed false
       else
         match FuelStateMachine.vehicle (machine s) with
         | None => throw (cannotRead "VehicleTankCapacity")
         | Some vehicle =>
             if Qle_bool (FuelStateMachine.VehicleTankCapacity vehicle)
                         (currentReading s)
             then
               setSolenoidState false;;
               rfid_stop;;
               modify (set_messageToApp "Max Tank Capacity Reached");;
               modify (fun s => set_refillEndReason (messageToApp s) s);;
               setRetryCount 2;;
               s ← get;
               transition REFILL_LAST_METER_READ
                 (Some [("finalReading", num (currentReading s));
                        ("reason", str "Tank capacity reached")])
                 (Some "Vehicle tank capacity reached");;
               setRfidLed false
             else if truthy (lastMeterResponse s) then
               if FuelStateMachine.isMeterReadingStable
                    now (FuelStateMachine.meterReading (machine s))
               then
                 sendCommand "meter_read()" true;;
                 startReqTimer;;
                 setRetryCount 5
               else ret tt
             else
               timedOut ← checkReqTimeout Constants.METER_READ_TIMEOUT;
               if timedOut then
                 finished ← retriesFinished;
                 if finished then
                   setSolenoidState false;;
                   sendCommand "meter_read()" true;;
                   rfid_stop;;
                   setRetryCount 5;;
                   s ← get;
                   transition REFILL_LAST_METER_READ
                     (Some [("finalReading", num (currentReading s));
                            ("reason", str "Meter read timeout")])
                     (Some "Meter read timeout during refill");;
                   setRfidLed false;;
                   modify (set_messageToApp "No response from meter")
                 else
                   sendCommand "meter_read()" true;;
                   startReqTimer
               else ret tt
         end)
    (fun error =>
       transition REFILL_OP_ERROR (errorData error)
         (Some ("Error during refill: " ++ message error)%string)).

Definition rfid_get_cont : Async string :=
  s ← get;
  match FuelStateMachine.vehicle (machine s) with
  | None => throw (cannotRead "TagNumber")
  | Some vehicle =>
      sendCommand
        ("rfid_get_cont(" ++ FuelStateMachine.nozzleId (machine s) ++ ","
         ++ FuelStateMachine.TagNumber vehicle ++ ")")%string
        false
  end.

Definition processInterruptState : Async unit :=
  try_catch
    (appTimeout ← checkAppCommTimeout;
     if appTimeout then
       modify (set_messageToApp "App comm. timeout");;
       modify (fun s => set_refillEndReason (messageToApp s) s);;
       setSolenoidState false;;
       rfid_stop;;
       sendCommand "meter_read()" true;;
       startReqTimer;;
       setRetryCount 2;;
       transition REFILL_LAST_METER_READ (Some [])
         (Some "App communication timeout during interrupt");;
       setRfidLed false
     else
       s ← get;
       match lastRfidResponse s with
       | Some (String c response) =>
           let rfidInfo :=
             UartService.parseRfidResponse (String c response) in
           recovered ←
             match rfidInfo with
             | None => ret false
             | Some rfidInfo =>
                 match FuelStateMachine.vehicle (machine s) with
                 | None => throw (cannotRead "TagNumber")
                 | Some vehicle =>
                     ret (String.eqb (UartService.rfidTag rfidInfo)
                                     (FuelStateMachine.TagNumber vehicle))
                 end
             end;
           if recovered then
             sleep 100;;
             modify (on_machine
                       (fun m => FuelStateMachine.set_rfidAlarmReceived m false));;
             rfid_get_cont;;
             setSolenoidState true;;
             startReqTimer;;
             setRfidLed true;;
             transition REFILL_PROGRESS (Some [])
               (Some "RFID tag detected again, resuming refill");;
             modify (set_messageToApp "");;
             modify (set_lastRfidResponse None)
           else ret tt
       | _ =>
           timedOut ← checkReqTimeout Constants.RFID_RETRY_INTERVAL;
           if timedOut then
             finished ← retriesFinished;
             if finished then
               rfid_stop;;
               modify (set_messageToApp "Nozzle removed. Ending refill.");;
               modify (set_refillEndReason "Nozzle removed. Refill Ended");;
               transition REFILL_LAST_METER_READ (Some [])
                 (Some "Maximum retry attempts reached during interrupt")
             else
               s ← get;
               sendCommand
                 ("rfid_get(" ++ FuelStateMachine.nozzleId (machine s) ++ ")")%string
                 true;;
               s ← get;
               setRetryCount (FuelStateMachine.retryCount (machine s) - 1)%Z;;
               startReqTimer
           else ret tt
       end)
    (fun error =>
       transition REFILL_OP_ERROR (errorData error)
         (Some ("Error during interrupt handling: " ++ message error)%string)).

(** *** Return to idle *)

(** [resetStateMachine] is synchronous. *)
Definition resetStateMachine (now : Z) (s : t) : t :=
  let m := machine s in
  let m := FuelStateMachine.set_meterReading
             m FuelStateMachine.newMeterReading in
  let m := FuelStateMachine.set_operation m None None in
  let m := FuelStateMachine.set_flags
             m false false false (FuelStateMachine.dbIdToSync m)
             (FuelStateMachine.lastUartResponse m) in
  let m := FuelStateMachine.set_timing
             m (FuelStateMachine.lastHeartbeatTime m) now None 0 None in
  {| machine := m;
     solenoidState := solenoidState s; rfidLedState := rfidLedState s;
     stopRefill := false; rfidContSent := false;
     messageToApp := ""; refillEndReason := "";
     lastRfidResponse := None; lastMeterResponse := None;
     lastMeterReadLiters := lastMeterReadLiters s |}.

Definition transitionToIdle (now : Z) (reason : option string) (s : t) : t :=
  on_machine
    (FuelStateMachine.transition now REFILL_OP_IDLE (Some []) reason)
    (resetStateMachine now s).

(** *** The handlers of the states before the refill *)

(** The fields of [initializeRefill] that only the state handlers use;
    the others as above. *)
Definition initializeRefill (now : Z) (s : t) : t :=
  {| machine := FuelStateMachine.initializeRefill now (machine s);
     solenoidState := solenoidState s; rfidLedState := rfidLedState s;
     stopRefill := false; rfidContSent := false;
     messageToApp := ""; refillEndReason := "";
     lastRfidResponse := None; lastMeterResponse := None;
     lastMeterReadLiters := lastMeterReadLiters s |}.

Definition set_rfidContSent (x : bool) (s : t) : t :=
  {| machine := machine s;
     solenoidState := solenoidState s; rfidLedState := rfidLedState s;
     stopRefill := stopRefill s; rfidContSent := x;
     messageToApp := messageToApp s; refillEndReason := refillEndReason s;
     lastRfidResponse := lastRfidResponse s;
     lastMeterResponse := lastMeterResponse s;
     lastMeterReadLiters := lastMeterReadLiters s |}.

Definition rfid_get : Async string :=
  s ← get;
  sendCommand
    ("rfid_get(" ++ FuelStateMachine.nozzleId (machine s) ++ ")")%string true.

Definition rfid_get_stop : Async string :=
  s ← get;
  sendCommand
    ("rfid_get_stop(" ++ FuelStateMachine.nozzleId (machine s) ++ ")")%string
    false.

(** [processStartState].  The assignment to [lastAppCommTime] that opens
    it is repeated by [initializeRefill]. *)
Definition processStartState : Async unit :=
  try_catch
    (now ← clock;
     modify (initializeRefill now);;
     setRetryCount Constants.MAX_RETRIES;;
     rfid_get;;
     startReqTimer;;
     s ← get;
     transition REFILL_GET_FIRST_RFID
       (Some [("maxRetries",
               num (inject_Z (FuelStateMachine.retryCount (machine s))))])
       (Some "Starting RFID read sequence"))
    (fun error =>
       now ← clock;
       modify (transitionToIdle
                 now (Some ("Error during start state: "
                            ++ message error)%string))).

Definition processWaitForDrfState : Async unit :=
  try_catch
    (appTimeout ← checkAppCommTimeout;
     if appTimeout then
       rfid_get_stop;;
       setRfidLed false;;
       now ← clock;
       modify (transitionToIdle
                 now
                 (Some "DRF submission timed out - app communication lost"))
     else
       timedOut ← checkReqTimeout Constants.DRF_SUBMIT_TIMEOUT;
       if timedOut then
         rfid_get_stop;;
         setRfidLed false;;
         now ← clock;
         modify (transitionToIdle
                   now
                   (Some "DRF submission timed out - no submission received within time limit"))
       else ret tt)
    (fun error =>
       transition REFILL_OP_ERROR (errorData error)
         (Some ("Error in DRF wait state: " ++ message error)%string)).

(** [this.vehicle.FleetNumber], read for a log line *)
Definition readFleetNumber : Async unit :=
  s ← get;
  match FuelStateMachine.vehicle (machine s) with
  | Some _ => ret tt
  | None => throw (cannotRead "FleetNumber")
  end.

Definition processReadFirstMeterState : Async unit :=
  try_catch
    (meterValue ← getMeterValue;
     match meterValue with
     | Some _ =>
         sendCommand "meter_reset()" false;;
         sendCommand "meter_read()" true;;
         setRfidLed false;;
         transition REFILL_WAIT_FIRST_RFID_MATCH (Some [])
           (Some "Meter read successful");;
         startReqTimer;;
         setRetryCount 150;;
         readFleetNumber
     | None =>
         timedOut ← checkReqTimeout 2000;
         if timedOut then
           finished ← retriesFinished;
           if finished then
             rfid_get_stop;;
             setSolenoidState false;;
             transition REFILL_OP_IDLE (Some []) (Some "Meter read error");;
             modify (set_messageToApp "Meter read error")
           else
             sendCommand "meter_read()" true;;
             startReqTimer
         else ret tt
     end)
    (fun error =>
       transition REFILL_OP_ERROR (errorData error)
         (Some ("Error during first meter read: " ++ message error)%string)).

(** [this.rfidInContact && this.lastRfidMatchTime] *)
Definition matchConfirmed (s : t) : bool :=
  FuelStateMachine.rfidInContact (machine s)
  && match FuelStateMachine.lastRfidMatchTime (machine s) with
     | Some time => negb (time =? 0)%Z
     | None => false
     end.

(** [processWaitFirstRfidMatchState].  [stored] is the answer of
    [addTransactionToDb]: [true] when the store is initialised, [false]
    when it is not (the store throws and the wrapper catches). *)
Definition processWaitFirstRfidMatchState (stored : bool) : Async unit :=
  try_catch
    (s ← get;
     (if negb (rfidContSent s) then
        rfid_get_cont;;
        modify (set_rfidContSent true);;
        startReqTimer
      else ret tt);;
     s ← get;
     if matchConfirmed s then
       if negb stored then
         modify (set_messageToApp "Database Error");;
         modify (set_refillEndReason "Database Error");;
         transition REFILL_WAIT_APP_INFORM (Some [])
           (Some "Database error while creating transaction")
       else
         setSolenoidState true;;
         sendCommand "meter_read()" true;;
         setRfidLed true;;
         s ← get;
         match FuelStateMachine.vehicle (machine s) with
         | None => throw (cannotRead "TagNumber")
         | Some vehicle =>
             transition REFILL_PROGRESS
               (Some [("matchTime",
                       FuelStateMachine.FVal
                         (match FuelStateMachine.lastRfidMatchTime
                                  (machine s) with
                          | Some time => Js.Num (Js.Fin (inject_Z time))
                          | None => Js.Null
                          end));
                      ("rfidTag", str (FuelStateMachine.TagNumber vehicle))])
               (Some "RFID match confirmed, proceeding to refill")
         end
     else
       timedOut ← checkReqTimeout 5000;
       if timedOut then
         finished ← retriesFinished;
         if finished then
           rfid_stop;;
           modify (set_messageToApp "Failed to get RFID match");;
           transition REFILL_OP_IDLE (Some [])
             (Some "RFID match timeout after maximum retries")
         else ret tt
       else ret tt)
    (fun error =>
       transition REFILL_OP_ERROR (errorData error)
         (Some ("Error during RFID match: " ++ message error)%string)).

(** [processWaitAppInformState]; [checkZeroLiterDispense] tests a
    property that no code sets and does nothing. *)
Definition processWaitAppInformState : Async unit :=
  try_catch
    (timedOut ← checkReqTimeout Constants.APP_INFORM_TIMEOUT;
     s ← get;
     if timedOut || FuelStateMachine.appInformed (machine s) then
       now ← clock;
       modify (transitionToIdle now (Some "App informed or timeout reached"));;
       modify (set_messageToApp "")
     else ret tt)
    (fun error =>
       transition REFILL_OP_ERROR (errorData error)
         (Some ("Error during app inform wait: " ++ message error)%string)).

(** *** The health monitor *)

(** [handleHeartbeatTimeout] is synchronous. *)
Definition handleHeartbeatTimeout (now : Z) (s : t) : t :=
  if negb (STATES.eqb (FuelStateMachine.currentState (machine s))
                      REFILL_OP_ERROR)
  then
    on_machine
      (FuelStateMachine.transition now REFILL_OP_ERROR
         (Some [("reason", str "Heartbeat timeout")])
         (Some "System heartbeat timeout detected")) s
  else s.

Definition handleNozzleTimeout : Async unit :=
  s ← get;
  if STATES.eqb (FuelStateMachine.currentState (machine s)) REFILL_PROGRESS
  then
    setSolenoidState false;;
    s ← get;
    transition REFILL_INTERRUPT
      (Some [("reason", str "Nozzle timeout");
             ("lastReading", num (currentReading s))])
      (Some "Nozzle communication timeout during refill")
  else ret tt.

Definition handleAppTimeout : Async unit :=
  s ← get;
  if STATES.eqb (FuelStateMachine.currentState (machine s)) REFILL_PROGRESS
  then
    modify (set_messageToApp "App communication timeout");;
    modify (fun s => set_refillEndReason (messageToApp s) s);;
    setSolenoidState false;;
    rfid_stop;;
    transition REFILL_LAST_METER_READ
      (Some [("reason", str "App timeout")])
      (Some "App communication timeout during refill")
  else ret tt.

(** [monitorSystemHealth], called every second by a timer.  The two
    [async] handlers are called without [await]: each runs up to its
    first awaited command before the monitor goes on, and finishes
    later.  The result is the supervisor as the monitor leaves it and
    the handlers it has started, in order.  The [healthStatus] event,
    which only reports, is left out. *)
Definition monitorSystemHealth (now : Z) (s : t) : t * list Run :=
  let s :=
    if (Constants.NOZZLE_HEARTBEAT_TIMEOUT
        <? now - FuelStateMachine.lastHeartbeatTime (machine s))%Z
    then handleHeartbeatTimeout now s else s in
  let '(s, started) :=
    if negb (STATES.eqb (FuelStateMachine.currentState (machine s))
                        REFILL_OP_IDLE)
       && (Constants.NOZZLE_HEARTBEAT_TIMEOUT
           <? now - FuelStateMachine.lastNozzleHeartbeatTime (machine s))%Z
    then
      let r := forked handleNozzleTimeout now s in (standing r, [r])
    else (s, []) in
  if negb (STATES.eqb (FuelStateMachine.currentState (machine s))
                      REFILL_OP_IDLE)
     && (Constants.APP_COMM_TIMEOUT
         <? now - FuelStateMachine.lastAppCommTime (machine s))%Z
  then
    let r := forked handleAppTimeout now s in (standing r, started ++ [r])
  else (s, started).

End Supervisor.

(** ** Runs of a handler *)

Module Runs.
Import Supervisor.

Definition Command : Type := (string * bool)%type.

(** [Always P Q issued a r]: in the handler [r], which starts a segment
    in the supervisor [a] after the commands [issued], every segment
    takes the supervisor it starts from to one that [P] relates to it,
    together with the command that the segment ends with, if any,
    whatever the outcome of each awaited command and whatever the
    supervisor has become by the time the handler goes on; and when the
    handler ends, [Q] holds of the commands it has issued and of the
    supervisor it leaves. *)
Inductive Always (P : list Command -> t -> t -> option Command -> Prop)
          (Q : list Command -> t -> Prop)
  : list Command -> t -> Run -> Prop :=
| always_finished issued a s :
    P issued a s None -> Q issued s -> Always P Q issued a (Finished s)
| always_unhandled issued a s e :
    P issued a s None -> Q issued s -> Always P Q issued a (Unhandled s e)
| always_suspended issued a s command expectResponse resume :
    P issued a s (Some (command, expectResponse)) ->
    (forall settled now s',
        Always P Q (issued ++ [(command, expectResponse)]) s'
               (resume settled now s')) ->
    Always P Q issued a (Suspended s command expectResponse resume)
| always_sleeping issued a s delay resume :
    P issued a s None ->
    (forall now s', Always P Q issued s' (resume now s')) ->
    Always P Q issued a (Sleeping s delay resume).

(** The handler after its first awaited command has settled. *)
Definition resumed (r : Run) (settled : Settled) (now : Z) (s : t) : Run :=
  match r with
  | Suspended _ _ _ resume => resume settled now s
  | _ => r
  end.

(** The ['data'] listener of the application, which hands every frame to
    [handleUartResponse]. *)
Definition onData (now : Z) (data : string) (s : t) : t :=
  on_machine (FuelStateMachine.handleUartResponse now data) s.

(** The meter filter as every reset installs it and every reading
    leaves it: threshold 2, 5000 ms, and a time stamp once the window
    holds a reading. *)
Definition armed (r : FuelStateMachine.MeterReading) : Prop :=
  FuelStateMachine.stabilityThreshold r = 2%nat /\
  FuelStateMachine.stabilityTimeoutMs r = 5000 /\
  (FuelStateMachine.readings r = [] \/
   exists t0, FuelStateMachine.stabilityTimestamp r = Some t0).

(** The time from which the filter measures, for a reading that arrives
    at [now]: the arrival of the first reading of the window. *)
Definition windowStart (now : Z) (r : FuelStateMachine.MeterReading) : Z :=
  match FuelStateMachine.readings r with
  | [] => now
  | _ :: _ => default 0 (FuelStateMachine.stabilityTimestamp r)
  end.

(** A filter whose newest reading is [value] and which measures from
    [t0]. *)
Definition lastHeard (value : Q) (t0 : Z)
           (r : FuelStateMachine.MeterReading) : Prop :=
  (exists older, FuelStateMachine.readings r = older ++ [value]) /\
  FuelStateMachine.stabilityThreshold r = 2%nat /\
  FuelStateMachine.stabilityTimeoutMs r = 5000 /\
  FuelStateMachine.stabilityTimestamp r = Some t0.

(** The states that a segment of a handler may leave the supervisor in:
    the state it found, or one of [targets]. *)
Definition movesOnlyTo (targets : list STATES.t) (a b : t) : Prop :=
  FuelStateMachine.currentState (machine b)
  = FuelStateMachine.currentState (machine a) \/
  In (FuelStateMachine.currentState (machine b)) targets.

(** Ten of the thirteen cases of the [switch] of [processState]: the
    states whose handlers are given above, each with its handler.  The
    cases of [REFILL_OP_IDLE], [REFILL_GET_FIRST_RFID] and
    [REFILL_OP_ERROR] are not in the list. *)
Definition handlers (stored : bool) : list (STATES.t * Async unit) :=
  [(STATES.REFILL_OP_START, processStartState);
   (STATES.REFILL_WAIT_FOR_DRF_SUBMIT, processWaitForDrfState);
   (STATES.REFILL_READ_FIRST_METER, processReadFirstMeterState);
   (STATES.REFILL_WAIT_FIRST_RFID_MATCH,
    processWaitFirstRfidMatchState stored);
   (STATES.REFILL_PROGRESS, processRefillProgressState);
   (STATES.REFILL_INTERRUPT, processInterruptState);
   (STATES.REFILL_LAST_METER_READ, processLastMeterReadState);
   (STATES.REFILL_WAIT_METER_STABILITY, processWaitMeterStabilityState);
   (STATES.REFILL_WAIT_APP_INFORM, processWaitAppInformState);
   (STATES.REFILL_FORCE_STOP, processForceStopState)].

(** The targets that the table of [STATE_DEFINITIONS] lists for a state,
    and for [REFILL_OP_START] also [REFILL_OP_IDLE], which the table
    does not list for it. *)
Definition listedTargets (state : STATES.t) : list STATES.t :=
  match state with
  | STATES.REFILL_OP_START =>
      STATES.REFILL_OP_IDLE
        :: StateDefinitions.allowedTransitions STATES.REFILL_OP_START
  | _ => StateDefinitions.allowedTransitions state
  end.

Definition closeValve : Command := ("set_solenoid(0)", false).
Definition openValve : Command := ("set_solenoid(1)", false).

End Runs.

(** ** More of the operator surface ([routes/api.js]) *)

Module Routes.
Import STATES ApiRoutes.

(** [POST /api/fill].  The members [currentState] and [allowedState] of
    the error body and [state] of the success body are left out. *)
Definition fill (now : Z) (api : t) : t * Response :=
  let m := stateMachine api in
  if negb (STATES.eqb (FuelStateMachine.currentState m) REFILL_OP_IDLE) then
    (api, badRequest "Cannot start fill operation - system busy")
  else
    (with_stateMachine api
       (FuelStateMachine.transition now REFILL_OP_START
          (Some [("requestTime",
                  FuelStateMachine.FVal (Js.Num (Js.Fin (inject_Z now))))])
          (Some "Fill operation initiated via API request") m),
     {| status := 200;
        body := [("success", Js.Bool true);
                 ("message", Js.Str "Fill operation started")] |}).

(** The [refill_params] case of [POST /api/operation], for a request
    whose token is known.  [refillLiters] is a property that no code
    sets; the [state] and date members of the normal answer are left
    out. *)
Definition refill_params (now : Z) (s : Supervisor.t)
  : Supervisor.t * Response :=
  let m := Supervisor.machine s in
  if STATES.eqb (FuelStateMachine.currentState m) REFILL_WAIT_APP_INFORM
     && Js.includes (Supervisor.refillEndReason s) "Max Tank Capacity"
  then
    let s := Supervisor.on_machine
               (fun m => FuelStateMachine.set_appInformed m true) s in
    (Supervisor.transitionToIdle
       now (Some "Tank capacity reached - app informed") s,
     ok [("response", Js.Str "invalid");
         ("message", Js.Str "Tank capacity reached: undefined")])
  else
    (s,
     ok [("response", Js.Str "refill_params");
         ("refill_op_rfidtag",
          Js.Str (match FuelStateMachine.vehicle m with
                  | Some v => FuelStateMachine.TagNumber v
                  | None => ""
                  end));
         ("refill_op_fleetnumber",
          Js.Str (match FuelStateMachine.vehicle m with
                  | Some v => FuelStateMachine.FleetNumber v
                  | None => ""
                  end));
         ("refill_op_liters",
          Js.NumStr (FuelStateMachine.current
                       (FuelStateMachine.meterReading m)))]).

(** [response.match(/hls_read\((\d+),\d+\)/)], first group *)
Definition hls_read_at (s : string) : option string :=
  r ← Js.lit "hls_read(" s;
  '(value, r) ← Js.plus Js.isDigit r;
  r ← Js.lit "," r;
  '(_, r) ← Js.plus Js.isDigit r;
  _ ← Js.lit ")" r;
  Some value.

(** [GET /api/hls/:socketId]: either an answer at once, or a command to
    the board and the answer that follows when the command settles at
    time [now].  The members of [data] are given in the body. *)
Inductive Hls : Type :=
| answered (response : Response)
| asked (command : string) (expectResponse : bool)
        (answer : Supervisor.Settled -> Z -> Response).

Definition hlsAnswer (socketId : Z) (settled : Supervisor.Settled) (now : Z)
  : Response :=
  match settled with
  | Supervisor.fulfilled response =>
      match Js.search hls_read_at response with
      | None => badRequest "Invalid response from HLS sensor"
      | Some value =>
          ok [("success", Js.Bool true);
              ("hlsId", Js.Num (Js.Fin (inject_Z socketId)));
              ("meterRead", Js.Num (Js.parseInt value));
              ("denominator", Js.Num (Js.Fin 500));
              ("timestamp", Js.Num (Js.Fin (inject_Z now)))]
      end
  | Supervisor.rejected _ =>
      {| status := 500;
         body := [("success", Js.Bool false);
                  ("error", Js.Str "Failed to read HLS sensor")] |}
  end.

Definition hls (socketId : string) : Hls :=
  let invalid :=
    answered (badRequest "Invalid HLS socket ID. Must be either 3 or 4.") in
  match Js.parseInt socketId with
  | Js.Fin q =>
      if Qeq_bool q 3 then asked "hls_read(500,3)" true (hlsAnswer 3)
      else if Qeq_bool q 4 then asked "hls_read(500,4)" true (hlsAnswer 4)
      else invalid
  | _ => invalid
  end.

(** The frame [hls_read(value,socket)]. *)
Definition hlsFrame (value socket : string) : string :=
  ("hls_read(" ++ value ++ "," ++ socket ++ ")")%string.

End Routes.

(** * Properties *)

(** ** State transitions *)

Section Transition.
Import FuelStateMachine Reasons.

Lemma recordedReason_nonempty (reason : option string) :
  recordedReason reason <> "".
Proof. destruct reason as [[|c s]|]; discriminate. Qed.

Lemma recordedReason_given (r : string) :
  r <> "" -> recordedReason (Some r) = r.
Proof. destruct r; [congruence | reflexivity]. Qed.

Lemma transition_fields now newState data reason m :
  let m' := transition now newState data reason m in
  meterReading m' = meterReading m /\
  currentTransaction m' = currentTransaction m /\
  vehicle m' = vehicle m /\
  fleetData m' = fleetData m /\
  nozzleId m' = nozzleId m /\
  lastHeartbeatTime m' = lastHeartbeatTime m /\
  lastNozzleHeartbeatTime m' = lastNozzleHeartbeatTime m.
Proof. cbv zeta. unfold transition; simpl. repeat split. Qed.

(** C9, as amended.  From any state [s] to any target [t],
    [transition] commits: the current state becomes [t], the previous
    state becomes [s], exactly one record is appended to the history,
    with [from = s], [to = t] and a non-empty reason, which is the given
    reason, or ["No reason provided"] when the reason argument is absent
    or is the empty string, and exactly one [stateChange] event is
    emitted, carrying that record.  The table of allowed transitions is
    not an input of the function. *)
Theorem transition_commits now (t : STATES.t) data reason m :
  let m' := transition now t data reason m in
  currentState m' = t /\
  previousState m' = Some (currentState m) /\
  exists d,
    stateHistory m' = stateHistory m ++ [d] /\
    from d = currentState m /\ to d = t /\
    FuelStateMachine.reason d = recordedReason reason /\
    FuelStateMachine.reason d <> "" /\
    timestamp d = now /\
    trace m' = trace m ++ [emit_stateChange d].
Proof.
  cbv zeta. unfold transition; simpl.
  split; [reflexivity|]. split; [reflexivity|].
  eexists; split; [reflexivity|]. simpl.
  split; [reflexivity|]. split; [reflexivity|].
  split; [destruct reason as [[|c s]|]; reflexivity|].
  split; [destruct reason as [[|c s]|]; discriminate|].
  split; reflexivity.
Qed.

(** The commit does not depend on the table: a pair that no
    [allowedTransitions] array lists is committed like any other. *)
Lemma transition_ignores_table :
  let m := new 0 [] in
  StateDefinitions.transitionListed (currentState m)
    STATES.REFILL_FORCE_STOP = false /\
  currentState (transition 1 STATES.REFILL_FORCE_STOP None None m)
    = STATES.REFILL_FORCE_STOP.
Proof. split; reflexivity. Qed.

Lemma force_stop_never_listed (s : STATES.t) :
  StateDefinitions.transitionListed s STATES.REFILL_FORCE_STOP = false.
Proof. destruct s; reflexivity. Qed.

(** C9 as stated fails: an empty reason that is given is not what the
    history records. *)
Lemma transition_empty_reason_replaced :
  ~ (forall now t data reason m,
        exists d,
          stateHistory (transition now t data reason m)
            = stateHistory m ++ [d] /\
          FuelStateMachine.reason d = specifiedReason reason).
Proof.
  intros H.
  destruct (H 1 STATES.REFILL_OP_START None (Some "") (new 0 []))
    as (d & Hh & Hr).
  simpl in Hh. injection Hh as <-. discriminate Hr.
Qed.

End Transition.

(** ** The meter stability filter *)

Section MeterFilter.
Import FuelStateMachine FilterRun.

Lemma slice_last_two {A : Type} (l : list A) (a b : A) :
  slice_last 2 (l ++ [a; b]) = [a; b].
Proof.
  unfold slice_last. rewrite List.length_app. simpl List.length.
  replace (List.length l + 2 - 2)%nat with (List.length l) by lia.
  rewrite List.skipn_app, List.skipn_all, Nat.sub_diag. reflexivity.
Qed.

Lemma Qeq_bool_comm (a b : Q) : Qeq_bool a b = Qeq_bool b a.
Proof.
  destruct (Qeq_bool a b) eqn:E1, (Qeq_bool b a) eqn:E2; try reflexivity.
  - apply Qeq_bool_sym in E1. congruence.
  - apply Qeq_bool_sym in E2. congruence.
Qed.

Lemma allEqual_two (a b : Q) : allEqual [a; b] = Qeq_bool a b.
Proof.
  unfold allEqual. simpl. rewrite Qeq_bool_refl. simpl.
  rewrite andb_true_r. apply Qeq_bool_comm.
Qed.

Lemma tl_keeps_last_two {A : Type} (l : list A) (a b : A) :
  (4 < List.length (l ++ [a; b]))%nat ->
  exists l', tl (l ++ [a; b]) = l' ++ [a; b].
Proof.
  destruct l as [|x l]; simpl.
  - lia.
  - intros _. exists l. reflexivity.
Qed.

(** One call on a filter whose window is not empty. *)
Lemma addMeterReading_next (now t0 : Z) (v v' : Q) (pre : list Q)
      (r : MeterReading) :
  readings r = pre ++ [v'] ->
  stabilityThreshold r = 2%nat ->
  stabilityTimeoutMs r = 5000 ->
  stabilityTimestamp r = Some t0 ->
  let r' := fst (addMeterReading now v r) in
  let isStable := snd (addMeterReading now v r) in
  isStable = Qeq_bool v' v && (5000 <=? now - t0)%Z /\
  (exists pre', readings r' = pre' ++ [v'; v]) /\
  stabilityThreshold r' = 2%nat /\
  stabilityTimeoutMs r' = 5000 /\
  stabilityTimestamp r' = Some t0 /\
  current r' = v /\
  lastStable r' = (if isStable then v else lastStable r).
Proof.
  intros Hr Hn Hd Ht. cbv zeta.
  unfold addMeterReading.
  assert (Hne : match readings r with
                | [] => set_stabilityTimestamp r (Some now)
                | _ :: _ => r
                end = r).
  { rewrite Hr. destruct pre; reflexivity. }
  rewrite Hne. simpl stabilityThreshold. simpl readings.
  rewrite Hn, Hr. rewrite <- List.app_assoc. simpl app.
  set (w := pre ++ [v'; v]).
  assert (Hw : exists pre', (if (2 * 2 <? List.length w)%nat then tl w else w)
                            = pre' ++ [v'; v]).
  { destruct (2 * 2 <? List.length w)%nat eqn:E.
    - apply Nat.ltb_lt in E. apply tl_keeps_last_two. exact E.
    - exists pre. reflexivity. }
  destruct Hw as [pre' Hw].
  assert (Hstab : forall r0,
             readings r0 = pre' ++ [v'; v] ->
             stabilityThreshold r0 = 2%nat ->
             stabilityTimeoutMs r0 = 5000 ->
             stabilityTimestamp r0 = Some t0 ->
             isMeterReadingStable now r0
             = Qeq_bool v' v && (5000 <=? now - t0)%Z).
  { intros r0 H1 H2 H3 H4. unfold isMeterReadingStable.
    rewrite H1, H2, H3, H4, slice_last_two, allEqual_two.
    rewrite List.length_app. simpl List.length.
    replace (List.length pre' + 2 <? 2)%nat with false
      by (symmetry; apply Nat.ltb_ge; lia).
    simpl. destruct (Qeq_bool v' v); reflexivity. }
  destruct (2 * 2 <? List.length w)%nat eqn:E; simpl in Hw |- *.
  - rewrite (Hstab (set_readings (set_current (set_readings r w) v) (tl w)))
      by (simpl; auto).
    destruct (Qeq_bool v' v && (5000 <=? now - t0)%Z); simpl;
      (split; [reflexivity|]); (split; [exists pre'; exact Hw|]); auto.
  - rewrite (Hstab (set_current (set_readings r w) v)) by (simpl; auto).
    destruct (Qeq_bool v' v && (5000 <=? now - t0)%Z); simpl;
      (split; [reflexivity|]); (split; [exists pre'; exact Hw|]); auto.
Qed.

Lemma run_snoc (evs : list (Z * Q)) (t : Z) (v : Q) :
  run (evs ++ [(t, v)]) = addMeterReading t v (fst (run evs)).
Proof. unfold run. rewrite fold_left_app. reflexivity. Qed.

Lemma firstArrival_snoc (evs : list (Z * Q)) (t1 t : Z) (v1 : Q) :
  firstArrival (evs ++ [(t1, v1)]) t = firstArrival evs t1.
Proof. destruct evs; reflexivity. Qed.

(** What holds of the filter after at least one arrival. *)
Lemma run_invariant (evs : list (Z * Q)) (t : Z) (v : Q) :
  let r := fst (run (evs ++ [(t, v)])) in
  (exists pre, readings r = pre ++ [v]) /\
  stabilityThreshold r = 2%nat /\
  stabilityTimeoutMs r = 5000 /\
  stabilityTimestamp r = Some (firstArrival evs t).
Proof.
  revert t v. induction evs as [|[t1 v1] evs IH] using rev_ind; intros t v.
  - cbv zeta. split; [exists []; reflexivity|]. repeat split.
  - cbv zeta. rewrite run_snoc.
    destruct (IH t1 v1) as ((pre & Hr) & Hn & Hd & Ht).
    destruct (addMeterReading_next t _ v v1 pre _ Hr Hn Hd Ht)
      as (_ & (pre' & Hr') & Hn' & Hd' & Ht' & _).
    split.
    + exists (pre' ++ [v1]). rewrite Hr', <- List.app_assoc. reflexivity.
    + rewrite firstArrival_snoc. auto.
Qed.

(** C2, as amended.  After the arrivals [evs ++ [(t', v'); (t, v)]] since
    the last reset, the filter reports the newest reading stable exactly
    when it equals the reading before it and at least 5000 ms have passed
    since the arrival of the first reading after the reset (not: since the
    first reading of the equal run); [lastStable] then becomes that
    reading.  In particular, when the clock did not run backwards between
    the first arrival and [t'], the last two readings are equal and they
    arrived at least 5 s apart, the filter reports stable with value [v].
    After fewer than two arrivals nothing is reported stable. *)
Theorem stability_filter_reports (evs : list (Z * Q)) (t' t : Z) (v' v : Q) :
  let before := run (evs ++ [(t', v')]) in
  let after := run (evs ++ [(t', v'); (t, v)]) in
  let t0 := firstArrival evs t' in
  snd after = Qeq_bool v' v && (5000 <=? t - t0)%Z /\
  lastStable (fst after)
    = (if snd after then v else lastStable (fst before)) /\
  (t0 <= t' -> Qeq_bool v' v = true -> 5000 <= t - t' ->
   snd after = true /\ lastStable (fst after) = v) /\
  snd (run [(t', v')]) = false /\
  snd (run []) = false.
Proof.
  cbv zeta.
  replace (evs ++ [(t', v'); (t, v)]) with ((evs ++ [(t', v')]) ++ [(t, v)])
    by (rewrite <- List.app_assoc; reflexivity).
  rewrite (run_snoc (evs ++ [(t', v')])).
  destruct (run_invariant evs t' v') as ((pre & Hr) & Hn & Hd & Ht).
  destruct (addMeterReading_next t _ v v' pre _ Hr Hn Hd Ht)
    as (Hs & _ & _ & _ & _ & _ & Hl).
  split; [exact Hs|]. split; [exact Hl|]. split.
  - intros Hmono Heq Hgap.
    assert (Hst : snd (addMeterReading t v (fst (run (evs ++ [(t', v')]))))
                  = true).
    { rewrite Hs, Heq. simpl. apply Z.leb_le. lia. }
    split; [exact Hst|]. rewrite Hl, Hst. reflexivity.
  - split; reflexivity.
Qed.

(** The scenario of a 12.3 l refill: 4.1, 9.0, 12.3, 12.3, the last two
    five seconds apart. *)
Lemma stability_filter_reports_witness :
  snd (run [(0, 4.1%Q); (2000, 9.0%Q); (4000, 12.3%Q); (9000, 12.3%Q)]) = true /\
  lastStable
    (fst (run [(0, 4.1%Q); (2000, 9.0%Q); (4000, 12.3%Q); (9000, 12.3%Q)]))
  = 12.3%Q.
Proof.
  destruct (stability_filter_reports [(0, 4.1%Q); (2000, 9.0%Q)]
              4000 9000 12.3%Q 12.3%Q) as (_ & _ & H & _).
  apply H; [unfold firstArrival; simpl; lia | reflexivity | lia].
Defined.

(** C2 as stated fails: 1 at 0 ms, 2 at 6000 ms, 2 at 6001 ms.  The two
    most recent readings are equal and the first reading of that run
    arrived 1 ms before the last one, yet the filter reports it stable:
    it measures from the arrival at 0 ms. *)
Lemma stability_measured_from_first_reading :
  snd (run [(0, 1%Q); (6000, 2%Q); (6001, 2%Q)]) = true /\
  specStable [(0, 1%Q); (6000, 2%Q); (6001, 2%Q)] = false.
Proof. split; reflexivity. Qed.

Lemma addMeterReading_keeps_lastSaved (now : Z) (reading : Q) (r : MeterReading) :
  lastSaved (fst (addMeterReading now reading r)) = lastSaved r.
Proof.
  unfold addMeterReading.
  destruct (readings r); simpl;
    repeat match goal with
           | |- context [if ?b then _ else _] => destruct b eqn:?; simpl
           end; reflexivity.
Qed.

(** C3, as amended.  One call of [addMeterReading]: [current] becomes the
    reading, [lastSaved] is not touched, and [lastStable] becomes the
    reading when the call reports it stable and keeps its value
    otherwise. *)
Theorem filter_step_updates (now : Z) (reading : Q) (r : MeterReading) :
  let r' := fst (addMeterReading now reading r) in
  let isStable := snd (addMeterReading now reading r) in
  current r' = reading /\
  lastSaved r' = lastSaved r /\
  lastStable r' = (if isStable then reading else lastStable r).
Proof.
  cbv zeta. unfold addMeterReading.
  destruct (readings r); simpl;
    repeat match goal with
           | |- context [if ?b then _ else _] => destruct b eqn:?; simpl
           end; auto.
Qed.

(** A [meter_read] frame leaves [lastSaved] alone or sets it to the
    current reading, whether or not that reading is stable. *)
Lemma meter_frame_saves_current (now : Z) (data : string) (m : t) :
  let r' := meterReading (handleUartResponse now data m) in
  lastSaved r' = lastSaved (meterReading m) \/ lastSaved r' = current r'.
Proof.
  cbv zeta. unfold handleUartResponse.
  set (m0 := set_lastUartResponse m (Some data)).
  destruct (Js.includes data "meter_read").
  - destruct (UartService.parseMeterResponse data) as [v|]; [|left; reflexivity].
    pose proof (addMeterReading_keeps_lastSaved now v (meterReading m0)) as Hs.
    destruct (addMeterReading now v (meterReading m0)) as [r isStable].
    simpl in Hs |- *.
    destruct (currentTransaction m); simpl; [|left; exact Hs].
    destruct (Qle_bool _ _); simpl; [right; reflexivity | left; exact Hs].
  - destruct (Js.includes data "heartbeat"); [left; reflexivity|].
    destruct (Js.includes data "nhb").
    { destruct (idMatches _ _); left; reflexivity. }
    destruct (Js.includes data "rfid_match").
    { destruct (Js.search rfid_match_at data); [|left; reflexivity].
      destruct (String.eqb _ _); left; reflexivity. }
    destruct (Js.includes data "rfid_alarm").
    { destruct (Js.search rfid_alarm_at data); [|left; reflexivity].
      destruct (String.eqb _ _); [|left; reflexivity].
      simpl. destruct (STATES.eqb _ _); left; reflexivity. }
    destruct (Js.includes data "rfid_get"); [|left; reflexivity].
    destruct (UartService.parseRfidResponse data) as [info|]; [|left; reflexivity].
    simpl. destruct (STATES.eqb _ _); [|left; reflexivity].
    left. simpl. unfold processRfidResponse.
    destruct (String.eqb _ _); [reflexivity|].
    destruct (List.find _ _); reflexivity.
Qed.

(** C3 as stated fails on all three counts.  After 5, 5 (stable), 3 the
    last stable value exceeds the current one; a fourth reading 3, which
    is below [lastStable = 5], is reported stable and lowers [lastStable]
    to 3; and with a transaction open the first frame [meter_read(4)]
    saves 4 while nothing is stable yet. *)
Lemma filter_orderings_not_kept :
  ~ ordered (fst (run [(0, 5%Q); (5000, 5%Q); (6000, 3%Q)])) /\
  (lastStable (fst (run [(0, 5%Q); (5000, 5%Q); (6000, 3%Q)])) = 5%Q /\
   lastStable (fst (run [(0, 5%Q); (5000, 5%Q); (6000, 3%Q); (6500, 3%Q)]))
   = 3%Q) /\
  (let m := initializeRefill 0 (new 0 []) in
   let m' := handleUartResponse 100 "meter_read(4)" m in
   ~ ordered (meterReading m')).
Proof.
  split; [|split; [split; reflexivity|]].
  - intros [_ H]. vm_compute in H. apply H. reflexivity.
  - cbv zeta. intros [H _]. vm_compute in H. apply H. reflexivity.
Qed.

End MeterFilter.

(** ** The operator surface *)

Section Operator.
Import STATES ApiRoutes Odometer.

Lemma STATES_eqb_eq (a b : STATES.t) : STATES.eqb a b = true <-> a = b.
Proof. split; [destruct a, b; simpl; congruence | intros ->; destruct b; reflexivity]. Qed.

(** After the [parseInt] step the odometer is never a string. *)
Lemma convertKilometers_not_string (k : BodyField) (s : string) :
  convertKilometers k <> Js.Str s.
Proof. destruct k; discriminate. Qed.

(** The two outcomes of [drf_submit]. *)
Lemma drf_submit_cases (now : Z) (k : BodyField) (api : t) :
  (admissible k
   && STATES.eqb (FuelStateMachine.currentState (stateMachine api))
                 REFILL_WAIT_FOR_DRF_SUBMIT = true /\
   exists m body,
     drf_submit now k api
     = (with_stateMachine api m, {| status := 200; body := body |}) /\
     m = FuelStateMachine.transition now REFILL_READ_FIRST_METER
           (Some [("kilometers", FuelStateMachine.FVal (convertKilometers k))])
           None (stateMachine api)) \/
  (admissible k
   && STATES.eqb (FuelStateMachine.currentState (stateMachine api))
                 REFILL_WAIT_FOR_DRF_SUBMIT = false /\
   exists error, drf_submit now k api = (api, badRequest error)).
Proof.
  unfold drf_submit, admissible, kilometersValue, Js.isNaN, Js.isFinite.
  destruct (Js.toNumber (convertKilometers k)) as [| | |q]; simpl;
    try (right; split; [reflexivity | eexists; reflexivity]).
  destruct (Qle_bool q 1000); simpl;
    [|right; split; [reflexivity | eexists; reflexivity]].
  destruct (STATES.eqb _ _); simpl;
    [|right; split; [reflexivity | eexists; reflexivity]].
  left. split; [reflexivity|]. eexists _, _. split; reflexivity.
Qed.

(** C5, as amended.  [POST /api/drf-submit] answers 200 exactly when the
    supervisor is in [REFILL_WAIT_FOR_DRF_SUBMIT] and [kilometers], after
    [parseInt] when it is a string, is a finite number not above 1000;
    there is no lower bound.  It then moves to [REFILL_READ_FIRST_METER].
    Every other request is answered 400 and leaves the supervisor as it
    was. *)
Theorem drf_submit_accepts (now : Z) (k : BodyField) (api : t) :
  let api' := fst (drf_submit now k api) in
  let res := snd (drf_submit now k api) in
  (status res = 200 <->
   FuelStateMachine.currentState (stateMachine api)
   = REFILL_WAIT_FOR_DRF_SUBMIT /\
   exists q, kilometersValue k = Js.Fin q /\ (q <= 1000)%Q) /\
  (status res = 200 ->
   FuelStateMachine.currentState (stateMachine api')
   = REFILL_READ_FIRST_METER) /\
  (status res <> 200 -> status res = 400 /\ api' = api).
Proof.
  cbv zeta.
  assert (Hadm : admissible k = true <->
                 exists q, kilometersValue k = Js.Fin q /\ (q <= 1000)%Q).
  { unfold admissible. destruct (kilometersValue k) as [| | |q]; split;
      try discriminate; try (intros (q' & Hq & _); discriminate).
    - intros H. exists q. split; [reflexivity | apply Qle_bool_iff, H].
    - intros (q' & Hq & Hle). injection Hq as ->. apply Qle_bool_iff, Hle. }
  destruct (drf_submit_cases now k api)
    as [(Hc & m & body & -> & ->) | (Hc & error & ->)]; simpl.
  - apply andb_true_iff in Hc as [Ha Hs].
    apply STATES_eqb_eq in Hs. apply Hadm in Ha.
    split; [tauto|]. split; [reflexivity | congruence].
  - split; [|split; [discriminate | auto]].
    split; [discriminate|]. intros [Hs Ha].
    apply Hadm in Ha. apply STATES_eqb_eq in Hs.
    rewrite Ha, Hs in Hc. discriminate.
Qed.

(** An odometer of 250 submitted while the supervisor waits for it. *)
Lemma drf_submit_accepts_witness :
  FuelStateMachine.currentState
    (stateMachine (fst (drf_submit 10 (jnumber (Js.Fin 250)) awaitingOdometer)))
  = REFILL_READ_FIRST_METER.
Proof.
  destruct (drf_submit_accepts 10 (jnumber (Js.Fin 250)) awaitingOdometer)
    as (_ & H & _).
  apply H. reflexivity.
Defined.

(** The bounds: 1000 is accepted, 1001 is not, as a number or as text. *)
Lemma drf_submit_boundary :
  status (snd (drf_submit 10 (jnumber (Js.Fin 1000)) awaitingOdometer)) = 200 /\
  status (snd (drf_submit 10 (jstring "1000") awaitingOdometer)) = 200 /\
  status (snd (drf_submit 10 (jnumber (Js.Fin 1001)) awaitingOdometer)) = 400 /\
  status (snd (drf_submit 10 (jstring "1001") awaitingOdometer)) = 400.
Proof. repeat split. Qed.

(** C5 as stated fails: a negative odometer is accepted. *)
Lemma drf_submit_accepts_negative :
  let '(api', res) := drf_submit 10 (jnumber (Js.Fin (-1))) awaitingOdometer in
  status res = 200 /\
  FuelStateMachine.currentState (stateMachine api') = REFILL_READ_FIRST_METER.
Proof. split; reflexivity. Qed.

(** [refill_finish] with a known token, in whatever state. *)
Lemma refill_finish_any_state (now : Z) (token user : string) (api : t) :
  activeTokens api !! token = Some user ->
  FuelStateMachine.currentState
    (stateMachine (fst (operation now token refill_finish api)))
  = REFILL_FORCE_STOP.
Proof. intros H. unfold operation. rewrite H. reflexivity. Qed.

(** C4, the code at the failing input.  The supervisor is idle, the
    request is [refill_finish]: the handler answers [refill_finished] and
    the supervisor is in [REFILL_FORCE_STOP], with the default reason in
    its history.  The sibling request [refill_req] is guarded: in a state
    other than idle it answers [invalid] and changes nothing. *)
Theorem refill_finish_unguarded :
  let api := idleWithSession in
  let '(api', res) := operation 1 "token" refill_finish api in
  FuelStateMachine.currentState (stateMachine api) = REFILL_OP_IDLE /\
  FuelStateMachine.currentState (stateMachine api') = REFILL_FORCE_STOP /\
  res = {| status := 200;
           body := [("response", Js.Str "refill_finished");
                    ("refill_op_liters", Js.NumStr 0)] |} /\
  map FuelStateMachine.reason
      (FuelStateMachine.stateHistory (stateMachine api'))
  = ["No reason provided"] /\
  fst (operation 2 "token" refill_req api') = api'.
Proof. vm_compute. repeat split. Qed.

End Operator.

(** ** Inbound frames *)

Section InboundFrames.
Import STATES FuelStateMachine Frames.

Lemma search_Some {A : Type} (f : string -> option A) (s : string) (r : A) :
  Js.search f s = Some r -> exists s', f s' = Some r.
Proof.
  induction s as [|c s IH]; simpl.
  - destruct (f "") eqn:E; [intros [= <-]; eauto | discriminate].
  - destruct (f (String c s)) eqn:E; [intros [= <-]; eauto | exact IH].
Qed.

Lemma plus_head (p : ascii -> bool) (s a b : string) :
  Js.plus p s = Some (a, b) -> exists c a', a = String c a' /\ p c = true.
Proof.
  unfold Js.plus. destruct s as [|c s]; simpl; [discriminate|].
  destruct (p c) eqn:E.
  - destruct (Js.span p s) as [x y]. intros [= <- <-]. eauto.
  - discriminate.
Qed.

(** A parsed tag starts with a hexadecimal digit: it is never ["-"]. *)
Lemma parsed_tag_not_dash (data : string) (info : UartService.RfidInfo) :
  UartService.parseRfidResponse data = Some info ->
  String.eqb (UartService.rfidTag info) "-" = false.
Proof.
  intros H. apply search_Some in H as [s H].
  unfold UartService.rfid_get_at in H.
  apply bind_Some in H as (r1 & _ & H).
  apply bind_Some in H as ([n r2] & _ & H).
  apply bind_Some in H as (r3 & _ & H).
  apply bind_Some in H as ([tag r4] & Etag & H).
  apply bind_Some in H as (r5 & _ & H).
  apply bind_Some in H as ([b r6] & _ & H).
  apply bind_Some in H as (r7 & _ & H).
  injection H as <-. simpl.
  apply plus_head in Etag as (c & a' & -> & Hc). simpl.
  destruct (Ascii.eqb c "-") eqn:E; [|reflexivity].
  apply Ascii.eqb_eq in E. subst c. discriminate Hc.
Qed.

Lemma branch_rfid_get (data : string) :
  branch data = on_rfid_get ->
  Js.includes data "meter_read" = false /\
  Js.includes data "heartbeat" = false /\
  Js.includes data "nhb" = false /\
  Js.includes data "rfid_match" = false /\
  Js.includes data "rfid_alarm" = false /\
  Js.includes data "rfid_get" = true.
Proof.
  unfold branch.
  destruct (Js.includes data "meter_read"); [discriminate|].
  destruct (Js.includes data "heartbeat"); [discriminate|].
  destruct (Js.includes data "nhb"); [discriminate|].
  destruct (Js.includes data "rfid_match"); [discriminate|].
  destruct (Js.includes data "rfid_alarm"); [discriminate|].
  destruct (Js.includes data "rfid_get"); [auto 7 | discriminate].
Qed.

(** A parsed [rfid_get] reply while the supervisor waits for the first
    tag is handed to [processRfidResponse]. *)
Lemma handleUartResponse_first_rfid (now : Z) (data : string)
      (info : UartService.RfidInfo) (m : t) :
  currentState m = REFILL_GET_FIRST_RFID ->
  branch data = on_rfid_get ->
  UartService.parseRfidResponse data = Some info ->
  handleUartResponse now data m
  = perform (emit_rfidRead info now)
      (processRfidResponse now info
         (set_lastNozzleHeartbeatTime
            (set_lastUartResponse m (Some data)) now)).
Proof.
  intros Hs Hb Hp. apply branch_rfid_get in Hb as (H1 & H2 & H3 & H4 & H5 & H6).
  unfold handleUartResponse. rewrite H1, H2, H3, H4, H5, H6, Hp. simpl.
  rewrite Hs. reflexivity.
Qed.

(** What the frame handler does with the first reply.  While the
    supervisor is in [REFILL_GET_FIRST_RFID], a parsed [rfid_get] reply
    whose tag is the tag of a vehicle of the fleet directory binds the
    first such vehicle and moves the supervisor to
    [REFILL_WAIT_FOR_DRF_SUBMIT]; a reply whose tag is in no vehicle of
    the directory moves it to [REFILL_OP_IDLE], binds no vehicle and
    leaves the transaction object alone.  Either way one state change and
    the [rfidRead] event are the only outward calls: the store is not
    called. *)
Lemma first_rfid_reply (now : Z) (data : string)
        (info : UartService.RfidInfo) (m : t) :
  currentState m = REFILL_GET_FIRST_RFID ->
  branch data = on_rfid_get ->
  UartService.parseRfidResponse data = Some info ->
  let m' := handleUartResponse now data m in
  match List.find (fun v => String.eqb (TagNumber v) (UartService.rfidTag info))
                  (fleetData m) with
  | Some v =>
      currentState m' = REFILL_WAIT_FOR_DRF_SUBMIT /\
      vehicle m' = Some v /\
      TagNumber v = UartService.rfidTag info /\
      In v (fleetData m)
  | None =>
      currentState m' = REFILL_OP_IDLE /\
      vehicle m' = vehicle m /\
      currentTransaction m' = currentTransaction m
  end /\
  exists d, trace m' = trace m ++ [emit_stateChange d; emit_rfidRead info now].
Proof.
  intros Hs Hb Hp. cbv zeta.
  rewrite (handleUartResponse_first_rfid now data info m Hs Hb Hp).
  unfold processRfidResponse. rewrite (parsed_tag_not_dash data info Hp).
  simpl fleetData.
  destruct (List.find _ (fleetData m)) as [v|] eqn:Ef.
  - apply List.find_some in Ef as [Hin Htag]. apply String.eqb_eq in Htag.
    simpl. split; [auto|]. eexists. rewrite <- List.app_assoc. reflexivity.
  - simpl. split; [auto|]. eexists. rewrite <- List.app_assoc. reflexivity.
Qed.

(** The reply with the tag of the known vehicle. *)
Lemma known_tag_binds_vehicle :
  currentState
    (handleUartResponse 10 "rfid_get(0076,E200001D8914005717701BFC,2013)"
       awaitingFirstRfid) = REFILL_WAIT_FOR_DRF_SUBMIT /\
  vehicle
    (handleUartResponse 10 "rfid_get(0076,E200001D8914005717701BFC,2013)"
       awaitingFirstRfid) = Some knownVehicle.
Proof.
  destruct (first_rfid_reply 10 "rfid_get(0076,E200001D8914005717701BFC,2013)"
              {| UartService.nozzleId := "0076";
                 UartService.rfidTag := "E200001D8914005717701BFC";
                 UartService.batteryState := Js.Fin 2013 |}
              awaitingFirstRfid eq_refl eq_refl eq_refl) as [H _].
  simpl in H. destruct H as (H1 & H2 & _). split; assumption.
Qed.

(** The reply for an empty field, [rfid_get(0076,-,2013)], does not match
    the pattern of [parseRfidResponse]: the supervisor keeps waiting. *)
Lemma no_tag_reply_keeps_waiting :
  UartService.parseRfidResponse "rfid_get(0076,-,2013)" = None /\
  currentState (handleUartResponse 10 "rfid_get(0076,-,2013)" awaitingFirstRfid)
  = REFILL_GET_FIRST_RFID.
Proof. split; reflexivity. Qed.

(** C6, the code at the failing input.  The supervisor waits for the
    first tag, its directory holds one vehicle, and the reply
    [rfid_get(0076,AAAAAAAAAAAAAAAAAAAAAAAA,2013)] carries a tag that the
    directory does not hold.  The frame handler hands the parsed reply to
    [processRfidResponse], whose last branch ends the wait instead of
    discarding the tag: the supervisor is in [REFILL_OP_IDLE], the
    reason of a failed validation is the last of its history, no vehicle
    is bound, and nothing asks the nozzle for a tag again. *)
Theorem unknown_tag_ends_first_rfid_wait :
  let data := "rfid_get(0076,AAAAAAAAAAAAAAAAAAAAAAAA,2013)" in
  let m' := handleUartResponse 10 data awaitingFirstRfid in
  currentState awaitingFirstRfid = REFILL_GET_FIRST_RFID /\
  UartService.rfidTag <$> UartService.parseRfidResponse data
  = Some "AAAAAAAAAAAAAAAAAAAAAAAA" /\
  List.find (fun v => String.eqb (TagNumber v) "AAAAAAAAAAAAAAAAAAAAAAAA")
            (fleetData awaitingFirstRfid) = None /\
  currentState m' = REFILL_OP_IDLE /\
  List.last (map reason (stateHistory m')) ""
  = "RFID tag validation failed - tag not found in fleet database" /\
  vehicle m' = None /\
  Board.sentCommands (trace m') = [].
Proof. vm_compute. repeat split. Qed.

Lemma processRfidResponse_keeps_watch (now : Z)
      (info : UartService.RfidInfo) (m : t) :
  lastNozzleHeartbeatTime (processRfidResponse now info m)
  = lastNozzleHeartbeatTime m.
Proof.
  unfold processRfidResponse.
  destruct (String.eqb _ _); [reflexivity|].
  destruct (List.find _ _); reflexivity.
Qed.

Lemma meter_frame_keeps_watch (now : Z) (data : string) (m : t) :
  Js.includes data "meter_read" = true ->
  lastNozzleHeartbeatTime (handleUartResponse now data m)
  = lastNozzleHeartbeatTime m.
Proof.
  intros H. unfold handleUartResponse. rewrite H.
  destruct (UartService.parseMeterResponse data) as [v|]; [|reflexivity].
  destruct (addMeterReading _ _ _) as [r isStable]. simpl.
  destruct (currentTransaction m); [|reflexivity]. simpl.
  destruct (Qle_bool _ _); reflexivity.
Qed.

(** Which frames refresh the nozzle watch.  After a frame is handled,
    the watch holds the time of arrival when the frame took the [nhb],
    [rfid_match] or [rfid_alarm] branch and its pattern matched with the
    configured nozzle identifier as first argument, or when it took the
    [rfid_get] branch, whatever identifier it carries and whether or not
    it parses; after every other frame the watch is unchanged. *)
Lemma nozzle_watch_refresh (now : Z) (data : string) (m : t) :
  lastNozzleHeartbeatTime (handleUartResponse now data m)
  = if refreshesNozzleWatch (nozzleId m) data then now
    else lastNozzleHeartbeatTime m.
Proof.
  unfold refreshesNozzleWatch, branch.
  destruct (Js.includes data "meter_read") eqn:H1.
  { apply meter_frame_keeps_watch, H1. }
  unfold handleUartResponse. rewrite H1.
  destruct (Js.includes data "heartbeat"); [reflexivity|].
  destruct (Js.includes data "nhb").
  { unfold idMatches, sameId. simpl nozzleId.
    destruct (Js.search nhb_at data) as [n|]; [|reflexivity].
    destruct (String.eqb n (nozzleId m)); reflexivity. }
  destruct (Js.includes data "rfid_match").
  { unfold sameId. simpl nozzleId.
    destruct (Js.search rfid_match_at data) as [n|]; [|reflexivity].
    destruct (String.eqb n (nozzleId m)); reflexivity. }
  destruct (Js.includes data "rfid_alarm").
  { unfold sameId. simpl nozzleId.
    destruct (Js.search rfid_alarm_at data) as [n|]; [|reflexivity].
    destruct (String.eqb n (nozzleId m)); [|reflexivity].
    simpl. destruct (STATES.eqb (currentState m) REFILL_PROGRESS); reflexivity. }
  destruct (Js.includes data "rfid_get"); [|reflexivity].
  destruct (UartService.parseRfidResponse data) as [info|]; [|reflexivity].
  simpl. destruct (STATES.eqb (currentState m) REFILL_GET_FIRST_RFID).
  - simpl. rewrite processRfidResponse_keeps_watch. reflexivity.
  - reflexivity.
Qed.

(** Meter replies and board heartbeat replies leave the watch alone. *)
Lemma meter_and_heartbeat_do_not_refresh (nozzle : string) :
  refreshesNozzleWatch nozzle "meter_read(12.3)" = false /\
  refreshesNozzleWatch nozzle "heartbeat(0)" = false.
Proof. split; reflexivity. Qed.

(** C7, the code at the failing input.  The supervisor is configured for
    nozzle 0076 and the reply
    [rfid_get(9999,E200001D8914005717701BFC,2013)] names nozzle 9999.
    The [rfid_get] branch of [handleUartResponse] assigns
    [lastNozzleHeartbeatTime] before it looks at the reply, so the watch
    is refreshed.  The sibling branches compare the identifier with the
    configured one first: the frames [nhb(9999,1)], [rfid_match(9999,1)]
    and [rfid_alarm(9999)] leave the watch as it was, and
    [nhb(0076,1)] refreshes it. *)
Theorem rfid_get_of_other_nozzle_refreshes :
  let m := new 0 [knownVehicle] in
  let data := "rfid_get(9999,E200001D8914005717701BFC,2013)" in
  nozzleId m = "0076" /\
  UartService.nozzleId <$> UartService.parseRfidResponse data = Some "9999" /\
  lastNozzleHeartbeatTime m = 0 /\
  lastNozzleHeartbeatTime (handleUartResponse 777 data m) = 777 /\
  lastNozzleHeartbeatTime (handleUartResponse 777 "nhb(9999,1)" m) = 0 /\
  lastNozzleHeartbeatTime (handleUartResponse 777 "rfid_match(9999,1)" m) = 0 /\
  lastNozzleHeartbeatTime (handleUartResponse 777 "rfid_alarm(9999)" m) = 0 /\
  lastNozzleHeartbeatTime (handleUartResponse 777 "nhb(0076,1)" m) = 777.
Proof. vm_compute. repeat split. Qed.

End InboundFrames.

(** ** The nozzle port *)

Section NozzlePort.
Import UartService Port.

Lemma CommandType_eqb_eq (a b : CommandType) :
  CommandType_eqb a b = true <-> a = b.
Proof.
  split; [destruct a, b; simpl; congruence | intros ->; destruct b; reflexivity].
Qed.

Lemma startsWith_app (s p : string) :
  Js.startsWith s p = true -> exists rest, s = (p ++ rest)%string.
Proof.
  revert s. induction p as [|c p IH]; intros s; simpl.
  - intros _. exists s. reflexivity.
  - destruct s as [|d s]; [discriminate|].
    intros H. apply andb_true_iff in H as [Hc Hs].
    apply Ascii.eqb_eq in Hc. subst d.
    destruct (IH s Hs) as [rest ->]. exists rest. reflexivity.
Qed.

(** The spontaneous verbs belong to no request family. *)
Lemma unsolicited_unknown (data : string) :
  unsolicitedVerb data = true -> getCommandType data = unknown.
Proof.
  unfold unsolicitedVerb. intros H.
  apply orb_true_iff in H as [H|H]; [apply orb_true_iff in H as [H|H]|];
    apply startsWith_app in H as [rest ->]; reflexivity.
Qed.

Lemma findMatching_Some (ty : CommandType) (l : list (Z * Pending))
      (id : Z) (c : Pending) :
  findMatching ty l = Some (id, c) ->
  exists older newer,
    l = older ++ (id, c) :: newer /\
    Forall (fun e => typeOf e <> ty) older /\
    typeOf (id, c) = ty.
Proof.
  induction l as [|[k v] l IH]; simpl; [discriminate|].
  destruct (CommandType_eqb _ ty) eqn:E.
  - intros [= -> ->]. apply CommandType_eqb_eq in E.
    exists [], l. repeat split; [constructor | exact E].
  - intros H. destruct (IH H) as (older & newer & -> & Hf & Ht).
    exists ((k, v) :: older), newer. repeat split; [|exact Ht].
    constructor; [|exact Hf].
    unfold typeOf; simpl. intros Heq. apply CommandType_eqb_eq in Heq.
    congruence.
Qed.

Lemma findMatching_None (ty : CommandType) (l : list (Z * Pending)) :
  findMatching ty l = None -> Forall (fun e => typeOf e <> ty) l.
Proof.
  induction l as [|[k v] l IH]; simpl; [constructor|].
  destruct (CommandType_eqb _ ty) eqn:E; [discriminate|].
  intros H. constructor; [|exact (IH H)].
  unfold typeOf; simpl. intros Heq. apply CommandType_eqb_eq in Heq.
  congruence.
Qed.

(** With distinct keys, as in a [Map], deleting a key removes exactly its
    entry. *)
Lemma map_delete_middle (older newer : list (Z * Pending)) (id : Z)
      (c : Pending) :
  ~ In id (map fst older) ->
  map_delete id (older ++ (id, c) :: newer) = older ++ newer.
Proof.
  induction older as [|[k v] older IH]; simpl; intros H.
  - rewrite Z.eqb_refl. reflexivity.
  - destruct (id =? k)%Z eqn:E.
    + apply Z.eqb_eq in E. subst k. exfalso. apply H. left. reflexivity.
    + rewrite IH; [reflexivity|]. intros Hin. apply H. right. exact Hin.
Qed.

(** What [handleData] does with the table.  It emits the frame as a
    ['data'] event first, once.  It then settles the first entry of the
    pending table, in insertion order, whose command has the same type as
    the frame: the deadline timer of that entry is cleared, its key is
    deleted and its promise is resolved with the frame; when the table
    has no such entry nothing else happens.  Frames of the verbs
    [rfid_match], [rfid_alarm] and [nhb] are of type [unknown]: they
    settle no entry of the types [heartbeat], [hls_read], [meter_read]
    and [rfid_get]. *)
Lemma handleData_correlates (data : string) (p : t) :
  let p' := fst (handleData data p) in
  let effects := snd (handleData data p) in
  exists rest,
    effects = emit_data data :: rest /\
    ((rest = [] /\
      pendingCommands p' = pendingCommands p /\
      Forall (fun e => typeOf e <> getCommandType data) (pendingCommands p))
     \/
     (exists older id c newer,
        pendingCommands p = older ++ (id, c) :: newer /\
        Forall (fun e => typeOf e <> getCommandType data) older /\
        typeOf (id, c) = getCommandType data /\
        rest = [clearTimeout (timeout c); resolve (promise c) data] /\
        pendingCommands p' = map_delete id (pendingCommands p))) /\
    (unsolicitedVerb data = true -> getCommandType data = unknown).
Proof.
  cbv zeta. unfold handleData. simpl pendingCommands.
  destruct (findMatching (getCommandType data) (pendingCommands p))
    as [[id c]|] eqn:E; simpl.
  - eexists. split; [reflexivity|]. split; [|apply unsolicited_unknown].
    right. destruct (findMatching_Some _ _ _ _ E)
      as (older & newer & Hl & Hf & Ht).
    exists older, id, c, newer. auto.
  - eexists. split; [reflexivity|]. split; [|apply unsolicited_unknown].
    left. auto using findMatching_None.
Qed.

(** A [meter_read] reply while a heartbeat request and two meter requests
    are pending: the older meter request is settled, the other two stay. *)
Lemma oldest_meter_request_resolved :
  let p := after (sendCommand 3 13 "meter_read()" (Some true)
            (after (sendCommand 2 12 "meter_read()" (Some true)
              (after (sendCommand 1 11 "heartbeat()" (Some true)
                applicationPort))))) in
  snd (handleData "meter_read(4.1)" p)
  = [emit_data "meter_read(4.1)"; clearTimeout 1; resolve 12 "meter_read(4.1)"] /\
  map (fun e => promise (snd e)) (pendingCommands (fst (handleData "meter_read(4.1)" p)))
  = [11%nat; 13%nat].
Proof. split; reflexivity. Qed.

(** C8, the code at the failing input.  Two [hls_read(500,3)] requests
    are sent within one millisecond, as two calls of [GET /api/hls/3]
    handled back to back send them.  The key of a request is
    [Date.now()], so the second [set] replaces the entry of the first
    and the table holds one entry.  The reply [hls_read(123,3)] is
    emitted as ['data'] first and then resolves the second request; no
    entry is left, so the next reply resolves nothing, and the deadline
    of the first request finds no entry to reject: the oldest pending
    request of the family is settled by no frame, and never. *)
Theorem oldest_request_not_resolved :
  let p1 := after (sendCommand 5 1 "hls_read(500,3)" (Some true)
                     applicationPort) in
  let p2 := after (sendCommand 5 2 "hls_read(500,3)" (Some true) p1) in
  let p3 := fst (handleData "hls_read(123,3)" p2) in
  map (fun e => promise (snd e)) (pendingCommands p1) = [1%nat] /\
  map (fun e => promise (snd e)) (pendingCommands p2) = [2%nat] /\
  snd (handleData "hls_read(123,3)" p2)
  = [emit_data "hls_read(123,3)"; clearTimeout 1;
     resolve 2 "hls_read(123,3)"] /\
  pendingCommands p3 = [] /\
  snd (handleData "hls_read(124,3)" p3) = [emit_data "hls_read(124,3)"] /\
  onTimeout 5 1 p3 = (p3, []).
Proof. vm_compute. repeat split. Qed.

(** The other way round: when no reply comes, the deadline of the first
    request deletes the entry of the second, whose own deadline then
    finds nothing: the second request is never settled. *)
Lemma newer_request_not_rejected :
  let p1 := after (sendCommand 5 1 "hls_read(500,3)" (Some true)
                     applicationPort) in
  let p2 := after (sendCommand 5 2 "hls_read(500,3)" (Some true) p1) in
  let p3 := fst (onTimeout 5 1 p2) in
  snd (onTimeout 5 1 p2) = [reject 1 "UART response timeout"] /\
  pendingCommands p3 = [] /\
  onTimeout 5 2 p3 = (p3, []).
Proof. vm_compute. repeat split. Qed.

(** A second slip, in [getCommandType]: a request whose command is of no
    known family, here [rfid_match_status()] as [getRfidMatchStatus]
    would send it, would be resolved by the next [nhb] frame.  No caller
    sends such a request. *)
Lemma nhb_resolves_unknown_request :
  let p := after (sendCommand 1 7 "rfid_match_status()" (Some true)
                    applicationPort) in
  map (fun e => promise (snd e)) (pendingCommands p) = [7%nat] /\
  snd (handleData "nhb(0076,1)" p)
  = [emit_data "nhb(0076,1)"; clearTimeout 0; resolve 7 "nhb(0076,1)"].
Proof. split; reflexivity. Qed.

(** *** Transport errors *)

Lemma rejectAll_all (error : string) (l : list (Z * Pending)) (id : Z)
      (c : Pending) :
  In (id, c) l ->
  In (clearTimeout (timeout c)) (rejectAll error l) /\
  In (reject (promise c) error) (rejectAll error l).
Proof.
  induction l as [|[k v] l IH]; simpl; [tauto|].
  intros [[= -> ->]|H]; [auto|]. destruct (IH H). auto.
Qed.

(** When the port has a listener for its ['error'] event, a transport
    error rejects every pending request with that error, clears every
    deadline timer and empties the table. *)
Lemma handleError_with_listener (error : string) (p : t) :
  errorListeners p <> O ->
  exists effects,
    handleError error p = Returns (with_pending p []) effects /\
    pendingCommands (after (handleError error p)) = [] /\
    forall id c, In (id, c) (pendingCommands p) ->
                 In (clearTimeout (timeout c)) effects /\
                 In (reject (promise c) error) effects.
Proof.
  intros H. unfold handleError.
  destruct (errorListeners p); [congruence|].
  eexists. split; [reflexivity|]. split; [reflexivity|].
  intros id c Hin. destruct (rejectAll_all error _ id c Hin). simpl. auto.
Qed.

(** C10, the code at the failing input.  The application's port, one
    [meter_read()] request pending, the serial line raises an error:
    [emit('error', error)] throws out of [handleError], the request is
    neither rejected nor is its timer cleared, and it is still in the
    table; it is rejected only when its deadline fires. *)
Theorem transport_error_leaves_request_pending :
  let p := after (sendCommand 1 7 "meter_read()" (Some true)
                    applicationPort) in
  map (fun e => promise (snd e)) (pendingCommands p) = [7%nat] /\
  handleError "EIO" p = Throws p [emit_error "EIO"] "EIO" /\
  pendingCommands (after (handleError "EIO" p)) = pendingCommands p /\
  onTimeout 1 7 (after (handleError "EIO" p))
  = (with_pending p [], [reject 7 "UART response timeout"]).
Proof. vm_compute. repeat split. Qed.

End NozzlePort.

(** ** Finalisation *)

Section Finalisation.
Import STATES FuelStateMachine Frames Refill.

Lemma prop_insert_ne (tx : gmap string Js.value) (k k' : string)
      (v : Js.value) :
  k <> k' -> prop (<[k := v]> tx) k' = prop tx k'.
Proof. intros H. unfold prop. rewrite lookup_insert_ne by exact H. reflexivity. Qed.

(** A positive final reading: the store is asked to update the liters of
    the transaction with the value of its property [DispensedLiter], then
    to add the dispensed liters and to clear the incomplete transaction;
    the object itself carries the final reading in [dispensedLiter]. *)
Lemma finalizeTransaction_positive (now : Z) (finalReading : Q) (m : t)
      (tx : gmap string Js.value) (v : Vehicle) :
  (0 < finalReading)%Q ->
  currentTransaction m = Some tx ->
  vehicle m = Some v ->
  exists m' d,
    finalizeTransaction now finalReading m = Normal m' /\
    currentState m' = REFILL_WAIT_APP_INFORM /\
    currentTransaction m'
    = Some (<["dispensedLiter" := Js.NumStr finalReading]> tx) /\
    trace m' = trace m ++
      [db_updateTransactionLiters (prop tx "id") (prop tx "DispensedLiter");
       db_addLitersDispensed finalReading;
       db_clearIncompleteTransaction;
       emit_stateChange d].
Proof.
  intros Hpos Htx Hv. unfold finalizeTransaction.
  assert (Hle : Qle_bool finalReading 0 = false).
  { destruct (Qle_bool finalReading 0) eqn:E; [|reflexivity].
    apply Qle_bool_iff in E. exfalso. exact (Qlt_not_le _ _ Hpos E). }
  rewrite Hle. simpl. rewrite Htx. simpl. rewrite Hv.
  unfold updateTransactionLiters. simpl.
  rewrite !prop_insert_ne by discriminate.
  eexists _, _. split; [reflexivity|]. simpl.
  split; [reflexivity|]. split; [reflexivity|].
  rewrite <- !List.app_assoc. reflexivity.
Qed.

(** A final reading of zero: the store is asked to delete the
    transaction and to clear the incomplete transaction. *)
Lemma finalizeTransaction_zero (now : Z) (finalReading : Q) (m : t)
      (tx : gmap string Js.value) (v : Vehicle) :
  (finalReading <= 0)%Q ->
  currentTransaction m = Some tx ->
  vehicle m = Some v ->
  exists m' d,
    finalizeTransaction now finalReading m = Normal m' /\
    currentState m' = REFILL_WAIT_APP_INFORM /\
    trace m' = trace m ++
      [db_deleteTransaction (prop tx "id");
       db_clearIncompleteTransaction;
       emit_stateChange d].
Proof.
  intros Hle Htx Hv. unfold finalizeTransaction.
  apply Qle_bool_iff in Hle. rewrite Hle. simpl. rewrite Hv.
  unfold deleteTransaction. rewrite Htx. simpl.
  eexists _, _. split; [reflexivity|]. simpl.
  split; [reflexivity|]. rewrite <- !List.app_assoc. reflexivity.
Qed.

(** The transaction of [initializeRefill] has no [DispensedLiter], and
    the handlers of inbound frames never add one. *)
Lemma initializeRefill_lacks (now : Z) (m : t) :
  lacksDispensedLiter (initializeRefill now m).
Proof. unfold lacksDispensedLiter. simpl. reflexivity. Qed.

Lemma transition_lacks (now : Z) (s : STATES.t) data reason (m : t) :
  lacksDispensedLiter m -> lacksDispensedLiter (transition now s data reason m).
Proof. intros H. exact H. Qed.

Lemma processRfidResponse_lacks (now : Z) (info : UartService.RfidInfo)
      (m : t) :
  lacksDispensedLiter m -> lacksDispensedLiter (processRfidResponse now info m).
Proof.
  intros H. unfold processRfidResponse.
  destruct (String.eqb _ _); [exact H|].
  destruct (List.find _ _); [|exact H].
  unfold lacksDispensedLiter in *. simpl.
  rewrite !lookup_insert_ne by discriminate.
  destruct (currentTransaction m); [exact H | apply lookup_empty].
Qed.

Lemma handleUartResponse_lacks (now : Z) (data : string) (m : t) :
  lacksDispensedLiter m -> lacksDispensedLiter (handleUartResponse now data m).
Proof.
  intros H. unfold handleUartResponse.
  destruct (Js.includes data "meter_read").
  { destruct (UartService.parseMeterResponse data); [|exact H].
    destruct (addMeterReading _ _ _) as [r isStable]. simpl.
    unfold lacksDispensedLiter in *.
    destruct (currentTransaction m) as [tx|] eqn:Etx; simpl; [|rewrite Etx; exact I].
    destruct (Qle_bool _ _); simpl;
      rewrite lookup_insert_ne by discriminate; exact H. }
  destruct (Js.includes data "heartbeat"); [exact H|].
  destruct (Js.includes data "nhb").
  { destruct (idMatches _ _); exact H. }
  destruct (Js.includes data "rfid_match").
  { destruct (Js.search rfid_match_at data); [|exact H].
    destruct (String.eqb _ _); exact H. }
  destruct (Js.includes data "rfid_alarm").
  { destruct (Js.search rfid_alarm_at data); [|exact H].
    destruct (String.eqb _ _); [|exact H].
    simpl. destruct (STATES.eqb _ _); exact H. }
  destruct (Js.includes data "rfid_get"); [|exact H].
  destruct (UartService.parseRfidResponse data) as [info|]; [|exact H].
  simpl. destruct (STATES.eqb _ _); [|exact H].
  apply (processRfidResponse_lacks now info
           (set_lastNozzleHeartbeatTime (set_lastUartResponse m (Some data)) now)).
  exact H.
Qed.

(** So a positive final reading always reaches the store as
    [undefined]. *)
Lemma finalize_sends_undefined (now : Z) (finalReading : Q) (m : t)
      (tx : gmap string Js.value) (v : Vehicle) :
  lacksDispensedLiter m ->
  (0 < finalReading)%Q ->
  currentTransaction m = Some tx ->
  vehicle m = Some v ->
  exists m' id,
    finalizeTransaction now finalReading m = Normal m' /\
    storeCalls m' = storeCalls m ++
      [db_updateTransactionLiters id Js.Undefined;
       db_addLitersDispensed finalReading;
       db_clearIncompleteTransaction].
Proof.
  intros Hl Hpos Htx Hv.
  destruct (finalizeTransaction_positive now finalReading m tx v Hpos Htx Hv)
    as (m' & d & He & _ & _ & Ht).
  exists m', (prop tx "id"). split; [exact He|].
  unfold storeCalls. rewrite Ht, List.filter_app. simpl.
  unfold lacksDispensedLiter in Hl. rewrite Htx in Hl.
  unfold prop at 2. rewrite Hl. reflexivity.
Qed.

(** C1, the code at the failing input.  The refill of the known vehicle
    ends with the stable reading 12.3: the transaction object carries
    12.3 in [dispensedLiter], and the store is asked to update the
    transaction [null] with the liters [undefined], the value of the
    property [DispensedLiter] that nothing ever sets. *)
Theorem finalize_persists_undefined :
  lastStable (meterReading dispensed) = 12.3%Q /\
  match finalizeTransaction 9500 12.3%Q dispensed with
  | Normal m' =>
      (tx ← currentTransaction m'; tx !! "dispensedLiter")
      = Some (Js.NumStr 12.3%Q) /\
      skipn (List.length (storeCalls dispensed)) (storeCalls m')
      = [db_updateTransactionLiters Js.Null Js.Undefined;
         db_addLitersDispensed 12.3%Q;
         db_clearIncompleteTransaction]
  | TypeError _ => False
  end.
Proof. vm_compute. repeat split. Qed.

End Finalisation.

(** * Further properties of the nozzle port *)

Section PortTable.
Import UartService Port PortUpkeep.

Lemma keys_map_delete (k x : Z) (l : list (Z * Pending)) :
  In x (map fst (map_delete k l)) -> In x (map fst l).
Proof.
  induction l as [|[k' v] l IH]; simpl; [tauto|].
  destruct (k =? k')%Z; simpl; tauto.
Qed.

Lemma NoDup_map_delete (k : Z) (l : list (Z * Pending)) :
  List.NoDup (map fst l) -> List.NoDup (map fst (map_delete k l)).
Proof.
  induction l as [|[k' v] l IH]; simpl; intros H; [exact H|].
  inversion H as [|? ? Hn Hl]; subst.
  destruct (k =? k')%Z; [exact Hl|]. simpl. constructor; [|exact (IH Hl)].
  intros Hin. apply Hn. exact (keys_map_delete _ _ _ Hin).
Qed.

Lemma map_delete_absent (k : Z) (l : list (Z * Pending)) :
  List.NoDup (map fst l) -> ~ In k (map fst (map_delete k l)).
Proof.
  induction l as [|[k' v] l IH]; simpl; intros H; [tauto|].
  inversion H as [|? ? Hn Hl]; subst.
  destruct (k =? k')%Z eqn:E.
  - apply Z.eqb_eq in E. subst k'. exact Hn.
  - apply Z.eqb_neq in E. simpl. intros [Heq|Hin]; [congruence|].
    exact (IH Hl Hin).
Qed.

Lemma map_get_absent (k : Z) (l : list (Z * Pending)) :
  ~ In k (map fst l) -> map_get k l = None.
Proof.
  induction l as [|[k' v] l IH]; simpl; intros H; [reflexivity|].
  destruct (k =? k')%Z eqn:E.
  - apply Z.eqb_eq in E. subst k'. exfalso. apply H. left. reflexivity.
  - apply IH. intros Hin. apply H. right. exact Hin.
Qed.

Lemma map_set_fresh (k : Z) (v : Pending) (l : list (Z * Pending)) :
  ~ In k (map fst l) -> map_set k v l = l ++ [(k, v)].
Proof.
  induction l as [|[k' v'] l IH]; simpl; intros H; [reflexivity|].
  destruct (k =? k')%Z eqn:E.
  - apply Z.eqb_eq in E. subst k'. exfalso. apply H. left. reflexivity.
  - rewrite IH; [reflexivity|]. intros Hin. apply H. right. exact Hin.
Qed.

Lemma keys_map_set (k : Z) (v : Pending) (l : list (Z * Pending)) :
  In k (map fst l) -> map fst (map_set k v l) = map fst l.
Proof.
  induction l as [|[k' v'] l IH]; simpl; [tauto|].
  destruct (k =? k')%Z eqn:E.
  - apply Z.eqb_eq in E. subst k'. reflexivity.
  - apply Z.eqb_neq in E. intros [Heq|Hin]; [congruence|].
    simpl. rewrite (IH Hin). reflexivity.
Qed.

Lemma map_get_map_set (k : Z) (v : Pending) (l : list (Z * Pending)) :
  map_get k (map_set k v l) = Some v.
Proof.
  induction l as [|[k' v'] l IH]; simpl.
  - rewrite Z.eqb_refl. reflexivity.
  - destruct (k =? k')%Z eqn:E; simpl.
    + rewrite Z.eqb_refl. reflexivity.
    + rewrite E. exact IH.
Qed.

(** [set] keeps the keys of the table distinct. *)
Lemma NoDup_map_set (k : Z) (v : Pending) (l : list (Z * Pending)) :
  List.NoDup (map fst l) -> List.NoDup (map fst (map_set k v l)).
Proof.
  intros H. destruct (in_dec Z.eq_dec k (map fst l)) as [Hin|Hout].
  - rewrite keys_map_set; assumption.
  - rewrite map_set_fresh by exact Hout. rewrite map_app. simpl.
    apply List.NoDup_app; [exact H | repeat constructor; simpl; tauto |].
    intros x Hx [<-|[]]. exact (Hout Hx).
Qed.

Lemma findMatching_first (ty : CommandType) (older newer : list (Z * Pending))
      (id : Z) (c : Pending) :
  Forall (fun e => typeOf e <> ty) older ->
  typeOf (id, c) = ty ->
  findMatching ty (older ++ (id, c) :: newer) = Some (id, c).
Proof.
  intros Hf Ht. induction Hf as [|[k v] older Hk Hf IH]; simpl.
  - unfold typeOf in Ht. simpl in Ht. rewrite Ht.
    destruct (CommandType_eqb ty ty) eqn:E; [reflexivity|].
    assert (H : CommandType_eqb ty ty = true)
      by (apply CommandType_eqb_eq; reflexivity).
    congruence.
  - destruct (CommandType_eqb _ ty) eqn:E; [|exact IH].
    apply CommandType_eqb_eq in E. exfalso. apply Hk. exact E.
Qed.

(** X1.  A request and its reply.  When a command is sent with a response
    expected, at a millisecond that is not yet a key of the table and
    while no request of the same family is pending, the next frame of
    that family resolves the promise of exactly this command with the
    frame, clears the timer armed for it, and leaves the table as it was
    before the command was sent. *)
Theorem request_reply_round_trip (now : Z) (q : nat) (command data : string)
        (p : t) :
  initialized p = true ->
  ~ In now (keys p) ->
  Forall (fun e => typeOf e <> getCommandType command) (pendingCommands p) ->
  getCommandType data = getCommandType command ->
  let p1 := after (sendCommand now q command (Some true) p) in
  snd (handleData data p1) =
    [emit_data data; clearTimeout (nextHandle p); resolve q data] /\
  pendingCommands (fst (handleData data p1)) = pendingCommands p.
Proof.
  intros Hinit Hfresh Hnone Hty p1. subst p1.
  unfold sendCommand. rewrite Hinit. simpl.
  unfold handleData. simpl.
  rewrite map_set_fresh by exact Hfresh.
  rewrite (findMatching_first _ _ [] now _ ).
  - simpl. split; [reflexivity|].
    rewrite map_delete_middle by exact Hfresh. apply app_nil_r.
  - rewrite Hty. exact Hnone.
  - unfold typeOf. simpl. symmetry. exact Hty.
Qed.

Lemma request_reply_round_trip_witness :
  let p := after (sendCommand 10 0 "heartbeat()" (Some true) (new 0)) in
  let p1 := after (sendCommand 20 1 "meter_read()" (Some true) p) in
  snd (handleData "meter_read(12.5)" p1) =
    [emit_data "meter_read(12.5)"; clearTimeout 1;
     resolve 1 "meter_read(12.5)"] /\
  pendingCommands (fst (handleData "meter_read(12.5)" p1)) =
    pendingCommands p.
Proof.
  apply (request_reply_round_trip 20 1 "meter_read()" "meter_read(12.5)"
           (after (sendCommand 10 0 "heartbeat()" (Some true) (new 0)))).
  - reflexivity.
  - simpl. intros [H|[]]. discriminate H.
  - repeat constructor. discriminate.
  - reflexivity.
Defined.

(** X2.  Two commands in one millisecond.  The key of a request is the
    millisecond at which it is sent, so a second command sent with a
    response expected in the same millisecond takes over the entry of the
    first: the table has one entry under that key, which settles the
    second promise.  When no reply comes, the timer of the first command
    rejects the first promise and deletes that entry, and the timer of
    the second command then finds no entry: the second promise is not
    rejected by its deadline. *)
Theorem same_millisecond_requests_share_an_entry
        (now : Z) (q1 q2 : nat) (c1 c2 : string) (p : t) :
  initialized p = true ->
  List.NoDup (keys p) ->
  let p1 := after (sendCommand now q1 c1 (Some true) p) in
  let p2 := after (sendCommand now q2 c2 (Some true) p1) in
  keys p2 = keys p1 /\
  map_get now (pendingCommands p2) =
    Some {| promise := q2; timeout := S (nextHandle p);
            originalCommand := c2; timestamp := now |} /\
  let p3 := fst (onTimeout now q1 p2) in
  snd (onTimeout now q1 p2) = [reject q1 "UART response timeout"] /\
  map_get now (pendingCommands p3) = None /\
  onTimeout now q2 p3 = (p3, []).
Proof.
  intros Hinit Hnd p1 p2. subst p1 p2.
  unfold sendCommand. rewrite Hinit. simpl. rewrite Hinit. simpl.
  set (e1 := {| promise := q1; timeout := nextHandle p;
                originalCommand := c1; timestamp := now |}).
  set (e2 := {| promise := q2; timeout := S (nextHandle p);
                originalCommand := c2; timestamp := now |}).
  set (l1 := map_set now e1 (pendingCommands p)).
  assert (Hin : In now (map fst l1)).
  { assert (H := map_get_map_set now e1 (pendingCommands p)). fold l1 in H.
    destruct (in_dec Z.eq_dec now (map fst l1)) as [Hi|Ho]; [exact Hi|].
    rewrite (map_get_absent _ _ Ho) in H. discriminate H. }
  assert (Hnd1 : List.NoDup (map fst l1)) by (apply NoDup_map_set; exact Hnd).
  split; [unfold keys; simpl; apply keys_map_set; exact Hin|].
  split; [apply map_get_map_set|].
  unfold onTimeout. simpl. rewrite map_get_map_set. simpl.
  assert (Hgone : map_get now (map_delete now (map_set now e2 l1)) = None).
  { apply map_get_absent, map_delete_absent, NoDup_map_set. exact Hnd1. }
  split; [reflexivity|]. split; [exact Hgone|].
  rewrite Hgone. reflexivity.
Qed.

Lemma same_millisecond_requests_share_an_entry_witness :
  let p1 := after (sendCommand 7 0 "meter_read()" (Some true) (new 0)) in
  let p2 := after (sendCommand 7 1 "heartbeat()" (Some true) p1) in
  keys p2 = keys p1 /\
  map_get 7 (pendingCommands p2) =
    Some {| promise := 1%nat; timeout := 1%nat;
            originalCommand := "heartbeat()"; timestamp := 7 |} /\
  let p3 := fst (onTimeout 7 0 p2) in
  snd (onTimeout 7 0 p2) = [reject 0 "UART response timeout"] /\
  map_get 7 (pendingCommands p3) = None /\
  onTimeout 7 1 p3 = (p3, []).
Proof.
  apply (same_millisecond_requests_share_an_entry
           7 0 1 "meter_read()" "heartbeat()" (new 0)).
  - reflexivity.
  - constructor.
Defined.

Lemma filter_all {A : Type} (f : A -> bool) (l : list A) :
  (forall x, In x l -> f x = true) -> List.filter f l = l.
Proof.
  induction l as [|a l IH]; simpl; intros H; [reflexivity|].
  rewrite (H a) by (left; reflexivity).
  rewrite IH; [reflexivity|]. intros x Hx. apply H. right. exact Hx.
Qed.

(** With distinct keys, [delete] is a filter on the key. *)
Lemma map_delete_filter (k : Z) (l : list (Z * Pending)) :
  List.NoDup (map fst l) ->
  map_delete k l = List.filter (fun e => negb (fst e =? k)%Z) l.
Proof.
  induction l as [|[k' v] l IH]; simpl; intros H; [reflexivity|].
  inversion H as [|? ? Hn Hl]; subst.
  destruct (k =? k')%Z eqn:E.
  - apply Z.eqb_eq in E. subst k'. rewrite Z.eqb_refl. simpl.
    symmetry. apply filter_all. intros [x w] Hx. simpl.
    destruct (x =? k)%Z eqn:Ex; [|reflexivity].
    apply Z.eqb_eq in Ex. subst x. exfalso. apply Hn.
    exact (in_map fst _ _ Hx).
  - rewrite Z.eqb_sym, E. simpl. rewrite (IH Hl). reflexivity.
Qed.

Lemma filter_filter {A : Type} (f g : A -> bool) (l : list A) :
  List.filter f (List.filter g l) = List.filter (fun x => g x && f x) l.
Proof.
  induction l as [|a l IH]; simpl; [reflexivity|].
  destruct (g a); simpl; [destruct (f a)|]; rewrite IH; reflexivity.
Qed.

Lemma cleanupLoop_spec (now limit : Z) (entries table : list (Z * Pending)) :
  List.NoDup (map fst table) ->
  fst (cleanupLoop now limit entries table) =
    List.filter (fun e => negb (existsb (fun x => expired now limit x
                                             && (fst x =? fst e)%Z) entries))
           table /\
  snd (cleanupLoop now limit entries table) =
    flat_map expiry (List.filter (expired now limit) entries).
Proof.
  revert table. induction entries as [|[k c] entries IH]; intros table Hnd.
  - simpl. split; [|reflexivity]. symmetry. apply filter_all. reflexivity.
  - simpl cleanupLoop. simpl List.filter at 2.
    destruct (expired now limit (k, c)) eqn:E.
    + destruct (IH (map_delete k table) (NoDup_map_delete k _ Hnd))
        as [Ht He].
      destruct (cleanupLoop now limit entries (map_delete k table))
        as [table' effects].
      simpl in Ht, He. simpl. split; [|rewrite He; reflexivity].
      rewrite Ht, (map_delete_filter k table Hnd), filter_filter.
      apply List.filter_ext. intros [x w]. simpl.
      rewrite E, (Z.eqb_sym k x). destruct (x =? k)%Z; reflexivity.
    + destruct (IH table Hnd) as [Ht He]. split; [|exact He].
      rewrite Ht. apply List.filter_ext. intros [x w]. simpl.
      rewrite E. reflexivity.
Qed.

Lemma same_key_same_entry (l : list (Z * Pending)) (x e : Z * Pending) :
  List.NoDup (map fst l) -> In x l -> In e l -> fst x = fst e -> x = e.
Proof.
  induction l as [|a l IH]; simpl; intros Hnd Hx He Hk; [tauto|].
  inversion Hnd as [|? ? Hn Hl]; subst.
  destruct Hx as [->|Hx], He as [->|He].
  - reflexivity.
  - exfalso. apply Hn. rewrite Hk. exact (in_map fst _ _ He).
  - exfalso. apply Hn. rewrite <- Hk. exact (in_map fst _ _ Hx).
  - exact (IH Hl Hx He Hk).
Qed.

(** X3.  [cleanupExpiredMessages] sweeps the table: it keeps, in order,
    exactly the requests that are at most [messageTimeout] old, and for
    each older one, in table order, clears its timer and rejects its
    promise with ['Command expired']. *)
Theorem cleanupExpiredMessages_sweeps (now : Z) (p : t) :
  List.NoDup (keys p) ->
  pendingCommands (fst (cleanupExpiredMessages now p)) =
    List.filter (fun e => negb (expired now (messageTimeout p) e))
           (pendingCommands p) /\
  snd (cleanupExpiredMessages now p) =
    flat_map expiry
      (List.filter (expired now (messageTimeout p)) (pendingCommands p)).
Proof.
  intros Hnd. unfold cleanupExpiredMessages.
  destruct (cleanupLoop_spec now (messageTimeout p) (pendingCommands p)
              (pendingCommands p) Hnd) as [Ht He].
  destruct (cleanupLoop now (messageTimeout p) (pendingCommands p)
              (pendingCommands p)) as [table effects].
  simpl in *. split; [|exact He]. rewrite Ht.
  apply List.filter_ext_in. intros e Hin. f_equal.
  destruct (expired now (messageTimeout p) e) eqn:E.
  - apply existsb_exists. exists e. rewrite E, Z.eqb_refl. auto.
  - destruct (existsb _ (pendingCommands p)) eqn:X; [|reflexivity].
    apply existsb_exists in X as (x & Hx & Hc).
    apply andb_true_iff in Hc as [Hexp Hk]. apply Z.eqb_eq in Hk.
    rewrite (same_key_same_entry _ x e Hnd Hx Hin Hk) in Hexp. congruence.
Qed.

Lemma cleanupExpiredMessages_sweeps_witness :
  let p := after (sendCommand 6000 1 "heartbeat()" (Some true)
             (after (sendCommand 10 0 "meter_read()" (Some true) (new 0)))) in
  pendingCommands (fst (cleanupExpiredMessages 6001 p)) =
    List.filter (fun e => negb (expired 6001 (messageTimeout p) e))
           (pendingCommands p) /\
  snd (cleanupExpiredMessages 6001 p) =
    flat_map expiry
      (List.filter (expired 6001 (messageTimeout p)) (pendingCommands p)).
Proof.
  apply (cleanupExpiredMessages_sweeps 6001
    (after (sendCommand 6000 1 "heartbeat()" (Some true)
       (after (sendCommand 10 0 "meter_read()" (Some true) (new 0)))))).
  simpl. repeat constructor; simpl; [intros [H|[]]; discriminate H | tauto].
Defined.

(** X27.  A request is settled once.  When a frame has resolved a
    pending request, the deadline of that request, should its timer
    still fire, finds no entry and rejects nothing; and when the
    deadline has rejected a request, no entry is left under its key for
    a later frame to resolve. *)
Theorem settled_request_is_gone (data : string) (id : Z) (c : Pending)
        (p : t) :
  List.NoDup (keys p) ->
  (findMatching (getCommandType data) (pendingCommands p) = Some (id, c) ->
   onTimeout id (promise c) (fst (handleData data p))
   = (fst (handleData data p), [])) /\
  (map_get id (pendingCommands p) = Some c ->
   snd (onTimeout id (promise c) p)
   = [reject (promise c) "UART response timeout"] /\
   map_get id (pendingCommands (fst (onTimeout id (promise c) p))) = None).
Proof.
  intros Hnd. split.
  - intros Hf. unfold handleData. cbn [pendingCommands with_lastResponse].
    rewrite Hf. cbn [fst]. unfold onTimeout. cbn [pendingCommands with_pending].
    rewrite (map_get_absent id _ (map_delete_absent id _ Hnd)). reflexivity.
  - intros Hg. unfold onTimeout. rewrite Hg. cbn [fst snd pendingCommands with_pending].
    split; [reflexivity|].
    apply map_get_absent, map_delete_absent. exact Hnd.
Qed.

Lemma settled_request_is_gone_witness :
  let p := after (sendCommand 10 0 "meter_read()" (Some true) (new 0)) in
  let c := {| promise := 0%nat; timeout := 0%nat;
              originalCommand := "meter_read()"; timestamp := 10 |} in
  (findMatching (getCommandType "meter_read(3)") (pendingCommands p)
   = Some (10, c) ->
   onTimeout 10 (promise c) (fst (handleData "meter_read(3)" p))
   = (fst (handleData "meter_read(3)" p), [])) /\
  (map_get 10 (pendingCommands p) = Some c ->
   snd (onTimeout 10 (promise c) p)
   = [reject (promise c) "UART response timeout"] /\
   map_get 10 (pendingCommands (fst (onTimeout 10 (promise c) p))) = None).
Proof.
  apply (settled_request_is_gone "meter_read(3)" 10
           {| promise := 0%nat; timeout := 0%nat;
              originalCommand := "meter_read()"; timestamp := 10 |}
           (after (sendCommand 10 0 "meter_read()" (Some true) (new 0)))).
  simpl. repeat constructor. simpl. tauto.
Defined.

End PortTable.

(** * Numbers *)

Section Numbers.

Lemma Qred_scaled (z j : Z) :
  0 <= j -> Qred (z * 2 ^ j # Z.to_pos (2 ^ j)) = inject_Z z.
Proof.
  intros Hj.
  assert (Hp : 0 < 2 ^ j) by (apply Z.pow_pos_nonneg; lia).
  rewrite <- (Qcanon.Qred_identity (inject_Z z)).
  - apply Qred_complete. unfold Qeq, inject_Z. simpl.
    rewrite Z2Pos.id by exact Hp. lia.
  - simpl. apply Z.gcd_1_r.
Qed.

Lemma floorLog2_integer (z : Z) : 0 < z -> Js.floorLog2 z 1 = Z.log2 z.
Proof.
  intros Hz. unfold Js.floorLog2, Js.scaled.
  change (Z.log2 1) with 0. rewrite Z.sub_0_r.
  pose proof (Z.log2_nonneg z) as Hl0.
  destruct (Z.log2_spec z Hz) as [Hlo _].
  replace (0 <=? Z.log2 z)%Z with true by (symmetry; apply Z.leb_le; exact Hl0).
  rewrite Z.mul_1_l.
  replace (z <? 2 ^ Z.log2 z)%Z with false
    by (symmetry; apply Z.ltb_ge; exact Hlo).
  reflexivity.
Qed.

Lemma nearest_small (z : Z) :
  0 < z < 2 ^ 53 -> Js.nearest z 1 = Some (inject_Z z).
Proof.
  intros [Hz Hu]. unfold Js.nearest. rewrite (floorLog2_integer z Hz).
  pose proof (Z.log2_nonneg z) as Hl0.
  assert (Hl : Z.log2 z < 53) by (apply Z.log2_lt_pow2; lia).
  rewrite Z.max_l by lia.
  unfold Js.scaled.
  destruct (0 <=? Z.log2 z - 52)%Z eqn:E.
  - apply Z.leb_le in E. assert (He : Z.log2 z - 52 = 0) by lia.
    rewrite He. change (2 ^ 0) with 1. rewrite !Z.mul_1_r.
    rewrite Z.div_1_r, Z.mod_1_r. simpl orb. cbv iota.
    replace (2 ^ 1024 <=? z)%Z with false; [reflexivity|].
    symmetry. apply Z.leb_gt.
    apply Z.lt_trans with (2 ^ 53); [exact Hu | reflexivity].
  - rewrite Z.div_1_r, Z.mod_1_r. simpl orb. cbv iota.
    apply Z.leb_gt in E. f_equal. apply Qred_scaled. lia.
Qed.

(** An integer below [2^53] is a number. *)
Lemma double_small (z : Z) :
  0 <= z < 2 ^ 53 -> Js.double (inject_Z z) = Js.Fin (inject_Z z).
Proof.
  intros [Hz Hu]. unfold Js.double. simpl Qnum. simpl Qden.
  destruct z as [|p|p]; [reflexivity | | lia].
  rewrite nearest_small by lia. reflexivity.
Qed.




End Numbers.

(** * Frames and their parsers *)

Section FrameParsers.
Import UartService PortUpkeep.

Lemma lit_app (l s r : string) :
  Js.lit l s = Some r -> s = (l ++ r)%string.
Proof.
  revert s. induction l as [|c l IH]; intros s; simpl.
  - intros [= ->]. reflexivity.
  - destruct s as [|d s]; [discriminate|].
    destruct (Ascii.eqb c d) eqn:E; [|discriminate].
    apply Ascii.eqb_eq in E. subst d. intros H. rewrite (IH _ H). reflexivity.
Qed.

Lemma lit_here (l r : string) : Js.lit l (l ++ r)%string = Some r.
Proof.
  induction l as [|c l IH]; simpl; [reflexivity|].
  rewrite Ascii.eqb_refl. exact IH.
Qed.

(** A match found by [search] is a match at the head of a suffix. *)
Lemma search_suffix {A : Type} (f : string -> option A) (s : string) (r : A) :
  Js.search f s = Some r ->
  exists pre s', s = (pre ++ s')%string /\ f s' = Some r.
Proof.
  induction s as [|c s IH]; simpl.
  - destruct (f "") eqn:E; [|discriminate].
    intros [= <-]. exists "", "". auto.
  - destruct (f (String c s)) eqn:E.
    + intros [= <-]. exists "", (String c s). auto.
    + intros H. destruct (IH H) as (pre & s' & -> & Hs).
      exists (String c pre), s'. auto.
Qed.

(** Where the pattern matches at the head of a suffix, [search] finds a
    match. *)
Lemma search_finds {A : Type} (f : string -> option A) (pre s : string)
      (r : A) :
  f s = Some r -> exists r', Js.search f (pre ++ s)%string = Some r'.
Proof.
  intros H. induction pre as [|c pre IH]; simpl.
  - destruct s; simpl; rewrite H; eauto.
  - destruct (f (String c (pre ++ s)%string)); eauto.
Qed.

Lemma search_here {A : Type} (f : string -> option A) (s : string) (r : A) :
  f s = Some r -> Js.search f s = Some r.
Proof. intros H. destruct s; simpl; rewrite H; reflexivity. Qed.

Lemma includes_suffix (pre s p : string) :
  Js.startsWith s p = true -> Js.includes (pre ++ s)%string p = true.
Proof.
  intros H. induction pre as [|c pre IH].
  - change ("" ++ s)%string with s.
    destruct s; cbn [Js.includes]; rewrite H; reflexivity.
  - change (String c pre ++ s)%string with (String c (pre ++ s)%string).
    cbn [Js.includes]. rewrite IH. apply orb_true_r.
Qed.

Lemma span_spec (p : ascii -> bool) (s a b : string) :
  Js.span p s = (a, b) ->
  s = (a ++ b)%string /\ allChars p a = true /\ stops p b.
Proof.
  revert a b. induction s as [|c s IH]; intros a b; simpl.
  - intros [= <- <-]. simpl. auto.
  - destruct (p c) eqn:E.
    + destruct (Js.span p s) as [x y]. intros [= <- <-].
      destruct (IH x y eq_refl) as (-> & Hx & Hy).
      simpl. rewrite E, Hx. auto.
    + intros [= <- <-]. simpl. auto.
Qed.

Lemma span_run (p : ascii -> bool) (a s : string) :
  allChars p a = true -> stops p s -> Js.span p (a ++ s)%string = (a, s).
Proof.
  intros Ha Hs. induction a as [|c a IH]; simpl in *.
  - destruct s as [|d s]; simpl in *; [reflexivity|]. rewrite Hs. reflexivity.
  - apply andb_true_iff in Ha as [Hc Ha]. rewrite Hc, (IH Ha). reflexivity.
Qed.

Lemma plus_spec (p : ascii -> bool) (s a b : string) :
  Js.plus p s = Some (a, b) ->
  s = (a ++ b)%string /\ allChars p a = true /\ a <> "" /\ stops p b.
Proof.
  unfold Js.plus. destruct (Js.span p s) as [x y] eqn:E.
  destruct x as [|c x]; [discriminate|]. intros [= <- <-].
  destruct (span_spec _ _ _ _ E) as (-> & Hx & Hy).
  repeat split; [exact Hx | discriminate | exact Hy].
Qed.

Lemma plus_run (p : ascii -> bool) (a s : string) :
  allChars p a = true -> a <> "" -> stops p s ->
  Js.plus p (a ++ s)%string = Some (a, s).
Proof.
  intros Ha Hne Hs. unfold Js.plus. rewrite (span_run _ _ _ Ha Hs).
  destruct a; [congruence | reflexivity].
Qed.

Lemma digitVal_range (c : ascii) :
  Js.isDigit c = true -> 0 <= Js.digitVal c <= 9.
Proof.
  unfold Js.isDigit, Js.digitVal. intros H.
  apply andb_true_iff in H as [H1 H2].
  apply Nat.leb_le in H1, H2. lia.
Qed.

(** The value of [n] decimal digits appended to [acc]. *)
Lemma decimal_bounds (s : string) (acc : Z) :
  allChars Js.isDigit s = true ->
  acc * 10 ^ Z.of_nat (String.length s) <= Js.decimal acc s
    <= acc * 10 ^ Z.of_nat (String.length s)
       + 10 ^ Z.of_nat (String.length s) - 1.
Proof.
  revert acc. induction s as [|c s IH]; intros acc H.
  - simpl. lia.
  - simpl in H. apply andb_true_iff in H as [Hc Hs].
    apply digitVal_range in Hc.
    specialize (IH (10 * acc + Js.digitVal c) Hs).
    cbn [Js.decimal String.length]. rewrite Nat2Z.inj_succ, Z.pow_succ_r by lia.
    assert (0 < 10 ^ Z.of_nat (String.length s)) by (apply Z.pow_pos_nonneg; lia).
    nia.
Qed.

Lemma decimal_nonneg (s : string) (acc : Z) :
  allChars Js.isDigit s = true -> 0 <= acc -> 0 <= Js.decimal acc s.
Proof.
  intros H Hacc. destruct (decimal_bounds s acc H) as [Hl _].
  assert (0 <= 10 ^ Z.of_nat (String.length s)) by (apply Z.pow_nonneg; lia).
  nia.
Qed.

(** X4.  A meter frame that [parseMeterResponse] accepts carries a
    reading that is not negative, and it is a frame that the supervisor
    handles as a meter reading. *)
Theorem parseMeterResponse_sound (data : string) (value : Q) :
  parseMeterResponse data = Some value ->
  (0 <= value)%Q /\ Frames.branch data = Frames.on_meter_read.
Proof.
  intros H. apply search_suffix in H as (pre & s & -> & H).
  unfold meter_read_at in H.
  apply bind_Some in H as (r1 & E1 & H).
  apply bind_Some in H as ([i r2] & E2 & H).
  apply lit_app in E1. subst s.
  split.
  - apply plus_spec in E2 as (_ & Hi & _ & _).
    destruct (r ← Js.lit "." r2; '(f, r) ← Js.plus Js.isDigit r;
              _ ← Js.lit ")" r; Some f) as [f|] eqn:E3.
    + injection H as <-.
      apply bind_Some in E3 as (r3 & _ & E3).
      apply bind_Some in E3 as ([f' r4] & Ef & E3).
      apply bind_Some in E3 as (r5 & _ & E3). injection E3 as ->.
      apply plus_spec in Ef as (_ & Hf & _ & _).
      unfold Qle. simpl.
      assert (0 <= Js.decimal (Js.decimal 0 i) f)
        by (apply decimal_nonneg; [exact Hf | apply decimal_nonneg; [exact Hi | lia]]).
      lia.
    + apply bind_Some in H as (r3 & _ & H). injection H as <-.
      unfold Qle. simpl.
      assert (0 <= Js.decimal 0 i) by (apply decimal_nonneg; [exact Hi | lia]).
      lia.
  - unfold Frames.branch. rewrite includes_suffix; reflexivity.
Qed.

Lemma parseMeterResponse_sound_witness :
  (0 <= 125 # 10)%Q /\
  Frames.branch "meter_read(12.5)" = Frames.on_meter_read.
Proof.
  apply (parseMeterResponse_sound "meter_read(12.5)" (125 # 10)).
  reflexivity.
Defined.

Lemma append_empty (s : string) : (s ++ "")%string = s.
Proof.
  induction s as [|c s IH]; [reflexivity|].
  change (String c s ++ "")%string with (String c (s ++ "")%string).
  rewrite IH. reflexivity.
Qed.

(** A decimal digit is no white space and no sign. *)
Lemma digit_cases (c : ascii) :
  Js.isDigit c = true ->
  In c ["0"; "1"; "2"; "3"; "4"; "5"; "6"; "7"; "8"; "9"]%char.
Proof.
  destruct c as [[] [] [] [] [] [] [] []]; intros H;
    first [discriminate H | simpl; tauto].
Qed.

Lemma trimStart_digit (c : ascii) (s : string) :
  Js.isDigit c = true -> Js.trimStart (String c s) = String c s.
Proof.
  intros H. apply digit_cases in H. simpl in H.
  repeat (destruct H as [<- | H]; [destruct s as [|d [|e s]]; reflexivity|]).
  contradiction.
Qed.

(** [parseInt] of a run of decimal digits is the number for the value
    of the run: the value itself when it has at most 15 digits. *)
Lemma parseInt_digits (s : string) :
  allChars Js.isDigit s = true -> s <> "" ->
  Js.parseInt s = Js.double (inject_Z (Js.decimal 0 s)).
Proof.
  intros Hs Hne. destruct s as [|c s]; [congruence|].
  pose proof Hs as Hall. simpl in Hs. apply andb_true_iff in Hs as [Hc Hs].
  unfold Js.parseInt. rewrite (trimStart_digit c s Hc).
  assert (Hp : Js.plus Js.isDigit (String c s) = Some (String c s, "")).
  { rewrite <- (plus_run Js.isDigit (String c s) "" Hall Hne I).
    rewrite append_empty. reflexivity. }
  assert (Hu : Js.parseIntUnsigned (String c s)
               = Some (Js.decimal 0 (String c s))).
  { unfold Js.parseIntUnsigned. rewrite Hp.
    apply digit_cases in Hc. simpl in Hc.
    repeat (destruct Hc as [<- | Hc]; [try reflexivity|]);
      [|contradiction].
    destruct s as [|x s']; [reflexivity|].
    simpl in Hs. apply andb_true_iff in Hs as [Hx _].
    apply digit_cases in Hx. simpl in Hx.
    repeat (destruct Hx as [<- | Hx]; [reflexivity|]). contradiction. }
  apply digit_cases in Hc. simpl in Hc.
  repeat (destruct Hc as [<- | Hc]; [rewrite Hu; reflexivity|]).
  contradiction.
Qed.

Lemma parseInt_short (s : string) :
  allChars Js.isDigit s = true -> s <> "" -> (String.length s <= 15)%nat ->
  Js.parseInt s = Js.Fin (inject_Z (Js.decimal 0 s)).
Proof.
  intros Hs Hne Hl. rewrite (parseInt_digits s Hs Hne).
  apply double_small.
  destruct (decimal_bounds s 0 Hs) as [Hlo Hhi].
  assert (H15 : 10 ^ Z.of_nat (String.length s) <= 10 ^ 15)
    by (apply Z.pow_le_mono_r; lia).
  assert (10 ^ 15 < 2 ^ 53) by reflexivity.
  lia.
Qed.

(** X5.  Every well-formed identification frame is read back: for a
    nozzle id and a battery level made of decimal digits and a tag made
    of hexadecimal digits, none of them empty, [parseRfidResponse] of the
    frame [rfid_get(nozzle,tag,battery)] returns the nozzle id and the
    tag as written, and as battery level the number for the value of the
    digits: the nearest number, which is the value itself when the level
    has at most 15 digits. *)
Theorem parseRfidResponse_reads_frame (nozzle tag battery : string) :
  allChars Js.isDigit nozzle = true -> nozzle <> "" ->
  allChars Js.isHex tag = true -> tag <> "" ->
  allChars Js.isDigit battery = true -> battery <> "" ->
  exists level,
    parseRfidResponse (rfidFrame nozzle tag battery) =
      Some {| nozzleId := nozzle; rfidTag := tag; batteryState := level |} /\
    level = Js.double (inject_Z (Js.decimal 0 battery)) /\
    ((String.length battery <= 15)%nat ->
     level = Js.Fin (inject_Z (Js.decimal 0 battery))).
Proof.
  intros Hn Hn0 Ht Ht0 Hb Hb0. exists (Js.parseInt battery).
  split; [|split; [apply parseInt_digits; assumption
                  | apply parseInt_short; assumption]].
  unfold parseRfidResponse, rfidFrame.
  apply search_here. unfold rfid_get_at.
  rewrite lit_here. cbn [mbind option_bind].
  rewrite (plus_run _ _ _ Hn Hn0) by reflexivity. cbn [mbind option_bind].
  rewrite lit_here. cbn [mbind option_bind].
  rewrite (plus_run _ _ _ Ht Ht0) by reflexivity. cbn [mbind option_bind].
  rewrite lit_here. cbn [mbind option_bind].
  rewrite (plus_run _ _ _ Hb Hb0) by reflexivity. reflexivity.
Qed.

Lemma parseRfidResponse_reads_frame_witness :
  exists level,
    parseRfidResponse (rfidFrame "0076" "E200001D8914005717701BFC" "0095") =
      Some {| nozzleId := "0076"; rfidTag := "E200001D8914005717701BFC";
              batteryState := level |} /\
    level = Js.double (inject_Z (Js.decimal 0 "0095")) /\
    ((String.length "0095" <= 15)%nat ->
     level = Js.Fin (inject_Z (Js.decimal 0 "0095"))).
Proof.
  apply (parseRfidResponse_reads_frame
           "0076" "E200001D8914005717701BFC" "0095");
    (reflexivity || discriminate).
Defined.

(** A level of twenty digits is rounded. *)
Lemma long_battery_level_rounded :
  batteryState
    <$> parseRfidResponse
          (rfidFrame "0076" "E200001D8914005717701BFC" "12345678901234567890")
  = Some (Js.Fin 12345678901234567168).
Proof. vm_compute. reflexivity. Qed.

End FrameParsers.

(** * Helpers *)

Section Helpers.
Import UartService PortUpkeep uartUtils validationUtils.

Lemma exactly_spec (n : nat) (p : ascii -> bool) (s a b : string) :
  exactly n p s = Some (a, b) ->
  s = (a ++ b)%string /\ allChars p a = true /\ String.length a = n.
Proof.
  revert s a b. induction n as [|n IH]; intros s a b; simpl.
  - intros [= <- <-]. auto.
  - destruct s as [|c s]; [discriminate|].
    destruct (p c) eqn:E; [|discriminate]. intros H.
    apply bind_Some in H as ([x y] & Hx & H). injection H as <- <-.
    destruct (IH _ _ _ Hx) as (-> & Ha & Hl).
    simpl. rewrite E, Ha, Hl. auto.
Qed.

Lemma exactly_all (p : ascii -> bool) (a : string) :
  allChars p a = true -> exactly (String.length a) p a = Some (a, "").
Proof.
  induction a as [|c a IH]; simpl; [reflexivity|].
  intros H. apply andb_true_iff in H as [Hc Ha].
  rewrite Hc, (IH Ha). reflexivity.
Qed.

Lemma length_nonempty (a : string) (n : nat) :
  String.length a = S n -> a <> "".
Proof. destruct a; [discriminate | discriminate]. Qed.

(** X6.  What the strict pattern of [parseRfidMessage] accepts: the
    nozzle id it returns is a valid nozzle id and the tag a valid tag in
    the sense of [validationUtils], the battery level is between 0 and
    9999, and the port's own parser accepts the same message. *)
Theorem parseRfidMessage_valid (message : string) (info : RfidInfo) :
  parseRfidMessage message = Some info ->
  isValidNozzleId (nozzleId info) = true /\
  isValidRfidTag (rfidTag info) = true /\
  (exists level,
      batteryState info = Js.Fin (inject_Z level) /\ 0 <= level <= 9999) /\
  exists info', parseRfidResponse message = Some info'.
Proof.
  intros H. apply search_suffix in H as (pre & s & -> & H).
  unfold rfid_message_at in H.
  apply bind_Some in H as (r1 & E1 & H).
  apply bind_Some in H as ([n r2] & E2 & H).
  apply bind_Some in H as (r3 & E3 & H).
  apply bind_Some in H as ([tag r4] & E4 & H).
  apply bind_Some in H as (r5 & E5 & H).
  apply bind_Some in H as ([b r6] & E6 & H).
  apply bind_Some in H as (r7 & E7 & H). injection H as <-.
  apply exactly_spec in E2 as (-> & Hn & Ln).
  apply exactly_spec in E4 as (-> & Ht & Lt).
  apply exactly_spec in E6 as (-> & Hb & Lb).
  apply lit_app in E1, E3, E5, E7. subst s r2 r4 r6. simpl.
  split; [|split; [|split]].
  - unfold isValidNozzleId. rewrite <- Ln, (exactly_all _ _ Hn). reflexivity.
  - unfold isValidRfidTag. rewrite <- Lt, (exactly_all _ _ Ht). reflexivity.
  - exists (Js.decimal 0 b). split.
    + apply parseInt_short; [exact Hb | exact (length_nonempty _ _ Lb) | lia].
    + destruct (decimal_bounds b 0 Hb) as [Hl Hu]. rewrite Lb in Hl, Hu.
      change (10 ^ Z.of_nat 4) with 10000 in Hl, Hu. lia.
  - apply (search_finds rfid_get_at pre _
             {| nozzleId := n; rfidTag := tag;
                batteryState := Js.parseInt b |}).
    unfold rfid_get_at.
    rewrite lit_here. cbn [mbind option_bind].
    rewrite (plus_run _ _ _ Hn (length_nonempty _ _ Ln)) by reflexivity.
    cbn [mbind option_bind]. rewrite lit_here. cbn [mbind option_bind].
    rewrite (plus_run _ _ _ Ht (length_nonempty _ _ Lt)) by reflexivity.
    cbn [mbind option_bind]. rewrite lit_here. cbn [mbind option_bind].
    rewrite (plus_run _ _ _ Hb (length_nonempty _ _ Lb)) by reflexivity.
    cbn [mbind option_bind]. rewrite lit_here. reflexivity.
Qed.

Lemma parseRfidMessage_valid_witness :
  isValidNozzleId "0076" = true /\
  isValidRfidTag "E200001D8914005717701BFC" = true /\
  (exists level, Js.Fin 95 = Js.Fin (inject_Z level) /\ 0 <= level <= 9999) /\
  exists info',
    parseRfidResponse "rfid_get(0076,E200001D8914005717701BFC,0095)"
    = Some info'.
Proof.
  apply (parseRfidMessage_valid
           "rfid_get(0076,E200001D8914005717701BFC,0095)"
           {| nozzleId := "0076"; rfidTag := "E200001D8914005717701BFC";
              batteryState := Js.Fin 95 |}).
  reflexivity.
Defined.

(** X7.  [parseHeartbeat] reports a healthy board only for a message
    that contains [heartbeat(0)]. *)
Theorem parseHeartbeat_healthy (message : string) :
  parseHeartbeat message = true ->
  Js.includes message "heartbeat(0)" = true.
Proof.
  unfold parseHeartbeat. intros H.
  destruct (Js.search heartbeat_at message) as [d|] eqn:E; [|discriminate].
  apply search_suffix in E as (pre & s & -> & E).
  unfold heartbeat_at in E.
  apply bind_Some in E as (r & E1 & E).
  destruct r as [|c r]; [discriminate|].
  destruct (Js.isDigit c) eqn:Hc; [|discriminate].
  apply bind_Some in E as (r' & E2 & E). injection E as ->.
  apply lit_app in E1, E2. subst s r.
  apply Z.eqb_eq in H. unfold Js.digitVal in H.
  assert (Hd : d = "0"%char).
  { rewrite <- (ascii_nat_embedding d).
    replace (nat_of_ascii d) with 48%nat by lia. reflexivity. }
  subst d. apply includes_suffix. destruct r'; reflexivity.
Qed.

Lemma parseHeartbeat_healthy_witness :
  Js.includes "heartbeat(0)" "heartbeat(0)" = true.
Proof.
  apply (parseHeartbeat_healthy "heartbeat(0)"). reflexivity.
Defined.

End Helpers.

Section Amounts.
Import transactionUtils validationUtils.




(** The difference is the number for the exact difference: in binary64,
    0.3 - 0.1 is not 0.2. *)
Lemma calculateDispensedAmount_rounds :
  match Js.double 0.1, Js.double 0.2, Js.double 0.3 with
  | Js.Fin tenth, Js.Fin fifth, Js.Fin x =>
      calculateDispensedAmount (Js.Fin tenth) (Js.Fin x)
      = Some (Js.Fin (7205759403792793 # 36028797018963968)) /\
      (fifth == 7205759403792794 # 36028797018963968)%Q
  | _, _, _ => False
  end.
Proof. vm_compute. split; reflexivity. Qed.

End Amounts.

Section Retries.
Import RetryHandler.

Context {A : Type}.



End Retries.

(** * Further properties of the frame handler *)

Section FrameHandler.
Import STATES FuelStateMachine Frames Refill Board FilterRun.

Lemma parseMeterResponse_includes (data : string) (value : Q) :
  UartService.parseMeterResponse data = Some value ->
  Js.includes data "meter_read" = true.
Proof.
  intros H. apply search_suffix in H as (pre & s & -> & H).
  unfold UartService.meter_read_at in H.
  apply bind_Some in H as (r1 & E1 & _).
  apply lit_app in E1. subst s. apply includes_suffix. reflexivity.
Qed.

Lemma processRfidResponse_state (now : Z) (info : UartService.RfidInfo)
      (m : t) :
  let m' := processRfidResponse now info m in
  currentState m' = currentState m \/
  currentState m' = REFILL_WAIT_FOR_DRF_SUBMIT \/
  currentState m' = REFILL_OP_IDLE.
Proof.
  cbv zeta. unfold processRfidResponse.
  destruct (String.eqb _ _); [auto|].
  destruct (List.find _ _); simpl; auto.
Qed.

(** X10.  Which frames move the supervisor.  A frame from the board
    changes the state in two cases only: an [rfid_alarm] frame during
    [REFILL_PROGRESS] moves it to [REFILL_INTERRUPT], and an [rfid_get]
    reply during [REFILL_GET_FIRST_RFID] moves it to
    [REFILL_WAIT_FOR_DRF_SUBMIT] or to [REFILL_OP_IDLE].  Meter readings,
    board and nozzle heartbeats and [rfid_match] frames never change the
    state. *)
Theorem frames_change_state (now : Z) (data : string) (m : t) :
  let m' := handleUartResponse now data m in
  currentState m' = currentState m \/
  (branch data = on_rfid_alarm /\ currentState m = REFILL_PROGRESS /\
   currentState m' = REFILL_INTERRUPT) \/
  (branch data = on_rfid_get /\ currentState m = REFILL_GET_FIRST_RFID /\
   (currentState m' = REFILL_WAIT_FOR_DRF_SUBMIT \/
    currentState m' = REFILL_OP_IDLE)).
Proof.
  cbv zeta. unfold handleUartResponse, branch.
  destruct (Js.includes data "meter_read").
  { left. destruct (UartService.parseMeterResponse data); [|reflexivity].
    destruct (addMeterReading _ _ _) as [r isStable]. simpl.
    destruct (currentTransaction m); [|reflexivity]. simpl.
    destruct (Qle_bool _ _); reflexivity. }
  destruct (Js.includes data "heartbeat"); [left; reflexivity|].
  destruct (Js.includes data "nhb").
  { left. destruct (idMatches _ _); reflexivity. }
  destruct (Js.includes data "rfid_match").
  { left. destruct (Js.search rfid_match_at data); [|reflexivity].
    destruct (String.eqb _ _); reflexivity. }
  destruct (Js.includes data "rfid_alarm").
  { destruct (Js.search rfid_alarm_at data); [|left; reflexivity].
    destruct (String.eqb _ _); [|left; reflexivity]. simpl.
    destruct (STATES.eqb (currentState m) REFILL_PROGRESS) eqn:E;
      [|left; reflexivity].
    apply STATES_eqb_eq in E. right. left. auto. }
  destruct (Js.includes data "rfid_get"); [|left; reflexivity].
  destruct (UartService.parseRfidResponse data) as [info|];
    [|left; reflexivity].
  simpl.
  destruct (STATES.eqb (currentState m) REFILL_GET_FIRST_RFID) eqn:E;
    [|left; reflexivity].
  apply STATES_eqb_eq in E.
  match goal with
  | |- context [processRfidResponse now info ?m0] =>
      destruct (processRfidResponse_state now info m0) as [H|H]
  end.
  - left. exact H.
  - right. right. auto.
Qed.

Lemma sentCommands_app (a b : list Effect) :
  sentCommands (a ++ b) = sentCommands a ++ sentCommands b.
Proof. unfold sentCommands. apply flat_map_app. Qed.

Lemma processRfidResponse_trace (now : Z) (info : UartService.RfidInfo)
      (m : t) :
  exists new, trace (processRfidResponse now info m) = trace m ++ new /\
              sentCommands new = [].
Proof.
  unfold processRfidResponse.
  destruct (String.eqb _ _).
  { exists []. rewrite app_nil_r. auto. }
  destruct (List.find _ _); simpl; eexists; split; reflexivity.
Qed.

(** X11.  Frames and the valve.  Handling a frame sends nothing to the
    board, with one exception: a nozzle heartbeat [nhb] for the
    configured nozzle is answered with [cbhb].  In particular an
    [rfid_alarm] frame during a refill moves the supervisor to
    [REFILL_INTERRUPT] without a [set_solenoid] command. *)
Theorem frames_send_only_cbhb (now : Z) (data : string) (m : t) :
  exists new,
    trace (handleUartResponse now data m) = trace m ++ new /\
    sentCommands new =
      match branch data with
      | on_nhb =>
          if sameId (nozzleId m) (Js.search nhb_at data)
          then [cbhb (nozzleId m)] else []
      | _ => []
      end.
Proof.
  unfold handleUartResponse, branch.
  destruct (Js.includes data "meter_read").
  { destruct (UartService.parseMeterResponse data);
      [|exists []; rewrite app_nil_r; auto].
    destruct (addMeterReading _ _ _) as [r isStable]. simpl.
    destruct (currentTransaction m); simpl;
      [|eexists; split; reflexivity].
    destruct (Qle_bool _ _); simpl.
    - unfold updateTransactionLiters. simpl.
      rewrite <- List.app_assoc. eexists; split; reflexivity.
    - eexists; split; reflexivity. }
  destruct (Js.includes data "heartbeat");
    [exists []; rewrite app_nil_r; auto|].
  destruct (Js.includes data "nhb").
  { unfold idMatches, sameId. simpl.
    destruct (Js.search nhb_at data) as [n|];
      [|exists []; rewrite app_nil_r; auto].
    destruct (String.eqb n (nozzleId m)); simpl;
      [eexists; split; reflexivity | exists []; rewrite app_nil_r; auto]. }
  destruct (Js.includes data "rfid_match").
  { destruct (Js.search rfid_match_at data);
      [|exists []; rewrite app_nil_r; auto].
    destruct (String.eqb _ _); simpl;
      [eexists; split; reflexivity | exists []; rewrite app_nil_r; auto]. }
  destruct (Js.includes data "rfid_alarm").
  { destruct (Js.search rfid_alarm_at data);
      [|exists []; rewrite app_nil_r; auto].
    destruct (String.eqb _ _); [|exists []; rewrite app_nil_r; auto].
    simpl. destruct (STATES.eqb _ _); simpl.
    - rewrite <- List.app_assoc. eexists; split; reflexivity.
    - eexists; split; reflexivity. }
  destruct (Js.includes data "rfid_get");
    [|exists []; rewrite app_nil_r; auto].
  destruct (UartService.parseRfidResponse data) as [info|];
    [|exists []; rewrite app_nil_r; auto].
  simpl. destruct (STATES.eqb _ _); simpl.
  - match goal with
    | |- context [processRfidResponse now info ?m0] =>
        destruct (processRfidResponse_trace now info m0) as (new & Ht & Hc)
    end.
    rewrite Ht. simpl. rewrite <- List.app_assoc.
    eexists; split; [reflexivity|]. rewrite sentCommands_app, Hc. reflexivity.
  - eexists; split; reflexivity.
Qed.

Lemma addMeterReading_window (now : Z) (reading : Q) (r : MeterReading) :
  stabilityThreshold r = 2%nat ->
  (List.length (readings r) <= 4)%nat ->
  stabilityThreshold (fst (addMeterReading now reading r)) = 2%nat /\
  (List.length (readings (fst (addMeterReading now reading r))) <= 4)%nat /\
  (1 <= List.length (readings (fst (addMeterReading now reading r))))%nat.
Proof.
  intros Hn Hl. unfold addMeterReading.
  destruct (readings r) as [|a l] eqn:Er; simpl; rewrite ?Er, Hn; simpl.
  - destruct (isMeterReadingStable _ _); simpl; rewrite ?Hn; repeat split; lia.
  - simpl in Hl. rewrite length_app. simpl.
    destruct (List.length l + 1)%nat as [|[|[|[|n]]]] eqn:El; simpl;
      destruct (isMeterReadingStable _ _); simpl;
      rewrite ?Hn, ?length_app; simpl; repeat split; lia.
Qed.

(** X13.  The window of the meter filter is bounded: after any arrivals
    since a reset it holds at most four readings (twice the stability
    threshold), and it is empty only before the first arrival. *)
Theorem filter_window_bounded (evs : list (Z * Q)) :
  (List.length (readings (fst (run evs))) <= 4)%nat /\
  (List.length (readings (fst (run evs))) = 0%nat <-> evs = []).
Proof.
  assert (H : stabilityThreshold (fst (run evs)) = 2%nat /\
              (List.length (readings (fst (run evs))) <= 4)%nat /\
              (List.length (readings (fst (run evs))) = 0%nat <-> evs = [])).
  { induction evs as [|[t v] evs IH] using rev_ind.
    - simpl. repeat split; lia.
    - rewrite run_snoc. destruct IH as (Hn & Hl & _).
      destruct (addMeterReading_window t v _ Hn Hl) as (Hn' & Hl' & Hp).
      split; [exact Hn'|]. split; [exact Hl'|].
      split; [lia|]. intros Habs. destruct evs; discriminate Habs. }
  destruct H as (_ & Hl & He). auto.
Qed.

End FrameHandler.

(** * The state handlers *)

Section Handlers.
Import STATES Supervisor Runs.

Ltac unfold_async :=
  cbv [processed forked try_catch bind ret get modify clock throw sleep
       sendCommand transition startReqTimer checkReqTimeout
       checkAppCommTimeout retriesFinished setRetryCount setRfidLed
       setSolenoidState rfid_stop getMeterValue finalizeTransaction
       setCurrent setLastStable setDispensedLiter rfid_get_cont
       processForceStopState processLastMeterReadState
       processWaitMeterStabilityState processRefillProgressState
       processInterruptState handleNozzleTimeout handleAppTimeout
       processStartState processWaitForDrfState processReadFirstMeterState
       processWaitFirstRfidMatchState processWaitAppInformState
       rfid_get rfid_get_stop readFleetNumber].

Ltac case_run :=
  match goal with
  | |- Always _ _ _ _ ?r =>
      match r with
      | context [match ?x with _ => _ end] => destruct x eqn:?
      end
  end.

Ltac run_with tac :=
  repeat first
    [ solve [exfalso; tac]
    | apply always_finished; [solve [tac] | solve [tac]]
    | apply always_unhandled; [solve [tac] | solve [tac]]
    | apply always_suspended; [solve [tac] | intros ? ? ?]
    | apply always_sleeping; [solve [tac] | intros ? ?]
    | case_run ].

Lemma meter_frame_filter (now : Z) (data : string) (value : Q)
      (m : FuelStateMachine.t) :
  UartService.parseMeterResponse data = Some value ->
  let r1 := fst (FuelStateMachine.addMeterReading
                   now value (FuelStateMachine.meterReading m)) in
  let r' := FuelStateMachine.meterReading
              (FuelStateMachine.handleUartResponse now data m) in
  FuelStateMachine.readings r' = FuelStateMachine.readings r1 /\
  FuelStateMachine.stabilityThreshold r'
  = FuelStateMachine.stabilityThreshold r1 /\
  FuelStateMachine.stabilityTimeoutMs r'
  = FuelStateMachine.stabilityTimeoutMs r1 /\
  FuelStateMachine.stabilityTimestamp r'
  = FuelStateMachine.stabilityTimestamp r1.
Proof.
  intros Hp. cbv zeta. unfold FuelStateMachine.handleUartResponse.
  rewrite (parseMeterResponse_includes _ _ Hp), Hp.
  set (m0 := FuelStateMachine.set_lastUartResponse m (Some data)).
  change (FuelStateMachine.meterReading m)
    with (FuelStateMachine.meterReading m0).
  destruct (FuelStateMachine.addMeterReading now value
              (FuelStateMachine.meterReading m0)) as [r isStable].
  simpl. destruct (FuelStateMachine.currentTransaction m); simpl; [|auto].
  destruct (Qle_bool _ _); simpl; auto.
Qed.

Lemma addMeterReading_armed (now : Z) (value : Q)
      (r : FuelStateMachine.MeterReading) :
  armed r ->
  let r1 := fst (FuelStateMachine.addMeterReading now value r) in
  (exists pre, FuelStateMachine.readings r1 = pre ++ [value]) /\
  FuelStateMachine.stabilityThreshold r1 = 2%nat /\
  FuelStateMachine.stabilityTimeoutMs r1 = 5000 /\
  FuelStateMachine.stabilityTimestamp r1 = Some (windowStart now r).
Proof.
  intros (Hn & Hd & Ht). cbv zeta. unfold windowStart.
  destruct (FuelStateMachine.readings r) as [|a l] eqn:Er.
  - unfold FuelStateMachine.addMeterReading. rewrite Er. simpl.
    rewrite Hn, Er. simpl.
    destruct (FuelStateMachine.isMeterReadingStable _ _); simpl;
      (split; [exists []; reflexivity | auto]).
  - destruct Ht as [Ht | [t0 Ht]]; [discriminate Ht|].
    destruct (exists_last (l := a :: l)) as (pre & v' & Hl);
      [discriminate|].
    rewrite <- Er in Hl.
    destruct (addMeterReading_next now t0 value v' pre r Hl Hn Hd Ht)
      as (_ & (pre' & Hr') & Hn' & Hd' & Ht' & _).
    split; [exists (pre' ++ [v']); rewrite Hr', <- List.app_assoc;
            reflexivity|].
    rewrite Ht. simpl. auto.
Qed.

(** X14.  One reply, two readings.  The reply to the [meter_read()] of
    [getMeterValue] reaches the ['data'] listener first, which feeds the
    reading to the meter filter: the reading is then the newest of the
    window.  When [getMeterValue] goes on, it feeds the same reading
    again.  So, whatever else has happened in between, as long as that
    reading is still the newest of the window, the filter finds the last
    two readings equal, and [getMeterValue] returns the reading exactly
    when at least 5000 ms have passed since the first reading of the
    window, whatever the readings before it were; the reading is then
    also the last stable one. *)
Theorem getMeterValue_counts_reply_twice
        (k : Completion (option Q) -> Z -> t -> Run)
        (now0 now now' : Z) (s0 s : t) (data : string) (value : Q) :
  armed (FuelStateMachine.meterReading (machine s)) ->
  UartService.parseMeterResponse data = Some value ->
  let t0 := windowStart now (FuelStateMachine.meterReading (machine s)) in
  let isStable := (5000 <=? now' - t0)%Z in
  lastHeard value t0
            (FuelStateMachine.meterReading (machine (onData now data s))) /\
  forall s1 : t,
    lastHeard value t0 (FuelStateMachine.meterReading (machine s1)) ->
    exists s',
      resumed (getMeterValue k now0 s0) (fulfilled data) now' s1
      = k (Normal (if isStable then Some value else None)) now' s' /\
      FuelStateMachine.lastStable (FuelStateMachine.meterReading (machine s'))
      = (if isStable then value
         else FuelStateMachine.lastStable
                (FuelStateMachine.meterReading (machine s1))).
Proof.
  intros Harmed Hp. cbv zeta. split.
  - destruct (meter_frame_filter now data value (machine s) Hp)
      as (Hr & Hn & Hd & Ht).
    destruct (addMeterReading_armed now value _ Harmed)
      as ((pre & Hr1) & Hn1 & Hd1 & Ht1).
    unfold lastHeard, onData. cbn [machine on_machine with_machine].
    rewrite Hr, Hn, Hd, Ht. eauto.
  - intros s1 ((pre & Hr) & Hn & Hd & Ht).
    pose proof (addMeterReading_next now' _ value value pre _ Hr Hn Hd Ht)
      as (Hs & _ & _ & _ & _ & _ & Hl).
    rewrite Qeq_bool_refl in Hs. simpl andb in Hs.
    unfold getMeterValue, try_catch, bind, sendCommand, resumed.
    rewrite Hp. unfold clock, get, modify, ret.
    cbn [machine on_machine with_machine].
    destruct (FuelStateMachine.addMeterReading now' value _) as [r isStable].
    cbn [fst snd] in Hs, Hl. subst isStable.
    eexists. split; [reflexivity|]. exact Hl.
Qed.

Lemma getMeterValue_counts_reply_twice_witness :
  let k := fun (_ : Completion (option Q)) (_ : Z) (s : t) => Finished s in
  let s := new 0 [] in
  let heard := onData 1000 "meter_read(12.5)" s in
  let t0 := windowStart 1000 (FuelStateMachine.meterReading (machine s)) in
  let isStable := (5000 <=? 1001 - t0)%Z in
  exists s',
    resumed (getMeterValue k 10 s) (fulfilled "meter_read(12.5)") 1001 heard
    = k (Normal (if isStable then Some (125 # 10) else None)) 1001 s' /\
    FuelStateMachine.lastStable (FuelStateMachine.meterReading (machine s'))
    = (if isStable then 125 # 10
       else FuelStateMachine.lastStable
              (FuelStateMachine.meterReading (machine heard))).
Proof.
  destruct (getMeterValue_counts_reply_twice
              (fun _ _ s => Finished s) 10 1000 1001 (new 0 []) (new 0 [])
              "meter_read(12.5)" (125 # 10)) as [Hheard Hgoes].
  - unfold armed. simpl. auto.
  - reflexivity.
  - apply Hgoes, Hheard.
Defined.


Lemma finalizeTransaction_state (now : Z) (finalReading : Q)
      (m : FuelStateMachine.t) :
  match FuelStateMachine.finalizeTransaction now finalReading m with
  | FuelStateMachine.Normal m' =>
      FuelStateMachine.currentState m' = REFILL_WAIT_APP_INFORM
  | FuelStateMachine.TypeError m' =>
      FuelStateMachine.currentState m' = FuelStateMachine.currentState m
  end.
Proof.
  unfold FuelStateMachine.finalizeTransaction.
  destruct (negb (Qle_bool finalReading 0)); simpl.
  - destruct (FuelStateMachine.currentTransaction m); simpl; [|reflexivity].
    destruct (FuelStateMachine.vehicle m); reflexivity.
  - destruct (FuelStateMachine.vehicle m); simpl; [|reflexivity].
    unfold FuelStateMachine.deleteTransaction.
    destruct (FuelStateMachine.currentTransaction m); reflexivity.
Qed.



Ltac not_open :=
  let H := fresh in
  intros H; simpl in H;
  repeat match goal with
         | H : _ \/ _ |- _ => destruct H as [H|H]
         end;
  solve [ contradiction
        | unfold openValve, closeValve in *; cbv [String.append] in *;
          discriminate ].

(** X17.  Leaving a refill.  In [processRefillProgressState] every
    segment leaves the supervisor in the state it found or moves it to
    [REFILL_OP_ERROR], except that after [set_solenoid(0)] has been sent
    a segment may move it to [REFILL_INTERRUPT] or
    [REFILL_LAST_METER_READ].  So the handler ends a refill in progress
    only after commanding the valve closed; and it never commands the
    valve open. *)
Theorem refill_progress_closes_valve_first (now : Z) (s : t) :
  Always
    (fun issued a b ending =>
       ending <> Some openValve /\
       (movesOnlyTo [REFILL_OP_ERROR] a b \/
        (In closeValve issued /\
         In (FuelStateMachine.currentState (machine b))
            [REFILL_INTERRUPT; REFILL_LAST_METER_READ])))
    (fun issued _ => ~ In openValve issued)
    [] s (processed processRefillProgressState now s).
Proof.
  unfold_async.
  run_with ltac:(
    unfold movesOnlyTo; simpl;
    try (split; [not_open|]);
    first [ not_open
          | solve [left; left; reflexivity]
          | solve [left; right; simpl; auto]
          | solve [right; split;
                   [cbv [In closeValve String.append]; auto 8
                   | simpl; auto]] ]).
Qed.

(** X18.  An interrupted refill is not resumed.  The handler of
    [REFILL_INTERRUPT] resumes the refill only when [lastRfidResponse]
    holds a frame; that field is [null] after the constructor and after
    every reset, and no code stores a frame in it.  With the field
    empty, every segment of [processInterruptState] leaves the
    supervisor in the state it found or moves it to
    [REFILL_LAST_METER_READ] or [REFILL_OP_ERROR], and the handler never
    commands the valve open. *)
Theorem interrupt_never_resumes (now : Z) (s : t) :
  truthy (lastRfidResponse s) = false ->
  Always
    (fun issued a b ending =>
       ending <> Some openValve /\
       movesOnlyTo [REFILL_LAST_METER_READ; REFILL_OP_ERROR] a b)
    (fun issued _ => ~ In openValve issued)
    [] s (processed processInterruptState now s).
Proof.
  intros Hnone. unfold_async.
  run_with ltac:(
    unfold movesOnlyTo; simpl;
    try discriminate Hnone;
    try (split; [not_open|]);
    first [ not_open
          | solve [left; reflexivity]
          | solve [right; simpl; auto] ]).
Qed.

Lemma interrupt_never_resumes_witness :
  Always
    (fun issued a b ending =>
       ending <> Some openValve /\
       movesOnlyTo [REFILL_LAST_METER_READ; REFILL_OP_ERROR] a b)
    (fun issued _ => ~ In openValve issued)
    [] (new 0 []) (processed processInterruptState 700000 (new 0 [])).
Proof.
  apply (interrupt_never_resumes 700000 (new 0 [])). reflexivity.
Defined.

Lemma handleNozzleTimeout_elsewhere (now : Z) (s : t) :
  FuelStateMachine.currentState (machine s) <> REFILL_PROGRESS ->
  forked handleNozzleTimeout now s = Finished s.
Proof.
  intros H. unfold forked, handleNozzleTimeout, bind, get.
  destruct (STATES.eqb _ REFILL_PROGRESS) eqn:E; [|reflexivity].
  apply STATES_eqb_eq in E. contradiction.
Qed.

Lemma handleAppTimeout_elsewhere (now : Z) (s : t) :
  FuelStateMachine.currentState (machine s) <> REFILL_PROGRESS ->
  forked handleAppTimeout now s = Finished s.
Proof.
  intros H. unfold forked, handleAppTimeout, bind, get.
  destruct (STATES.eqb _ REFILL_PROGRESS) eqn:E; [|reflexivity].
  apply STATES_eqb_eq in E. contradiction.
Qed.

(** X19.  The health monitor and a lost board.  When the last board
    heartbeat is more than 40 s old and the supervisor is not yet in
    [REFILL_OP_ERROR], [monitorSystemHealth] moves it there before it
    looks at the nozzle and the application: the handlers it then starts
    find a state other than [REFILL_PROGRESS] and finish at once.  So the
    monitor sends no command; in particular a valve that is open stays
    open. *)
Theorem monitor_board_lost (now : Z) (s : t) :
  (Constants.NOZZLE_HEARTBEAT_TIMEOUT
   <? now - FuelStateMachine.lastHeartbeatTime (machine s))%Z = true ->
  FuelStateMachine.currentState (machine s) <> REFILL_OP_ERROR ->
  let s' := fst (monitorSystemHealth now s) in
  let started := snd (monitorSystemHealth now s) in
  s' = on_machine
         (FuelStateMachine.transition now REFILL_OP_ERROR
            (Some [("reason", str "Heartbeat timeout")])
            (Some "System heartbeat timeout detected")) s /\
  Forall (fun r => r = Finished s') started /\
  solenoidState s' = solenoidState s /\
  Board.sentCommands (FuelStateMachine.trace (machine s'))
  = Board.sentCommands (FuelStateMachine.trace (machine s)).
Proof.
  intros Hlost Hstate. cbv zeta.
  set (s1 := on_machine
               (FuelStateMachine.transition now REFILL_OP_ERROR
                  (Some [("reason", str "Heartbeat timeout")])
                  (Some "System heartbeat timeout detected")) s).
  assert (Hs1 : FuelStateMachine.currentState (machine s1) <> REFILL_PROGRESS)
    by (subst s1; simpl; discriminate).
  assert (Hc : Board.sentCommands (FuelStateMachine.trace (machine s1))
               = Board.sentCommands (FuelStateMachine.trace (machine s))).
  { subst s1. simpl. rewrite sentCommands_app. simpl. apply app_nil_r. }
  assert (Hm : monitorSystemHealth now s = (s1, [])
               \/ monitorSystemHealth now s = (s1, [Finished s1])
               \/ monitorSystemHealth now s = (s1, [Finished s1; Finished s1])).
  { unfold monitorSystemHealth. rewrite Hlost. unfold handleHeartbeatTimeout.
    destruct (STATES.eqb (FuelStateMachine.currentState (machine s))
                         REFILL_OP_ERROR) eqn:E.
    { apply STATES_eqb_eq in E. contradiction. }
    cbn [negb]. fold s1.
    rewrite (handleNozzleTimeout_elsewhere now s1 Hs1).
    destruct (negb _ && _); cbn [standing];
      rewrite (handleAppTimeout_elsewhere now s1 Hs1);
      destruct (negb _ && _); cbn [standing app]; auto. }
  destruct Hm as [-> | [-> | ->]]; cbn [fst snd];
    repeat split; auto.
Qed.

Lemma monitor_board_lost_witness :
  let s := set_solenoidState true
             (on_machine
                (FuelStateMachine.transition 10 REFILL_PROGRESS None
                   (Some "RFID match confirmed, proceeding to refill"))
                (new 0 [])) in
  let s' := fst (monitorSystemHealth 50000 s) in
  let started := snd (monitorSystemHealth 50000 s) in
  s' = on_machine
         (FuelStateMachine.transition 50000 REFILL_OP_ERROR
            (Some [("reason", str "Heartbeat timeout")])
            (Some "System heartbeat timeout detected")) s /\
  Forall (fun r => r = Finished s') started /\
  solenoidState s' = solenoidState s /\
  Board.sentCommands (FuelStateMachine.trace (machine s'))
  = Board.sentCommands (FuelStateMachine.trace (machine s)).
Proof.
  apply (monitor_board_lost 50000
           (set_solenoidState true
              (on_machine
                 (FuelStateMachine.transition 10 REFILL_PROGRESS None
                    (Some "RFID match confirmed, proceeding to refill"))
                 (new 0 [])))).
  - reflexivity.
  - discriminate.
Defined.

(** X24.  Opening the valve.  [processWaitFirstRfidMatchState] sends
    [set_solenoid(1)] only in a segment that found the tag in contact
    with a match time recorded, and only when the store has accepted the
    transaction; it moves the supervisor to [REFILL_PROGRESS] only after
    that command. *)
Theorem valve_opened_only_after_match (stored : bool) (now : Z) (s : t) :
  Always
    (fun issued a b ending =>
       (ending = Some openValve ->
        stored = true /\ matchConfirmed a = true) /\
       (movesOnlyTo [REFILL_WAIT_APP_INFORM; REFILL_OP_IDLE; REFILL_OP_ERROR]
                    a b \/
        (In openValve issued /\
         FuelStateMachine.currentState (machine b) = REFILL_PROGRESS)))
    (fun _ _ => True)
    [] s (processed (processWaitFirstRfidMatchState stored) now s).
Proof.
  unfold_async.
  run_with ltac:(
    unfold movesOnlyTo; simpl;
    try (split;
         [ first [ solve [intros H; cbv [String.append openValve] in H;
                          discriminate H]
                 | solve [intros _; split;
                          [ destruct stored; [reflexivity | discriminate]
                          | unfold matchConfirmed in *; simpl in *;
                            assumption ]] ] |]);
    first [ exact I
          | solve [left; left; reflexivity]
          | solve [left; right; simpl; auto]
          | solve [right; split;
                   [cbv [In openValve String.append]; auto 8
                   | reflexivity]] ]).
Qed.

(** X25.  The other handlers and the valve.  The handlers of the states
    before the refill, of the refill itself and of the states after it
    never send [set_solenoid(1)], whatever the board answers. *)
Theorem handlers_never_open_valve (now : Z) (s : t) :
  Forall
    (fun handler =>
       Always (fun _ _ _ ending => ending <> Some openValve)
              (fun issued _ => ~ In openValve issued)
              [] s (processed handler now s))
    [processStartState; processWaitForDrfState;
     processReadFirstMeterState; processRefillProgressState;
     processLastMeterReadState; processWaitMeterStabilityState;
     processForceStopState; processWaitAppInformState].
Proof.
  repeat apply List.Forall_cons; [..|apply List.Forall_nil];
    unfold_async;
    run_with ltac:(not_open).
Qed.

(** X26.  Ten handlers and the table.  [transition] never consults the
    [allowedTransitions] arrays, but the handlers of ten of the thirteen
    states keep to them (the handlers of [REFILL_OP_IDLE],
    [REFILL_GET_FIRST_RFID] and [REFILL_OP_ERROR] are not among them):
    every segment of one of these handlers leaves the supervisor in the
    state it found or moves it to a state that the table lists for the
    handler's state.  Among the ten the one exception is
    [processStartState], which returns to [REFILL_OP_IDLE] when its
    command fails; the table does not list that target for
    [REFILL_OP_START]. *)
Theorem handlers_keep_to_table (stored : bool) (now : Z) (s : t) :
  Forall
    (fun entry =>
       Always (fun _ a b _ => movesOnlyTo (listedTargets (fst entry)) a b)
              (fun _ _ => True)
              [] s (processed (snd entry) now s))
    (handlers stored) /\
  StateDefinitions.transitionListed REFILL_OP_START REFILL_OP_IDLE = false /\
  forall message now' s',
    FuelStateMachine.currentState
      (machine (standing (resumed (processed processStartState now s)
                                  (rejected message) now' s')))
    = REFILL_OP_IDLE.
Proof.
  split; [|split; [reflexivity | intros; reflexivity]].
  unfold handlers.
  repeat apply List.Forall_cons; [..|apply List.Forall_nil];
    cbn [fst snd listedTargets StateDefinitions.allowedTransitions];
    unfold_async;
    run_with ltac:(
      unfold movesOnlyTo; simpl;
      repeat match goal with
      | H : FuelStateMachine.finalizeTransaction ?n ?v ?m = _ |- _ =>
          let F := fresh in
          pose proof (finalizeTransaction_state n v m) as F;
          rewrite H in F; clear H; simpl in F
      end;
      first [ exact I
            | solve [left; reflexivity]
            | solve [left; congruence]
            | solve [right; simpl; auto 8] ]).
Qed.

End Handlers.

(** * Further properties of the operator surface *)

Section OperatorRoutes.
Import STATES ApiRoutes Routes PortUpkeep.

(** X20.  Two ways to start a refill.  [POST /api/fill] does to the
    supervisor what the [refill_req] operation does for a caller whose
    token is known, and it asks for no token: from [REFILL_OP_IDLE] it
    moves the supervisor to [REFILL_OP_START] and answers 200, in any
    other state it answers 400 and changes nothing. *)
Theorem fill_starts_without_token (now : Z) (token user : string) (api : t) :
  let known := {| stateMachine := stateMachine api;
                  activeTokens := <[token := user]> (activeTokens api) |} in
  stateMachine (fst (fill now api))
  = stateMachine (fst (operation now token refill_req known)) /\
  activeTokens (fst (fill now api)) = activeTokens api /\
  (if STATES.eqb (FuelStateMachine.currentState (stateMachine api))
                 REFILL_OP_IDLE
   then status (snd (fill now api)) = 200 /\
        FuelStateMachine.currentState (stateMachine (fst (fill now api)))
        = REFILL_OP_START
   else status (snd (fill now api)) = 400 /\ fst (fill now api) = api).
Proof.
  cbv zeta. unfold fill, operation. cbn [activeTokens stateMachine].
  rewrite lookup_insert_eq.
  destruct (STATES.eqb (FuelStateMachine.currentState (stateMachine api))
                       REFILL_OP_IDLE); simpl; auto.
Qed.

(** X21.  Two ways to submit the odometer.  For a caller whose token is
    known, the [refill_drf] operation does to the supervisor exactly what
    [POST /api/drf-submit] does with the same value, and answers with
    the same status. *)
Theorem refill_drf_is_drf_submit (now : Z) (token user : string)
        (hours : BodyField) (api : t) :
  activeTokens api !! token = Some user ->
  fst (operation now token (refill_drf hours) api)
  = fst (drf_submit now hours api) /\
  status (snd (operation now token (refill_drf hours) api))
  = status (snd (drf_submit now hours api)).
Proof.
  intros Htok. unfold operation, drf_submit. rewrite Htok.
  destruct (Js.isNaN _ || negb (Js.isFinite _)); [auto|].
  destruct (Js.gt _ _); [auto|].
  destruct (negb _); auto.
Qed.

Lemma refill_drf_is_drf_submit_witness :
  fst (operation 7 "token" (refill_drf (jstring "120")) Odometer.idleWithSession)
  = fst (drf_submit 7 (jstring "120") Odometer.idleWithSession) /\
  status (snd (operation 7 "token" (refill_drf (jstring "120"))
                         Odometer.idleWithSession))
  = status (snd (drf_submit 7 (jstring "120") Odometer.idleWithSession)).
Proof.
  apply (refill_drf_is_drf_submit 7 "token" "operator" (jstring "120")
           Odometer.idleWithSession).
  reflexivity.
Defined.

(** X22.  The application watch.  No operator request refreshes
    [lastAppCommTime]: not [POST /api/fill], not [POST /api/drf-submit],
    not an operation [refill_req], [refill_drf], [refill_params] or
    [refill_finish], with or without a known token; and no frame from
    the board does.  (The constructor and the start of a refill are the
    only writers, so the application timeout of 600 s runs from the
    start of the refill.) *)
Theorem requests_do_not_refresh_app_watch
        (now : Z) (token : string) (request : Request) (hours : BodyField)
        (data : string) (api : t) (s : Supervisor.t) :
  let watch := fun api => FuelStateMachine.lastAppCommTime (stateMachine api) in
  watch (fst (fill now api)) = watch api /\
  watch (fst (drf_submit now hours api)) = watch api /\
  watch (fst (operation now token request api)) = watch api /\
  FuelStateMachine.lastAppCommTime
    (Supervisor.machine (fst (refill_params now s)))
  = FuelStateMachine.lastAppCommTime (Supervisor.machine s) /\
  FuelStateMachine.lastAppCommTime
    (FuelStateMachine.handleUartResponse now data (stateMachine api))
  = watch api.
Proof.
  cbv zeta. repeat split.
  - unfold fill. destruct (negb _); reflexivity.
  - unfold drf_submit.
    destruct (Js.isNaN _ || negb (Js.isFinite _)); [reflexivity|].
    destruct (Js.gt _ _); [reflexivity|].
    destruct (negb _); reflexivity.
  - unfold operation. destruct (activeTokens api !! token); [|reflexivity].
    destruct request as [|h| |r]; try reflexivity.
    + destruct (negb _); reflexivity.
    + destruct (Js.isNaN _ || negb (Js.isFinite _)); [reflexivity|].
      destruct (Js.gt _ _); [reflexivity|].
      destruct (negb _); reflexivity.
  - unfold refill_params. destruct (_ && _); reflexivity.
  - unfold FuelStateMachine.handleUartResponse.
    destruct (Js.includes data "meter_read").
    { destruct (UartService.parseMeterResponse data); [|reflexivity].
      destruct (FuelStateMachine.addMeterReading _ _ _) as [r isStable].
      simpl. destruct (FuelStateMachine.currentTransaction _);
        [|reflexivity].
      simpl. destruct (Qle_bool _ _); reflexivity. }
    destruct (Js.includes data "heartbeat"); [reflexivity|].
    destruct (Js.includes data "nhb").
    { destruct (FuelStateMachine.idMatches _ _); reflexivity. }
    destruct (Js.includes data "rfid_match").
    { destruct (Js.search _ data); [|reflexivity].
      destruct (String.eqb _ _); reflexivity. }
    destruct (Js.includes data "rfid_alarm").
    { destruct (Js.search _ data); [|reflexivity].
      destruct (String.eqb _ _); [|reflexivity].
      simpl. destruct (STATES.eqb _ _); reflexivity. }
    destruct (Js.includes data "rfid_get"); [|reflexivity].
    destruct (UartService.parseRfidResponse data) as [info|]; [|reflexivity].
    simpl. destruct (STATES.eqb _ _); [|reflexivity]. simpl.
    unfold FuelStateMachine.processRfidResponse.
    destruct (String.eqb _ _); [reflexivity|].
    destruct (List.find _ _); reflexivity.
Qed.

(** X23.  The level sensor.  When [/api/hls/:socketId] has asked the
    board for socket 3 or 4, any well-formed [hls_read] frame that
    settles the request is answered to the caller under the requested
    socket: the handler does not compare the socket that the frame
    names.  The reading it reports is the number for the value of the
    digits in the frame: the nearest number, which is the value itself
    when the frame gives at most 15 digits. *)
Theorem hls_reports_requested_socket
        (socketId value socket : string) (now : Z) :
  allChars Js.isDigit value = true -> value <> "" ->
  allChars Js.isDigit socket = true -> socket <> "" ->
  (Js.parseInt socketId = Js.Fin 3 \/ Js.parseInt socketId = Js.Fin 4) ->
  exists id answer level,
    hls socketId
    = asked ("hls_read(500," ++ id ++ ")")%string true answer /\
    Js.parseInt socketId = Js.Fin (inject_Z (Js.decimal 0 id)) /\
    answer (Supervisor.fulfilled (hlsFrame value socket)) now
    = ok [("success", Js.Bool true);
          ("hlsId", Js.Num (Js.parseInt socketId));
          ("meterRead", Js.Num level);
          ("denominator", Js.Num (Js.Fin 500));
          ("timestamp", Js.Num (Js.Fin (inject_Z now)))] /\
    level = Js.double (inject_Z (Js.decimal 0 value)) /\
    ((String.length value <= 15)%nat ->
     level = Js.Fin (inject_Z (Js.decimal 0 value))).
Proof.
  intros Hv Hv0 Hs Hs0 Hid.
  assert (Hm : Js.search hls_read_at (hlsFrame value socket) = Some value).
  { apply search_here. unfold hls_read_at, hlsFrame.
    rewrite lit_here. cbn [mbind option_bind].
    rewrite (plus_run _ _ _ Hv Hv0) by reflexivity. cbn [mbind option_bind].
    rewrite lit_here. cbn [mbind option_bind].
    rewrite (plus_run _ _ _ Hs Hs0) by reflexivity. reflexivity. }
  unfold hls. destruct Hid as [-> | ->]; simpl Qeq_bool; cbv iota.
  - exists "3", (hlsAnswer 3), (Js.parseInt value).
    split; [reflexivity|]. split; [reflexivity|].
    split; [unfold hlsAnswer; rewrite Hm; reflexivity|].
    split; [apply parseInt_digits | apply parseInt_short]; assumption.
  - exists "4", (hlsAnswer 4), (Js.parseInt value).
    split; [reflexivity|]. split; [reflexivity|].
    split; [unfold hlsAnswer; rewrite Hm; reflexivity|].
    split; [apply parseInt_digits | apply parseInt_short]; assumption.
Qed.

Lemma hls_reports_requested_socket_witness :
  exists id answer level,
    hls "3"
    = asked ("hls_read(500," ++ id ++ ")")%string true answer /\
    Js.parseInt "3" = Js.Fin (inject_Z (Js.decimal 0 id)) /\
    answer (Supervisor.fulfilled (hlsFrame "123" "4")) 99
    = ok [("success", Js.Bool true);
          ("hlsId", Js.Num (Js.parseInt "3"));
          ("meterRead", Js.Num level);
          ("denominator", Js.Num (Js.Fin 500));
          ("timestamp", Js.Num (Js.Fin (inject_Z 99)))] /\
    level = Js.double (inject_Z (Js.decimal 0 "123")) /\
    ((String.length "123" <= 15)%nat ->
     level = Js.Fin (inject_Z (Js.decimal 0 "123"))).
Proof.
  apply (hls_reports_requested_socket "3" "123" "4" 99);
    first [reflexivity | discriminate | left; reflexivity].
Defined.

End OperatorRoutes.
